(** * Profile management: helpers and form component

    A shallow embedding of [lib/profileHelpers.js], of the [ProfileForm]
    component and of the [profiles] table declared in
    [scripts/004_create_profiles_table.sql], with the properties the
    specification states about them. *)

From Stdlib Require Import ZArith Lia Ascii String.
From stdpp Require Import base option list strings gmap pretty.

Open Scope string_scope.
Open Scope Z_scope.

(** ** JavaScript strings

    A string is a sequence of code units; the embedding covers the code
    units U+0000 to U+00FF, one [ascii] each. *)
Module JsString.

(** The white space and line terminators that [String.prototype.trim]
    strips, within U+0000..U+00FF: TAB, LF, VT, FF, CR, SP and NBSP. *)
Definition is_ws (c : ascii) : bool :=
  let n := N_of_ascii c in
  ((9 <=? n) && (n <=? 13) || (n =? 32) || (n =? 160))%N.

Definition is_empty (s : string) : bool :=
  match s with EmptyString => true | String _ _ => false end.

(** [s.split(sep)] for a one-character separator. The result is never
    empty: [''.split(',')] is [['']]. *)
Fixpoint split (sep : ascii) (s : string) : list string :=
  match s with
  | EmptyString => [""]
  | String c s' =>
      if Ascii.eqb c sep then "" :: split sep s'
      else match split sep s' with
           | [] => [String c ""]
           | seg :: rest => String c seg :: rest
           end
  end.

Fixpoint trimStart (s : string) : string :=
  match s with
  | EmptyString => ""
  | String c s' => if is_ws c then trimStart s' else s
  end.

Fixpoint trimEnd (s : string) : string :=
  match s with
  | EmptyString => ""
  | String c s' =>
      let t := trimEnd s' in
      if is_ws c && is_empty t then "" else String c t
  end.

Definition trim (s : string) : string := trimEnd (trimStart s).

(** [arr.join(sep)] *)
Definition join (sep : string) (arr : list string) : string :=
  String.concat sep arr.

(** [arr.pop()] on a fresh array: its last element, [undefined] (here
    [None]) when the array is empty. *)
Definition pop (arr : list string) : option string := last arr.

(** [s.includes(c)] for a single character. *)
Fixpoint has_char (c : ascii) (s : string) : bool :=
  match s with
  | EmptyString => false
  | String d s' => Ascii.eqb d c || has_char c s'
  end.

Definition first_char (s : string) : option ascii :=
  match s with EmptyString => None | String c _ => Some c end.

Fixpoint last_char (s : string) : option ascii :=
  match s with
  | EmptyString => None
  | String c s' =>
      match last_char s' with None => Some c | Some d => Some d end
  end.

End JsString.
Import JsString.

(** The conversion [handleSubmit] applies to the skills and to the
    interests field:
    [text.split(',').map(x => x.trim()).filter(x => x.length > 0)]. *)
Definition toArray (text : string) : list string :=
  List.filter (fun x => negb (is_empty x)) (List.map trim (split "," text)).

(** ** Values exchanged with the backend *)

(** JSON values of a row payload. [VTime t] stands for the ISO-8601 text
    of the instant [t] milliseconds after the epoch, which is what
    [new Date().toISOString()] produces and what a TIMESTAMPTZ column
    holds. *)
Inductive JsVal :=
| VNull
| VStr (s : string)
| VArr (a : list string)
| VTime (t : Z).

#[global] Instance JsVal_eq_dec : EqDecision JsVal.
Proof. solve_decision. Defined.

(** An [Error] object: thrown by the runtime or by the client library, or
    reported in the [error] field of a backend response. *)
Module Error.
Record t := mk { message : string; code : string }.
End Error.

Module User.
Record t := mk { id : string }.
End User.

(** A browser [File]. *)
Module File.
Record t := mk { name : string; type : string; size : Z }.
End File.

(** A row of the [profiles] table (scripts/004_create_profiles_table.sql);
    [None] is SQL NULL in the nullable columns. *)
Module Profile.
Record row := mk {
  id : string;
  user_id : string;
  resume_url : option string;
  skills : option (list string);
  interests : option (list string);
  experience_level : option string;
  preferred_location : option string;
  bio : option string;
  github_url : option string;
  linkedin_url : option string;
  portfolio_url : option string;
  updated_at : option Z
}.

Definition columns : list string :=
  ["id"; "user_id"; "resume_url"; "skills"; "interests";
   "experience_level"; "preferred_location"; "bio"; "github_url";
   "linkedin_url"; "portfolio_url"; "updated_at"].
End Profile.

(** [{ data, error }] as the client library answers a request. *)
Module Response.
Record t (A : Type) := mk { data : option A; error : option Error.t }.
Arguments mk {A} _ _.
Arguments data {A} _.
Arguments error {A} _.
Definition ok {A} (a : A) : t A := mk (Some a) None.
Definition failed {A} (e : Error.t) : t A := mk None (Some e).
End Response.

(** [{ data: { user }, error }] of [supabase.auth.getUser()]. *)
Module AuthResponse.
Record t := mk { user : option User.t; error : option Error.t }.
End AuthResponse.

(** ** The world outside the helpers *)

(** How a request that the backend has served can still end for the
    client. *)
Inductive Failure :=
| Reported (e : Error.t)   (* it resolves with [{ data: null, error: e }] *)
| Rejected (e : Error.t)   (* it rejects with the [Error] [e] *)
| RejectedNullish          (* it rejects with [null] or [undefined] *)
| Unsettled.               (* it never settles *)

(** What meets the next request. With [Fails], [Throws], [ThrowsNullish]
    and [Hangs] the backend does nothing; with [Served] it serves the
    request, and the client gets the failure [how] in place of the
    answer. *)
Inductive Fault :=
| NoFault
| Fails (e : Error.t)      (* the request resolves with [{ data: null, error: e }] *)
| Throws (e : Error.t)     (* the request rejects with the [Error] [e] *)
| ThrowsNullish            (* the request rejects with [null] or [undefined] *)
| Hangs                    (* the request never settles *)
| Served (how : Failure).  (* the request is served, then ends as [how] says *)

(** The requests the helpers send. *)
Inductive Call :=
| AuthGetUser
| StorageUpload (bucket fileName : string) (file : File.t) (upsert : bool)
| ProfilesUpsert (values : gmap string JsVal) (onConflict : string)
| ProfilesSelectSingle (userId : string).

Record World := mkWorld {
  session : option User.t;          (* the signed-in identity; [auth.uid()] on the server *)
  profiles : list Profile.row;      (* table [profiles] *)
  resumes : gmap string File.t;     (* bucket [resumes], object name to object *)
  client_clock : Z;                 (* [Date.now()] *)
  server_clock : Z;                 (* [NOW()] *)
  uuids : list string;              (* the values [gen_random_uuid()] returns next, in order *)
  faults : list Fault;              (* one entry consumed per request; none left: no fault *)
  calls : list Call;                (* the requests sent so far, oldest first *)
  file_input : option string;       (* [value] of the element [#resume-upload], if mounted *)
  publicUrl : string -> string      (* what [getPublicUrl] answers for an object name *)
}.

Definition set_profiles (t : list Profile.row) (w : World) : World :=
  mkWorld (session w) t (resumes w) (client_clock w) (server_clock w)
          (uuids w) (faults w) (calls w) (file_input w) (publicUrl w).

Definition set_resumes (b : gmap string File.t) (w : World) : World :=
  mkWorld (session w) (profiles w) b (client_clock w) (server_clock w)
          (uuids w) (faults w) (calls w) (file_input w) (publicUrl w).

Definition set_uuids (us : list string) (w : World) : World :=
  mkWorld (session w) (profiles w) (resumes w) (client_clock w) (server_clock w)
          us (faults w) (calls w) (file_input w) (publicUrl w).

Definition set_faults (fs : list Fault) (w : World) : World :=
  mkWorld (session w) (profiles w) (resumes w) (client_clock w) (server_clock w)
          (uuids w) fs (calls w) (file_input w) (publicUrl w).

(** [if (fileInput) fileInput.value = ''] *)
Definition clear_file_input (w : World) : World :=
  mkWorld (session w) (profiles w) (resumes w) (client_clock w) (server_clock w)
          (uuids w) (faults w) (calls w)
          (match file_input w with Some _ => Some "" | None => None end)
          (publicUrl w).

Definition log_call (c : Call) (w : World) : World :=
  mkWorld (session w) (profiles w) (resumes w) (client_clock w) (server_clock w)
          (uuids w) (faults w) (calls w ++ [c]) (file_input w) (publicUrl w).

(** ** Computations: state passing with exceptions *)

(** How an (asynchronous) call ends: it returns, it throws an [Error], it
    throws [null] or [undefined], or it is still waiting for a request
    that never settles. *)
Inductive Outcome (A : Type) :=
| Returned (a : A)
| Thrown (e : Error.t)
| ThrownNullish
| Pending.
Arguments Returned {A} _.
Arguments Thrown {A} _.
Arguments ThrownNullish {A}.
Arguments Pending {A}.

Definition M (S A : Type) : Type := S -> Outcome A * S.

#[global] Instance M_ret {S} : MRet (M S) :=
  fun A a s => (Returned a, s).

#[global] Instance M_bind {S} : MBind (M S) :=
  fun A B f m s =>
    match m s with
    | (Returned a, s') => f a s'
    | (Thrown e, s') => (Thrown e, s')
    | (ThrownNullish, s') => (ThrownNullish, s')
    | (Pending, s') => (Pending, s')
    end.

Definition throw {S A} (e : Error.t) : M S A := fun s => (Thrown e, s).

(** [try { body } catch (error) { handler }]: the handler gets what was
    thrown, an [Error] or ([None]) [null] or [undefined]. While the body
    waits, nothing is caught. *)
Definition try_catch {S A} (body : M S A) (handler : option Error.t -> M S A) : M S A :=
  fun s =>
    match body s with
    | (Returned a, s') => (Returned a, s')
    | (Thrown e, s') => handler (Some e) s'
    | (ThrownNullish, s') => handler None s'
    | (Pending, s') => (Pending, s')
    end.

(** [try { body } finally { cleanup }]: the cleanup runs once the body has
    ended, not while it waits. *)
Definition try_finally {S A} (body : M S A) (cleanup : M S unit) : M S A :=
  fun s =>
    match body s with
    | (Pending, s') => (Pending, s')
    | (o, s') =>
        match cleanup s' with
        | (Returned _, s'') => (o, s'')
        | (Thrown e, s'') => (Thrown e, s'')
        | (ThrownNullish, s'') => (ThrownNullish, s'')
        | (Pending, s'') => (Pending, s'')
        end
    end.

(** The error of reading [error.message] when [error] is [null] or
    [undefined]. *)
Definition TypeError_nullish_message : Error.t :=
  Error.mk "Cannot read properties of undefined (reading 'message')" "".

(** [error.message] of a caught value. *)
Definition message_of {S} (error : option Error.t) : M S string :=
  match error with
  | Some e => mret (Error.message e)
  | None => throw TypeError_nullish_message
  end.

Definition gets {S A} (f : S -> A) : M S A := fun s => (Returned (f s), s).
Definition modify {S} (f : S -> S) : M S unit := fun s => (Returned tt, f s).

(** The fault that meets the next request. *)
Definition next_fault (w : World) : Fault := default NoFault (head (faults w)).

(** The world once the request [c] has been sent. *)
Definition sent (c : Call) (w : World) : World :=
  set_faults (tail (faults w)) (log_call c w).

(** How a failure ends the call that awaits the request. *)
Definition settle {A} (failed : Error.t -> A) (how : Failure) : Outcome A :=
  match how with
  | Reported e => Returned (failed e)
  | Rejected e => Thrown e
  | RejectedNullish => ThrownNullish
  | Unsettled => Pending
  end.

(** A request to the backend: it is sent (and logged); then the backend
    serves it and answers, or it fails before the backend has done
    anything, or the backend serves it and the client gets a failure in
    place of the answer. *)
Definition request {A} (c : Call) (serve : World -> A * World)
    (failed : Error.t -> A) : M World A :=
  fun w =>
    match next_fault w with
    | NoFault => let (a, w') := serve (sent c w) in (Returned a, w')
    | Fails e => (Returned (failed e), sent c w)
    | Throws e => (Thrown e, sent c w)
    | ThrowsNullish => (ThrownNullish, sent c w)
    | Hangs => (Pending, sent c w)
    | Served how => let (_, w') := serve (sent c w) in (settle failed how, w')
    end.

(** A request that ends with an answer or with an [Error]: it neither
    stays open nor rejects with [null] or [undefined]. *)
Definition answered (how : Failure) : bool :=
  match how with
  | Reported _ | Rejected _ => true
  | RejectedNullish | Unsettled => false
  end.

Definition settles (f : Fault) : bool :=
  match f with
  | NoFault | Fails _ | Throws _ => true
  | ThrowsNullish | Hangs => false
  | Served how => answered how
  end.

(** Every request still to come settles in that way. *)
Definition requests_settle (w : World) : bool := forallb settles (faults w).

(** ** The backend

    The hosted services the helpers talk to, as far as the repository
    defines them: the [profiles] table with its UNIQUE and PRIMARY KEY
    constraints, its row-level policies and its BEFORE UPDATE trigger
    (scripts/004), and the [resumes] bucket with its insert policy
    (scripts/005). *)
Module Backend.

Definition AuthSessionMissingError : Error.t :=
  Error.mk "Auth session missing!" "session_not_found".
Definition rls_violation : Error.t :=
  Error.mk "new row violates row-level security policy" "42501".
Definition already_exists : Error.t :=
  Error.mk "The resource already exists" "409".
Definition unknown_column : Error.t :=
  Error.mk "Could not find the column in the schema cache" "PGRST204".
Definition invalid_value : Error.t :=
  Error.mk "invalid input value for a column of profiles" "22P02".
Definition duplicate_key : Error.t :=
  Error.mk "duplicate key value violates unique constraint" "23505".
Definition not_single : Error.t :=
  Error.mk "Cannot coerce the result to a single JSON object" "PGRST116".

(** *** Authentication *)

Definition getUser : M World AuthResponse.t :=
  request AuthGetUser
    (fun w =>
       (match session w with
        | Some u => AuthResponse.mk (Some u) None
        | None => AuthResponse.mk None (Some AuthSessionMissingError)
        end, w))
    (fun e => AuthResponse.mk None (Some e)).

(** *** Storage: bucket [resumes] *)

(** [storage.foldername(name)]: the path segments before the object's
    own name. *)
Definition foldername (name : string) : list string :=
  removelast (split "/" name).

(** The insert policy of the bucket:
    [auth.uid()::text = (storage.foldername(name))[1]]. *)
Definition may_upload (w : World) (name : string) : bool :=
  match session w, head (foldername name) with
  | Some u, Some folder => String.eqb (User.id u) folder
  | _, _ => false
  end.

Definition serve_upload (fileName : string) (file : File.t) (upsert : bool)
    (w : World) : Response.t string * World :=
  if negb (may_upload w fileName) then (Response.failed rls_violation, w)
  else
    match resumes w !! fileName with
    | Some _ =>
        if upsert
        then (Response.ok fileName, set_resumes (<[fileName := file]> (resumes w)) w)
        else (Response.failed already_exists, w)
    | None =>
        (Response.ok fileName, set_resumes (<[fileName := file]> (resumes w)) w)
    end.

(** [supabase.storage.from('resumes').upload(fileName, file, { upsert })] *)
Definition upload (fileName : string) (file : File.t) (upsert : bool)
    : M World (Response.t string) :=
  request (StorageUpload "resumes" fileName file upsert)
          (serve_upload fileName file upsert) Response.failed.

(** [supabase.storage.from('resumes').getPublicUrl(fileName)]: computed
    by the client library from the project URL and the name, no request
    is sent. How the library writes the URL is not in the repository; the
    world gives it. *)
Definition getPublicUrl (fileName : string) : M World string :=
  gets (fun w => publicUrl w fileName).

(** *** Table [profiles] *)

(** What a payload says about one column. *)
Inductive Cell (A : Type) :=
| Absent
| Null
| Value (a : A).
Arguments Absent {A}.
Arguments Null {A}.
Arguments Value {A} _.

(** Reading a column out of a payload; [None] when the value does not
    have the column's type. *)
Definition text_cell (v : option JsVal) : option (Cell string) :=
  match v with
  | None => Some Absent
  | Some VNull => Some Null
  | Some (VStr s) => Some (Value s)
  | Some _ => None
  end.

Definition array_cell (v : option JsVal) : option (Cell (list string)) :=
  match v with
  | None => Some Absent
  | Some VNull => Some Null
  | Some (VArr a) => Some (Value a)
  | Some _ => None
  end.

Definition time_cell (v : option JsVal) : option (Cell Z) :=
  match v with
  | None => Some Absent
  | Some VNull => Some Null
  | Some (VTime t) => Some (Value t)
  | Some _ => None
  end.

(** The new value of a nullable column. *)
Definition assign {A} (c : Cell A) (old : option A) : option A :=
  match c with
  | Absent => old
  | Null => None
  | Value a => Some a
  end.

(** The new value of a NOT NULL column; [None] when the payload sets it
    to NULL. *)
Definition assign_required {A} (c : Cell A) (old : A) : option A :=
  match c with
  | Absent => Some old
  | Null => None
  | Value a => Some a
  end.

(** The row [base] with the columns of the payload written over it
    ([SET col = EXCLUDED.col] for the payload's columns, or the VALUES of
    an insert over the defaults). *)
Definition write_row (values : gmap string JsVal) (base : Profile.row)
    : option Profile.row :=
  c_id ← text_cell (values !! "id");
  c_user_id ← text_cell (values !! "user_id");
  c_resume_url ← text_cell (values !! "resume_url");
  c_skills ← array_cell (values !! "skills");
  c_interests ← array_cell (values !! "interests");
  c_experience_level ← text_cell (values !! "experience_level");
  c_preferred_location ← text_cell (values !! "preferred_location");
  c_bio ← text_cell (values !! "bio");
  c_github_url ← text_cell (values !! "github_url");
  c_linkedin_url ← text_cell (values !! "linkedin_url");
  c_portfolio_url ← text_cell (values !! "portfolio_url");
  c_updated_at ← time_cell (values !! "updated_at");
  new_id ← assign_required c_id (Profile.id base);
  new_user_id ← assign_required c_user_id (Profile.user_id base);
  Some (Profile.mk new_id new_user_id
          (assign c_resume_url (Profile.resume_url base))
          (assign c_skills (Profile.skills base))
          (assign c_interests (Profile.interests base))
          (assign c_experience_level (Profile.experience_level base))
          (assign c_preferred_location (Profile.preferred_location base))
          (assign c_bio (Profile.bio base))
          (assign c_github_url (Profile.github_url base))
          (assign c_linkedin_url (Profile.linkedin_url base))
          (assign c_portfolio_url (Profile.portfolio_url base))
          (assign c_updated_at (Profile.updated_at base))).

(** The column defaults of a new row: [id] is [gen_random_uuid()],
    [updated_at] is [NOW()], the other columns are NULL. *)
Definition default_row (new_id owner : string) (now : Z) : Profile.row :=
  Profile.mk new_id owner None None None None None None None None None (Some now).

(** The trigger function: [NEW.updated_at = NOW(); RETURN NEW;],
    run BEFORE UPDATE on every row. *)
Definition update_updated_at_column (now : Z) (NEW : Profile.row) : Profile.row :=
  Profile.mk (Profile.id NEW) (Profile.user_id NEW) (Profile.resume_url NEW)
    (Profile.skills NEW) (Profile.interests NEW) (Profile.experience_level NEW)
    (Profile.preferred_location NEW) (Profile.bio NEW) (Profile.github_url NEW)
    (Profile.linkedin_url NEW) (Profile.portfolio_url NEW) (Some now).

Definition nil_uuid : string := "00000000-0000-0000-0000-000000000000".

(** The next value of the supply (the nil uuid once it is exhausted). *)
Definition gen_random_uuid (w : World) : string * World :=
  (default nil_uuid (head (uuids w)), set_uuids (tail (uuids w)) w).

Definition known_columns (values : gmap string JsVal) : bool :=
  bool_decide (dom values ⊆ (list_to_set Profile.columns : gset string)).

(** [INSERT ... ON CONFLICT (user_id) DO UPDATE SET ... RETURNING *] under
    the policies of the table. The insert policy
    [WITH CHECK (auth.uid() = user_id)] and NOT NULL on [user_id] refuse
    every payload whose [user_id] is not the caller's own. *)
Definition serve_upsert (values : gmap string JsVal) (w : World)
    : Response.t (list Profile.row) * World :=
  if negb (known_columns values) then (Response.failed unknown_column, w)
  else
    match session w, values !! "user_id" with
    | Some u, Some (VStr owner) =>
        if negb (String.eqb owner (User.id u)) then (Response.failed rls_violation, w)
        else
          match list_find (fun r => Profile.user_id r = owner) (profiles w) with
          | Some (i, old) =>
              (* the conflicting row is updated in place *)
              match write_row values old with
              | None => (Response.failed invalid_value, w)
              | Some new0 =>
                  let new := update_updated_at_column (server_clock w) new0 in
                  if bool_decide (Profile.id new ∈ Profile.id <$> delete i (profiles w))
                  then (Response.failed duplicate_key, w)
                  else (Response.ok [new], set_profiles (<[i := new]> (profiles w)) w)
              end
          | None =>
              (* no conflict: a new row is inserted *)
              let (fresh, w1) :=
                match values !! "id" with
                | None => gen_random_uuid w
                | Some _ => ("", w)
                end in
              match write_row values (default_row fresh owner (server_clock w)) with
              | None => (Response.failed invalid_value, w1)
              | Some new =>
                  if bool_decide (Profile.id new ∈ Profile.id <$> profiles w)
                  then (Response.failed duplicate_key, w1)
                  else (Response.ok [new], set_profiles (profiles w ++ [new]) w1)
              end
          end
    | _, _ => (Response.failed rls_violation, w)
    end.

(** [supabase.from('profiles').upsert(values, { onConflict }).select()] *)
Definition upsert (values : gmap string JsVal) (onConflict : string)
    : M World (Response.t (list Profile.row)) :=
  request (ProfilesUpsert values onConflict) (serve_upsert values) Response.failed.

(** The rows the select policy [USING (auth.uid() = user_id)] lets the
    caller see. *)
Definition visible (w : World) : list Profile.row :=
  match session w with
  | Some u => List.filter (fun r => String.eqb (Profile.user_id r) (User.id u)) (profiles w)
  | None => []
  end.

Definition serve_select_single (userId : string) (w : World)
    : Response.t Profile.row * World :=
  match List.filter (fun r => String.eqb (Profile.user_id r) userId) (visible w) with
  | [r] => (Response.ok r, w)
  | _ => (Response.failed not_single, w)
  end.

(** [supabase.from('profiles').select('*').eq('user_id', userId).single()] *)
Definition select_single (userId : string) : M World (Response.t Profile.row) :=
  request (ProfilesSelectSingle userId) (serve_select_single userId) Response.failed.

End Backend.

(** ** lib/profileHelpers.js *)

(** [{success, url?, error?}] *)
Module UploadResult.
Record t := mk { success : bool; url : option string; error : option string }.
End UploadResult.

(** [{success, data?, error?}]; an absent, [null] or [undefined] [data] is
    [None]. *)
Module ProfileResult.
Record t := mk { success : bool; data : option Profile.row; error : option string }.
End ProfileResult.

(** [{success, user?, profile?, error?}] *)
Module UserProfileResult.
Record t := mk {
  success : bool;
  user : option User.t;
  profile : option Profile.row;
  error : option string
}.
End UserProfileResult.

(** [arr.includes(x)] *)
Definition includes (arr : list string) (x : string) : bool :=
  existsb (String.eqb x) arr.

(** A possibly [undefined] string inside a template literal. *)
Definition interpolate (x : option string) : string :=
  match x with
  | Some s => s
  | None => "undefined"
  end.

(** The error of reading [data[0]] when [data] is [null]. *)
Definition TypeError_null_index : Error.t :=
  Error.mk "Cannot read properties of null (reading '0')" "".

Definition allowedTypes : list string :=
  ["application/pdf"; "application/msword";
   "application/vnd.openxmlformats-officedocument.wordprocessingml.document"].

Definition maxSize : Z := 10 * 1024 * 1024.

Definition Date_now : M World Z := gets client_clock.

Definition uploadResume (file : File.t) (userId : string) : M World UploadResult.t :=
  try_catch
    (if negb (includes allowedTypes (File.type file)) then
       mret (UploadResult.mk false None
               (Some "Invalid file type. Please upload a PDF, DOC, or DOCX file."))
     else if maxSize <? File.size file then
       mret (UploadResult.mk false None
               (Some "File size too large. Please upload a file smaller than 10MB."))
     else
       timestamp ← Date_now;
       let fileExtension := pop (split "." (File.name file)) in
       let fileName := userId +:+ "/" +:+ pretty timestamp +:+ "." +:+ interpolate fileExtension in
       r ← Backend.upload fileName file false;
       match Response.error r with
       | Some error =>
           mret (UploadResult.mk false None
                   (Some ("Upload failed: " +:+ Error.message error)))
       | None =>
           publicUrl ← Backend.getPublicUrl fileName;
           mret (UploadResult.mk true (Some publicUrl) None)
       end)
    (fun error =>
       message ← message_of error;
       mret (UploadResult.mk false None (Some ("Upload failed: " +:+ message)))).

(** [{ user_id: user.id, ...profileData, updated_at: new Date().toISOString() }]:
    the spread is written after [user_id] and before [updated_at]. *)
Definition profileToSave (user : User.t) (profileData : gmap string JsVal)
    (now : Z) : gmap string JsVal :=
  <["updated_at" := VTime now]> (profileData ∪ {["user_id" := VStr (User.id user)]}).

Definition saveProfile (profileData : gmap string JsVal) : M World ProfileResult.t :=
  try_catch
    (r ← Backend.getUser;
     match AuthResponse.error r, AuthResponse.user r with
     | None, Some user =>
         now ← Date_now;
         resp ← Backend.upsert (profileToSave user profileData now) "user_id";
         match Response.error resp with
         | Some error =>
             mret (ProfileResult.mk false None
                     (Some ("Failed to save profile: " +:+ Error.message error)))
         | None =>
             match Response.data resp with
             | Some data => mret (ProfileResult.mk true (head data) None)
             | None => throw TypeError_null_index
             end
         end
     | _, _ => mret (ProfileResult.mk false None (Some "User not authenticated"))
     end)
    (fun error =>
       message ← message_of error;
       mret (ProfileResult.mk false None (Some ("Failed to save profile: " +:+ message)))).

Definition loadProfile (userId : string) : M World ProfileResult.t :=
  try_catch
    (r ← Backend.select_single userId;
     match Response.error r with
     | Some error =>
         if String.eqb (Error.code error) "PGRST116"
         then mret (ProfileResult.mk true None None)
         else mret (ProfileResult.mk false None
                      (Some ("Failed to load profile: " +:+ Error.message error)))
     | None => mret (ProfileResult.mk true (Response.data r) None)
     end)
    (fun error =>
       message ← message_of error;
       mret (ProfileResult.mk false None (Some ("Failed to load profile: " +:+ message)))).

Definition getCurrentUserWithProfile : M World UserProfileResult.t :=
  try_catch
    (r ← Backend.getUser;
     match AuthResponse.error r, AuthResponse.user r with
     | None, Some user =>
         profileResult ← loadProfile (User.id user);
         if negb (ProfileResult.success profileResult)
         then mret (UserProfileResult.mk false None None
                      (ProfileResult.error profileResult))
         else mret (UserProfileResult.mk true (Some user)
                      (ProfileResult.data profileResult) None)
     | _, _ => mret (UserProfileResult.mk false None None (Some "User not authenticated"))
     end)
    (fun error =>
       message ← message_of error;
       mret (UserProfileResult.mk false None None
               (Some ("Failed to get user data: " +:+ message)))).

(** ** components/ProfileForm.jsx *)

(** The text fields of the form. *)
Module FormData.
Record t := mk {
  skills : string;
  interests : string;
  experience_level : string;
  preferred_location : string;
  bio : string;
  github_url : string;
  linkedin_url : string;
  portfolio_url : string
}.

Definition empty : t := mk "" "" "" "" "" "" "" "".

(** [{ ...prev, [name]: value }]; a name that is not a field of the form
    adds a property nothing reads. *)
Definition update (name value : string) (prev : t) : t :=
  if String.eqb name "skills" then
    mk value (interests prev) (experience_level prev) (preferred_location prev)
       (bio prev) (github_url prev) (linkedin_url prev) (portfolio_url prev)
  else if String.eqb name "interests" then
    mk (skills prev) value (experience_level prev) (preferred_location prev)
       (bio prev) (github_url prev) (linkedin_url prev) (portfolio_url prev)
  else if String.eqb name "experience_level" then
    mk (skills prev) (interests prev) value (preferred_location prev)
       (bio prev) (github_url prev) (linkedin_url prev) (portfolio_url prev)
  else if String.eqb name "preferred_location" then
    mk (skills prev) (interests prev) (experience_level prev) value
       (bio prev) (github_url prev) (linkedin_url prev) (portfolio_url prev)
  else if String.eqb name "bio" then
    mk (skills prev) (interests prev) (experience_level prev) (preferred_location prev)
       value (github_url prev) (linkedin_url prev) (portfolio_url prev)
  else if String.eqb name "github_url" then
    mk (skills prev) (interests prev) (experience_level prev) (preferred_location prev)
       (bio prev) value (linkedin_url prev) (portfolio_url prev)
  else if String.eqb name "linkedin_url" then
    mk (skills prev) (interests prev) (experience_level prev) (preferred_location prev)
       (bio prev) (github_url prev) value (portfolio_url prev)
  else if String.eqb name "portfolio_url" then
    mk (skills prev) (interests prev) (experience_level prev) (preferred_location prev)
       (bio prev) (github_url prev) (linkedin_url prev) value
  else prev.
End FormData.

Module ProfileForm.

(** The [useState] cells of the component. A notice set to [undefined]
    is displayed like the empty one and is kept as [""]. *)
Record State := mkState {
  loading : bool;
  saving : bool;
  user : option User.t;
  profile : option Profile.row;
  error : string;
  success : string;
  resumeFile : option File.t;
  existingResumeUrl : string;
  formData : FormData.t
}.

Definition initial : State :=
  mkState true false None None "" "" None "" FormData.empty.

Definition setLoading (v : bool) (s : State) : State :=
  mkState v (saving s) (user s) (profile s) (error s) (success s)
          (resumeFile s) (existingResumeUrl s) (formData s).
Definition setSaving (v : bool) (s : State) : State :=
  mkState (loading s) v (user s) (profile s) (error s) (success s)
          (resumeFile s) (existingResumeUrl s) (formData s).
Definition setUser (v : option User.t) (s : State) : State :=
  mkState (loading s) (saving s) v (profile s) (error s) (success s)
          (resumeFile s) (existingResumeUrl s) (formData s).
Definition setProfile (v : option Profile.row) (s : State) : State :=
  mkState (loading s) (saving s) (user s) v (error s) (success s)
          (resumeFile s) (existingResumeUrl s) (formData s).
Definition setError (v : string) (s : State) : State :=
  mkState (loading s) (saving s) (user s) (profile s) v (success s)
          (resumeFile s) (existingResumeUrl s) (formData s).
Definition setSuccess (v : string) (s : State) : State :=
  mkState (loading s) (saving s) (user s) (profile s) (error s) v
          (resumeFile s) (existingResumeUrl s) (formData s).
Definition setResumeFile (v : option File.t) (s : State) : State :=
  mkState (loading s) (saving s) (user s) (profile s) (error s) (success s)
          v (existingResumeUrl s) (formData s).
Definition setExistingResumeUrl (v : string) (s : State) : State :=
  mkState (loading s) (saving s) (user s) (profile s) (error s) (success s)
          (resumeFile s) v (formData s).
Definition setFormData (v : FormData.t) (s : State) : State :=
  mkState (loading s) (saving s) (user s) (profile s) (error s) (success s)
          (resumeFile s) (existingResumeUrl s) v.

(** The component and what is outside it. *)
Definition UI : Type := State * World.

(** A state setter called from a handler. *)
Definition set (f : State -> State) : M UI unit :=
  modify (fun ui => (f (fst ui), snd ui)).

(** A helper awaited from a handler. *)
Definition await {A} (m : M World A) : M UI A :=
  fun ui => let (o, w) := m (snd ui) in (o, (fst ui, w)).

(** [x || ''] *)
Definition or_empty (x : option string) : string := default "" x.

(** [arr ? arr.join(', ') : ''] *)
Definition joined (arr : option (list string)) : string :=
  match arr with
  | Some a => join ", " a
  | None => ""
  end.

Definition loadUserData : M UI unit :=
  try_finally
    (try_catch
       (set (setLoading true);;
        set (setError "");;
        result ← await getCurrentUserWithProfile;
        if negb (UserProfileResult.success result) then
          set (setError (or_empty (UserProfileResult.error result)))
        else
          set (setUser (UserProfileResult.user result));;
          match UserProfileResult.profile result with
          | Some p =>
              set (setProfile (Some p));;
              set (setExistingResumeUrl (or_empty (Profile.resume_url p)));;
              set (setFormData
                     (FormData.mk
                        (joined (Profile.skills p))
                        (joined (Profile.interests p))
                        (or_empty (Profile.experience_level p))
                        (or_empty (Profile.preferred_location p))
                        (or_empty (Profile.bio p))
                        (or_empty (Profile.github_url p))
                        (or_empty (Profile.linkedin_url p))
                        (or_empty (Profile.portfolio_url p))))
          | None => mret tt
          end)
       (fun err => set (setError "Failed to load user data")))
    (set (setLoading false)).

Definition handleInputChange (name value : string) (s : State) : State :=
  setFormData (FormData.update name value (formData s)) s.

(** [files] is [e.target.files]. *)
Definition handleFileChange (files : list File.t) (s : State) : State :=
  match head files with
  | Some file => setExistingResumeUrl "" (setResumeFile (Some file) s)
  | None => s
  end.

(** The object literal [profileData] of [handleSubmit]; a [resumeUrl]
    that is [undefined] leaves no [resume_url] in the request. *)
Definition profileData (resumeUrl : option string) (skillsArray interestsArray : list string)
    (f : FormData.t) : gmap string JsVal :=
  let fields : gmap string JsVal :=
    <["skills" := VArr skillsArray]>
    (<["interests" := VArr interestsArray]>
    (<["experience_level" := VStr (FormData.experience_level f)]>
    (<["preferred_location" := VStr (FormData.preferred_location f)]>
    (<["bio" := VStr (FormData.bio f)]>
    (<["github_url" := VStr (FormData.github_url f)]>
    (<["linkedin_url" := VStr (FormData.linkedin_url f)]>
    (<["portfolio_url" := VStr (FormData.portfolio_url f)]> ∅))))))) in
  match resumeUrl with
  | Some u => <["resume_url" := VStr u]> fields
  | None => fields
  end.

(** The part of [handleSubmit] after the resume URL is known. *)
Definition submitProfile (render : State) (resumeUrl : option string) : M UI unit :=
  let skillsArray := toArray (FormData.skills (formData render)) in
  let interestsArray := toArray (FormData.interests (formData render)) in
  saveResult ← await (saveProfile
                        (profileData resumeUrl skillsArray interestsArray (formData render)));
  if negb (ProfileResult.success saveResult) then
    set (setError (or_empty (ProfileResult.error saveResult)))
  else
    set (setProfile (ProfileResult.data saveResult));;
    set (setSuccess "Profile saved successfully!");;
    set (setResumeFile None);;
    modify (fun ui => (fst ui, clear_file_input (snd ui))).

(** [render] holds the values of the render the handler was created in:
    what the handler reads; what it sets goes to the state of the next
    render. *)
Definition handleSubmit (render : State) : M UI unit :=
  match user render with
  | None => set (setError "User not authenticated")
  | Some u =>
      try_finally
        (try_catch
           (set (setSaving true);;
            set (setError "");;
            set (setSuccess "");;
            match resumeFile render with
            | Some file =>
                uploadResult ← await (uploadResume file (User.id u));
                if negb (UploadResult.success uploadResult) then
                  set (setError (or_empty (UploadResult.error uploadResult)))
                else
                  submitProfile render (UploadResult.url uploadResult)
            | None => submitProfile render (Some (existingResumeUrl render))
            end)
           (fun err => set (setError "Failed to save profile")))
        (set (setSaving false))
  end.

(** A handler run in the render whose state is [s]. *)
Definition run {A} (handler : M UI A) (s : State) (w : World) : Outcome A * UI :=
  handler (s, w).

End ProfileForm.

(** ** Predicates used in the statements *)

(** Only white space. *)
Fixpoint all_ws (s : string) : bool :=
  match s with
  | EmptyString => true
  | String c s' => is_ws c && all_ws s'
  end.

(** No white space at either end. *)
Definition trimmed (s : string) : bool :=
  match first_char s, last_char s with
  | Some a, Some b => negb (is_ws a) && negb (is_ws b)
  | _, _ => true
  end.

(** What a segment of a skills or interests array looks like: not empty,
    free of commas, trimmed. *)
Definition clean (seg : string) : bool :=
  negb (is_empty seg) && negb (has_char "," seg) && trimmed seg.

(** A result that is either a success or carries a message. *)
Definition reports (success : bool) (error : option string) : Prop :=
  success = false -> exists m, error = Some m /\ m ≠ "".

(** The rows of the table that belong to an identity. *)
Definition rows_owned_by (uid : string) (t : list Profile.row) : list Profile.row :=
  List.filter (fun r => String.eqb (Profile.user_id r) uid) t.

(** The constraint [user_id UUID UNIQUE] of the table. *)
Definition owner_unique (t : list Profile.row) : Prop :=
  NoDup (Profile.user_id <$> t).

Definition is_save (c : Call) : bool :=
  match c with ProfilesUpsert _ _ => true | _ => false end.

Definition is_upload (c : Call) : bool :=
  match c with StorageUpload _ _ _ _ => true | _ => false end.

(** The form is activated in the world [w], the user types the skills
    ["Go, Rust"], picks the experience level ["mid"], stages no file and
    submits. *)
Definition first_submission (w : World) : ProfileForm.UI :=
  let ui1 := snd (ProfileForm.run ProfileForm.loadUserData ProfileForm.initial w) in
  let s := ProfileForm.handleInputChange "experience_level" "mid"
             (ProfileForm.handleInputChange "skills" "Go, Rust" (fst ui1)) in
  snd (ProfileForm.run (ProfileForm.handleSubmit s) s (snd ui1)).

(** ** Sample data *)

Definition alice : User.t := User.mk "a11ce".

(** A sample answer of [getPublicUrl]. *)
Definition sample_publicUrl (name : string) : string :=
  "https://example.supabase.co/storage/v1/object/public/resumes/" +:+ name.

Definition fresh_world : World :=
  mkWorld (Some alice) [] ∅ 1700000000123 1700000000456 ["row-1"; "row-2"] [] []
          (Some "") sample_publicUrl.

Definition cv : File.t := File.mk "cv.final.pdf" "application/pdf" 2048.

(** The row of the first save of [{ bio: 'hi' }] in [fresh_world], and
    the world after it. *)
Definition first_row : Profile.row :=
  Profile.mk "row-1" "a11ce" None None None None None (Some "hi") None None None
             (Some 1700000000123).

Definition after_first_save : World :=
  mkWorld (Some alice) [first_row] ∅ 1700000000123 1700000000456 ["row-2"] []
          [AuthGetUser;
           ProfilesUpsert (profileToSave alice {["bio" := VStr "hi"]} 1700000000123) "user_id"]
          (Some "") sample_publicUrl.

Definition photo : File.t := File.mk "me.png" "image/png" 2048.

Definition scan : File.t := File.mk "scan.pdf" "application/pdf" (11 * 1024 * 1024).

(** The second save, of [{ bio: 'ho' }], updates the row of the first. *)
Definition second_row : Profile.row :=
  Profile.mk "row-1" "a11ce" None None None None None (Some "ho") None None None
             (Some 1700000000456).

Definition after_second_save : World :=
  snd (saveProfile {["bio" := VStr "ho"]} after_first_save).

(** ** More of the component and of the helpers

    The file name [uploadResume] builds, what the component renders, and
    [handleSignOut]. *)

(** [`${userId}/${timestamp}.${fileExtension}`] of [uploadResume]. *)
Definition fileName (userId : string) (timestamp : Z) (file : File.t) : string :=
  userId +:+ "/" +:+ pretty timestamp +:+ "."
  +:+ interpolate (pop (split "." (File.name file))).

(** The [return] of [ProfileForm]: what is on screen for a state. *)
Module ProfileView.

(** The parts of the form that depend on the state. *)
Record Form := mkForm {
  errorNotice : option string;      (* [{error && ...}] *)
  successNotice : option string;    (* [{success && ...}] *)
  currentResume : option string;    (* [{existingResumeUrl && !resumeFile && ...}]: the link *)
  fields : FormData.t;              (* [value={formData.x}] of the inputs *)
  submitDisabled : bool;            (* [disabled={saving}] *)
  submitLabel : string              (* [saving ? Saving... : 'Save Profile'] *)
}.

Inductive View :=
| LoadingProfile                    (* [if (loading)]: the spinner *)
| AuthenticationRequired            (* [if (!user)]: the sign-in prompt *)
| ProfileSettings (form : Form).

(** [s && x]: a non-empty string is truthy. *)
Definition shown (s : string) : option string :=
  if is_empty s then None else Some s.

Definition render (s : ProfileForm.State) : View :=
  if ProfileForm.loading s then LoadingProfile
  else
    match ProfileForm.user s with
    | None => AuthenticationRequired
    | Some _ =>
        ProfileSettings
          (mkForm
             (shown (ProfileForm.error s))
             (shown (ProfileForm.success s))
             (match ProfileForm.resumeFile s with
              | None => shown (ProfileForm.existingResumeUrl s)
              | Some _ => None
              end)
             (ProfileForm.formData s)
             (ProfileForm.saving s)
             (if ProfileForm.saving s then "Saving..." else "Save Profile"))
    end.

(** The link to the current resume, if one is on screen. *)
Definition resumeLink (v : View) : option string :=
  match v with
  | ProfileSettings form => currentResume form
  | _ => None
  end.

End ProfileView.

(** Signing out: the session and the page address. *)
Module SignOut.

Definition set_session (u : option User.t) (w : World) : World :=
  mkWorld u (profiles w) (resumes w) (client_clock w) (server_clock w)
          (uuids w) (faults w) (calls w) (file_input w) (publicUrl w).

(** [supabase.auth.signOut()]: answers [{ error }]; the session ends when
    the backend serves it. It meets the next fault like the requests of
    the helpers. *)
Definition signOut : M World (option Error.t) :=
  fun w =>
    match next_fault w with
    | NoFault => (Returned None, set_session None (set_faults (tail (faults w)) w))
    | Fails e => (Returned (Some e), set_faults (tail (faults w)) w)
    | Throws e => (Thrown e, set_faults (tail (faults w)) w)
    | ThrowsNullish => (ThrownNullish, set_faults (tail (faults w)) w)
    | Hangs => (Pending, set_faults (tail (faults w)) w)
    | Served how => (settle Some how, set_session None (set_faults (tail (faults w)) w))
    end.

(** The world and [window.location.href]. *)
Definition Browser : Type := World * string.

Definition handleSignOut : M Browser unit :=
  try_catch
    (_ ← (fun b : Browser => let (o, w) := signOut (fst b) in (o, (w, snd b)));
     modify (fun b : Browser => (fst b, "/auth/login")))
    (fun err => mret tt).

End SignOut.

(** ** More sample data *)

Definition bob : User.t := User.mk "b0b".

(** [after_first_save] seen by nobody, and seen by [bob]. *)
Definition signed_out : World := SignOut.set_session None after_first_save.

Definition as_bob : World := SignOut.set_session (Some bob) after_first_save.

(** A row of [alice] with two skills and a resume, and the table that
    holds it. *)
Definition full_row : Profile.row :=
  Profile.mk "row-1" "a11ce" (Some "https://example.supabase.co/cv.pdf")
             (Some ["Go"; "Rust"]) (Some []) (Some "mid") None (Some "hi") None None None
             (Some 1700000000456).

Definition with_full_row : World := set_profiles [full_row] fresh_world.

Definition bio_ho : gmap string JsVal := {["bio" := VStr "ho"]}.


Definition hung : World := set_faults [Hangs] fresh_world.

(** The form of [alice], loaded on her first visit, with [cv] staged; the
    world once [cv] is uploaded from [fresh_world], the row a submission
    of that form then saves, and the world after it. *)
Definition cv_staged : ProfileForm.State :=
  ProfileForm.mkState false false (Some alice) None "" "" (Some cv) "" FormData.empty.

Definition cv_uploaded : World :=
  set_resumes {["a11ce/1700000000123.pdf" := cv]}
    (sent (StorageUpload "resumes" "a11ce/1700000000123.pdf" cv false) fresh_world).

Definition cv_row : Profile.row :=
  Profile.mk "row-1" "a11ce" (Some (sample_publicUrl "a11ce/1700000000123.pdf"))
             (Some []) (Some []) (Some "") (Some "") (Some "") (Some "") (Some "") (Some "")
             (Some 1700000000123).

Definition cv_saved : World :=
  mkWorld (Some alice) [cv_row] {["a11ce/1700000000123.pdf" := cv]}
          1700000000123 1700000000456 ["row-2"] []
          [StorageUpload "resumes" "a11ce/1700000000123.pdf" cv false;
           AuthGetUser;
           ProfilesUpsert
             (profileToSave alice
                (ProfileForm.profileData (Some (sample_publicUrl "a11ce/1700000000123.pdf"))
                   [] [] FormData.empty)
                1700000000123)
             "user_id"]
          (Some "") sample_publicUrl.

(** The session check is answered; the request after it is served, and
    rejects all the same. *)
Definition committed_unanswered : World :=
  set_faults [NoFault; Served (Rejected (Error.mk "Failed to fetch" ""))] fresh_world.

(** The next request is served and then answered with an error. *)
Definition stored_unanswered : World :=
  set_faults [Served (Reported (Error.mk "Gateway Timeout" "504"))] fresh_world.

Definition nullish : World := set_faults [ThrowsNullish] fresh_world.

(** * Properties *)

(** ** Splitting, trimming and joining *)

Example toArray_react : toArray "React, Node, React" = ["React"; "Node"; "React"].
Proof. reflexivity. Qed.

Example toArray_blank : toArray " , ," = [].
Proof. reflexivity. Qed.

Example split_empty : split "," "" = [""].
Proof. reflexivity. Qed.

Example pretty_ms : pretty 1700000000123%Z = "1700000000123".
Proof. vm_compute. reflexivity. Qed.

Section Strings.

Lemma append_cons c a b : String c a +:+ b = String c (a +:+ b).
Proof. reflexivity. Qed.

Lemma split_not_nil sep s : split sep s ≠ [].
Proof.
  destruct s as [|c s]; simpl; [discriminate|].
  destruct (Ascii.eqb c sep); [discriminate|].
  destruct (split sep s); discriminate.
Qed.

Lemma concat_cons_cons sep a b l :
  String.concat sep (a :: b :: l) = a +:+ sep +:+ String.concat sep (b :: l).
Proof. reflexivity. Qed.

Lemma join_split sep s : join (String sep "") (split sep s) = s.
Proof.
  unfold join. induction s as [|c s IH]; [reflexivity|].
  simpl split. destruct (Ascii.eqb c sep) eqn:E.
  - apply Ascii.eqb_eq in E. subst c.
    destruct (split sep s) as [|seg rest] eqn:Hs; [by apply split_not_nil in Hs|].
    rewrite concat_cons_cons, IH. reflexivity.
  - destruct (split sep s) as [|seg rest] eqn:Hs; [by apply split_not_nil in Hs|].
    destruct rest as [|seg' rest].
    + simpl in *. by rewrite IH.
    + rewrite <- IH. by rewrite !concat_cons_cons.
Qed.

Lemma split_no_sep sep s :
  Forall (fun seg => has_char sep seg = false) (split sep s).
Proof.
  induction s as [|c s IH]; simpl.
  - by constructor.
  - destruct (Ascii.eqb c sep) eqn:E.
    + by constructor.
    + destruct (split sep s) as [|seg rest]; constructor.
      * simpl. by rewrite E.
      * constructor.
      * simpl. rewrite E. by inversion IH.
      * by inversion IH.
Qed.

Lemma split_sep_free sep s : has_char sep s = false -> split sep s = [s].
Proof.
  induction s as [|c s IH]; simpl; [done|].
  destruct (Ascii.eqb c sep); simpl; [done|].
  intros H. by rewrite (IH H).
Qed.

Lemma split_app sep a b :
  has_char sep a = false ->
  split sep (a +:+ String sep b) = a :: split sep b.
Proof.
  induction a as [|c a IH]; simpl.
  - intros _. by rewrite Ascii.eqb_refl.
  - destruct (Ascii.eqb c sep); simpl; [done|].
    intros H. by rewrite (IH H).
Qed.

Lemma is_empty_true s : is_empty s = true <-> s = "".
Proof. destruct s; simpl; split; congruence. Qed.

Lemma trimStart_all_ws s : all_ws s = true -> trimStart s = "".
Proof.
  induction s as [|c s IH]; simpl; [done|].
  destruct (is_ws c); simpl; [done|discriminate].
Qed.

Lemma trimEnd_all_ws s : all_ws s = true -> trimEnd s = "".
Proof.
  induction s as [|c s IH]; simpl; [done|].
  destruct (is_ws c); simpl; [|discriminate].
  intros H. by rewrite (IH H).
Qed.

Lemma trimStart_first s c : first_char (trimStart s) = Some c -> is_ws c = false.
Proof.
  induction s as [|d s IH]; simpl; [discriminate|].
  destruct (is_ws d) eqn:E; [done|].
  simpl. intros [= <-]. done.
Qed.

Lemma trimEnd_first s c : first_char (trimEnd s) = Some c -> first_char s = Some c.
Proof.
  destruct s as [|d s]; simpl; [done|].
  destruct (is_ws d && is_empty (trimEnd s)); simpl; [discriminate|done].
Qed.

Lemma last_char_None s : last_char s = None -> s = "".
Proof.
  destruct s as [|c s]; simpl; [done|]. destruct (last_char s); discriminate.
Qed.

Lemma trimEnd_last s c : last_char (trimEnd s) = Some c -> is_ws c = false.
Proof.
  induction s as [|d s IH]; simpl; [discriminate|].
  destruct (is_ws d && is_empty (trimEnd s)) eqn:E; simpl; [discriminate|].
  destruct (last_char (trimEnd s)) as [l|] eqn:L.
  - intros [= <-]. by apply IH.
  - intros [= <-].
    assert (trimEnd s = "") as Ht by by apply last_char_None.
    rewrite Ht in E. simpl in E. by rewrite andb_true_r in E.
Qed.

Lemma trim_trimmed s : trimmed (trim s) = true.
Proof.
  unfold trimmed, trim.
  destruct (first_char (trimEnd (trimStart s))) as [a|] eqn:Ha; [|done].
  destruct (last_char (trimEnd (trimStart s))) as [b|] eqn:Hb; [|done].
  apply trimEnd_first, trimStart_first in Ha. apply trimEnd_last in Hb.
  by rewrite Ha, Hb.
Qed.

Lemma trimStart_id s :
  (forall c, first_char s = Some c -> is_ws c = false) -> trimStart s = s.
Proof.
  destruct s as [|c s]; simpl; [done|].
  intros H. by rewrite (H c eq_refl).
Qed.

Lemma trimEnd_id s :
  (forall c, last_char s = Some c -> is_ws c = false) -> trimEnd s = s.
Proof.
  induction s as [|c s IH]; simpl; [done|].
  intros H. destruct (last_char s) as [l|] eqn:L.
  - rewrite IH by done.
    destruct s; [discriminate|]. simpl. by rewrite andb_false_r.
  - apply last_char_None in L. subst s. simpl.
    by rewrite (H c eq_refl).
Qed.

Lemma trimmed_first s c : trimmed s = true -> first_char s = Some c -> is_ws c = false.
Proof.
  unfold trimmed. intros H Hc. rewrite Hc in H.
  destruct (last_char s) eqn:L.
  - apply andb_true_iff in H as [H _]. by apply negb_true_iff in H.
  - apply last_char_None in L. subst. discriminate.
Qed.

Lemma trimmed_last s c : trimmed s = true -> last_char s = Some c -> is_ws c = false.
Proof.
  unfold trimmed. intros H Hc. rewrite Hc in H.
  destruct (first_char s) eqn:F.
  - apply andb_true_iff in H as [_ H]. by apply negb_true_iff in H.
  - destruct s; simpl in *; discriminate.
Qed.

Lemma trim_id s : trimmed s = true -> trim s = s.
Proof.
  intros H. unfold trim.
  rewrite trimStart_id by (intros c; by apply trimmed_first).
  apply trimEnd_id. intros c; by apply trimmed_last.
Qed.

Lemma trimStart_decompose s :
  exists pre, all_ws pre = true /\ s = pre +:+ trimStart s.
Proof.
  induction s as [|c s [pre [Hp IH]]]; simpl.
  - by exists "".
  - destruct (is_ws c) eqn:E.
    + exists (String c pre). split; [simpl; by rewrite E, Hp|]. rewrite append_cons. by f_equal.
    + by exists "".
Qed.

Lemma trimEnd_decompose s :
  exists post, all_ws post = true /\ s = trimEnd s +:+ post.
Proof.
  induction s as [|c s [post [Hp IH]]]; simpl.
  - by exists "".
  - destruct (is_ws c && is_empty (trimEnd s)) eqn:E.
    + apply andb_true_iff in E as [E1 E2]. apply is_empty_true in E2.
      rewrite E2 in IH. simpl in IH. subst s.
      exists (String c post). simpl. by rewrite E1, Hp.
    + exists post. split; [done|]. rewrite append_cons. by f_equal.
Qed.

Lemma trim_decompose s :
  exists pre post,
    all_ws pre = true /\ all_ws post = true /\ s = pre +:+ trim s +:+ post.
Proof.
  destruct (trimStart_decompose s) as [pre [Hpre Hs]].
  destruct (trimEnd_decompose (trimStart s)) as [post [Hpost Ht]].
  exists pre, post. repeat split; [done..|].
  unfold trim. by rewrite <- Ht.
Qed.

End Strings.

Section ToArray.

Lemma has_char_trimStart c s : has_char c s = false -> has_char c (trimStart s) = false.
Proof.
  induction s as [|d s IH]; simpl; [done|].
  destruct (is_ws d); simpl; [|done].
  intros H. apply orb_false_iff in H as [_ H]. by apply IH.
Qed.

Lemma has_char_trimEnd c s : has_char c s = false -> has_char c (trimEnd s) = false.
Proof.
  induction s as [|d s IH]; simpl; [done|].
  intros H. apply orb_false_iff in H as [H1 H2].
  destruct (is_ws d && is_empty (trimEnd s)); simpl; [done|].
  by rewrite H1, IH.
Qed.

Lemma toArray_clean text : Forall (fun seg => clean seg = true) (toArray text).
Proof.
  unfold toArray. apply Forall_forall. intros seg Hin.
  apply list_elem_of_In, filter_In in Hin as [Hin Hne].
  apply in_map_iff in Hin as [raw [<- Hraw]].
  unfold clean. rewrite Hne, trim_trimmed. simpl. rewrite andb_true_r.
  apply negb_true_iff. unfold trim.
  apply has_char_trimEnd, has_char_trimStart.
  pose proof (split_no_sep "," text) as Hall.
  rewrite Forall_forall in Hall. apply Hall. by apply list_elem_of_In.
Qed.

Lemma toArray_segment a b :
  has_char "," a = false ->
  toArray (a +:+ String "," b) =
    ((if is_empty (trim a) then [] else [trim a]) ++ toArray b)%list.
Proof.
  intros H. unfold toArray. rewrite split_app by done. simpl.
  by destruct (is_empty (trim a)).
Qed.

Lemma toArray_leading_space s : toArray (String " " s) = toArray s.
Proof.
  unfold toArray. simpl split.
  destruct (split "," s) as [|seg rest] eqn:E; [by apply split_not_nil in E|].
  reflexivity.
Qed.

Lemma toArray_single a : clean a = true -> toArray a = [a].
Proof.
  unfold clean. intros H.
  apply andb_true_iff in H as [H Ht]. apply andb_true_iff in H as [Hne Hc].
  apply negb_true_iff in Hc.
  unfold toArray. rewrite split_sep_free by done. simpl.
  rewrite trim_id by done. by rewrite Hne.
Qed.

Lemma toArray_join l :
  Forall (fun seg => clean seg = true) l -> toArray (join ", " l) = l.
Proof.
  unfold join. induction l as [|a l IH]; intros H; [reflexivity|].
  inversion H as [|? ? Ha Hl]; subst.
  destruct l as [|b l]; [by apply toArray_single|].
  rewrite concat_cons_cons.
  change (a +:+ ", " +:+ String.concat ", " (b :: l))
    with (a +:+ String "," (String " " (String.concat ", " (b :: l)))).
  pose proof Ha as Ha'. unfold clean in Ha'.
  apply andb_true_iff in Ha' as [Ha' Ht]. apply andb_true_iff in Ha' as [Hne Hc].
  apply negb_true_iff in Hc.
  rewrite toArray_segment by done.
  rewrite trim_id by done. apply negb_true_iff in Hne. rewrite Hne.
  rewrite toArray_leading_space, IH by done. reflexivity.
Qed.

End ToArray.

(** C7. The skills and interests conversion splits the text on commas,
    trims each segment and drops the empty ones, keeping order and
    duplicates: ["React, Node, React"] gives [["React";"Node";"React"]] and
    [" , ,"] gives the empty array. In general: the segments of [split]
    are the comma-free pieces whose join is the text; [trim] removes
    exactly a run of white space at each end; every element of the result
    is non-empty, comma-free and trimmed; and a text written as such
    elements joined by [", "] gives back these elements, in order, with
    their duplicates. *)
Theorem toArray_splits_trims_drops_empty :
  toArray "React, Node, React" = ["React"; "Node"; "React"]
  /\ toArray " , ," = []
  /\ (forall text,
        toArray text
        = List.filter (fun x => negb (is_empty x)) (List.map trim (split "," text))
        /\ join "," (split "," text) = text
        /\ Forall (fun seg => has_char "," seg = false) (split "," text)
        /\ Forall (fun seg => clean seg = true) (toArray text))
  /\ (forall s, exists pre post,
        all_ws pre = true /\ all_ws post = true
        /\ s = pre +:+ trim s +:+ post /\ trimmed (trim s) = true)
  /\ (forall l, Forall (fun seg => clean seg = true) l -> toArray (join ", " l) = l).
Proof.
  split; [reflexivity|]. split; [reflexivity|]. split; [|split].
  - intros text. split; [reflexivity|]. split; [apply join_split|].
    split; [apply split_no_sep|apply toArray_clean].
  - intros s. destruct (trim_decompose s) as [pre [post [H1 [H2 H3]]]].
    exists pre, post. repeat split; [done..|apply trim_trimmed].
  - apply toArray_join.
Qed.

Lemma toArray_splits_trims_drops_empty_witness :
  toArray (join ", " ["Go"; "Rust"; "Go"]) = ["Go"; "Rust"; "Go"].
Proof.
  apply (proj2 (proj2 (proj2 (proj2 toArray_splits_trims_drops_empty)))).
  repeat constructor.
Defined.

(** ** Uploading a resume *)

Section Helpers.

Lemma includes_elem_of arr x : includes arr x = true <-> x ∈ arr.
Proof.
  unfold includes. rewrite existsb_exists. split.
  - intros [y [Hin Heq]]. apply String.eqb_eq in Heq. subst. by apply list_elem_of_In.
  - intros Hin. exists x. split; [by apply list_elem_of_In|apply String.eqb_refl].
Qed.

Lemma serve_upload_calls fileName file upsert w :
  calls (snd (Backend.serve_upload fileName file upsert w)) = calls w.
Proof.
  unfold Backend.serve_upload.
  destruct (negb (Backend.may_upload w fileName)); [done|].
  destruct (resumes w !! fileName); [destruct upsert|]; done.
Qed.

Lemma calls_sent c w : calls (sent c w) = (calls w ++ [c])%list.
Proof. reflexivity. Qed.

Lemma uploadResume_rejects_type file userId w :
  includes allowedTypes (File.type file) = false ->
  uploadResume file userId w
  = (Returned (UploadResult.mk false None
                 (Some "Invalid file type. Please upload a PDF, DOC, or DOCX file.")), w).
Proof. intros H. unfold uploadResume, try_catch. by rewrite H. Qed.

Lemma uploadResume_rejects_size file userId w :
  includes allowedTypes (File.type file) = true ->
  maxSize < File.size file ->
  uploadResume file userId w
  = (Returned (UploadResult.mk false None
                 (Some "File size too large. Please upload a file smaller than 10MB.")), w).
Proof.
  intros H Hsize. unfold uploadResume, try_catch. rewrite H. simpl negb. cbv iota.
  apply Z.ltb_lt in Hsize. by rewrite Hsize.
Qed.

Lemma uploadResume_sends_upload file userId w :
  includes allowedTypes (File.type file) = true ->
  File.size file <= maxSize ->
  calls (snd (uploadResume file userId w))
  = (calls w ++
     [StorageUpload "resumes"
        (userId +:+ "/" +:+ pretty (client_clock w) +:+ "."
         +:+ interpolate (pop (split "." (File.name file))))
        file false])%list.
Proof.
  intros H Hsize. unfold uploadResume, try_catch. rewrite H. simpl negb. cbv iota.
  apply Z.ltb_ge in Hsize. rewrite Hsize.
  unfold mbind, M_bind, Date_now, gets, Backend.upload, request. simpl.
  destruct (next_fault w) as [| | | | |how]; simpl; try done.
  all: match goal with |- context [Backend.serve_upload ?a ?b ?c ?d] =>
    pose proof (serve_upload_calls a b c d) as Hc;
    destruct (Backend.serve_upload a b c d) as [r w'] end.
  all: simpl in Hc.
  - destruct (Response.error r); simpl; by rewrite Hc.
  - destruct how; simpl; by rewrite Hc.
Qed.

End Helpers.

(** C3. A file whose type is not one of the three allowed mime types is
    declined with the type message and nothing is sent (the world is
    unchanged); a file of an allowed type larger than 10 * 1024 * 1024
    bytes is declined with the size message, again with nothing sent; a
    file of an allowed type of at most that size reaches the store: the
    upload request is the one call the helper adds to the log. *)
Theorem uploadResume_validates_before_store (file : File.t) (userId : string) (w : World) :
  (File.type file ∉ ["application/pdf"; "application/msword";
                     "application/vnd.openxmlformats-officedocument.wordprocessingml.document"] ->
   uploadResume file userId w
   = (Returned (UploadResult.mk false None
                  (Some "Invalid file type. Please upload a PDF, DOC, or DOCX file.")), w))
  /\ (File.type file ∈ ["application/pdf"; "application/msword";
                        "application/vnd.openxmlformats-officedocument.wordprocessingml.document"] ->
      10 * 1024 * 1024 < File.size file ->
      uploadResume file userId w
      = (Returned (UploadResult.mk false None
                     (Some "File size too large. Please upload a file smaller than 10MB.")), w))
  /\ (File.type file ∈ ["application/pdf"; "application/msword";
                        "application/vnd.openxmlformats-officedocument.wordprocessingml.document"] ->
      File.size file <= 10 * 1024 * 1024 ->
      calls (snd (uploadResume file userId w))
      = (calls w ++
         [StorageUpload "resumes"
            (userId +:+ "/" +:+ pretty (client_clock w) +:+ "."
             +:+ interpolate (pop (split "." (File.name file))))
            file false])%list).
Proof.
  split; [|split].
  - intros H. apply uploadResume_rejects_type.
    destruct (includes allowedTypes (File.type file)) eqn:E; [|done].
    by apply includes_elem_of in E.
  - intros H Hsize. apply uploadResume_rejects_size; [by apply includes_elem_of|done].
  - intros H Hsize. apply uploadResume_sends_upload; [by apply includes_elem_of|done].
Qed.

Lemma uploadResume_validates_before_store_witness :
  uploadResume photo "a11ce" fresh_world
  = (Returned (UploadResult.mk false None
                 (Some "Invalid file type. Please upload a PDF, DOC, or DOCX file.")),
     fresh_world)
  /\ uploadResume scan "a11ce" fresh_world
     = (Returned (UploadResult.mk false None
                    (Some "File size too large. Please upload a file smaller than 10MB.")),
        fresh_world)
  /\ calls (snd (uploadResume cv "a11ce" fresh_world))
     = (calls fresh_world ++
        [StorageUpload "resumes"
           ("a11ce" +:+ "/" +:+ pretty (client_clock fresh_world) +:+ "."
            +:+ interpolate (pop (split "." (File.name cv))))
           cv false])%list.
Proof.
  split; [|split].
  - apply (proj1 (uploadResume_validates_before_store photo "a11ce" fresh_world)).
    apply (bool_decide_unpack _). vm_compute. exact I.
  - apply (proj1 (proj2 (uploadResume_validates_before_store scan "a11ce" fresh_world))).
    + apply (bool_decide_unpack _). vm_compute. exact I.
    + vm_compute. reflexivity.
  - apply (proj2 (proj2 (uploadResume_validates_before_store cv "a11ce" fresh_world))).
    + apply (bool_decide_unpack _). vm_compute. exact I.
    + vm_compute. discriminate.
Defined.

(** ** Loading a profile *)

Section LoadProfile.

Lemma filter_none_matching (userId : string) (rows : list Profile.row) :
  (forall row, row ∈ rows -> Profile.user_id row ≠ userId) ->
  List.filter (fun r => String.eqb (Profile.user_id r) userId) rows = [].
Proof.
  induction rows as [|r rows IH]; intros H; simpl; [done|].
  destruct (String.eqb (Profile.user_id r) userId) eqn:E.
  - apply String.eqb_eq in E. exfalso. apply (H r); [by left|done].
  - apply IH. intros row Hin. apply H. by right.
Qed.

Lemma visible_sublist w row : row ∈ Backend.visible w -> row ∈ profiles w.
Proof.
  unfold Backend.visible. destruct (session w); [|by inversion 1].
  intros Hin. apply list_elem_of_In, filter_In in Hin as [Hin _].
  by apply list_elem_of_In.
Qed.

Lemma visible_sent c w : Backend.visible (sent c w) = Backend.visible w.
Proof. reflexivity. Qed.

Lemma loadProfile_run userId w :
  loadProfile userId w =
    match Backend.select_single userId w with
    | (Returned r, w') =>
        match Response.error r with
        | Some e =>
            if String.eqb (Error.code e) "PGRST116"
            then (Returned (ProfileResult.mk true None None), w')
            else (Returned (ProfileResult.mk false None
                              (Some ("Failed to load profile: " +:+ Error.message e))), w')
        | None => (Returned (ProfileResult.mk true (Response.data r) None), w')
        end
    | (Thrown e, w') =>
        (Returned (ProfileResult.mk false None
                     (Some ("Failed to load profile: " +:+ Error.message e))), w')
    | (ThrownNullish, w') => (Thrown TypeError_nullish_message, w')
    | (Pending, w') => (Pending, w')
    end.
Proof.
  unfold loadProfile, try_catch, mbind, M_bind.
  destruct (Backend.select_single userId w) as [[r|e| |] w']; [|done..].
  destruct (Response.error r) as [e|]; [|done].
  by destruct (String.eqb (Error.code e) "PGRST116").
Qed.

Lemma next_fault_healthy w : faults w = [] -> next_fault w = NoFault.
Proof. unfold next_fault. by intros ->. Qed.

Lemma faults_sent c w : faults w = [] -> faults (sent c w) = [].
Proof. simpl. by intros ->. Qed.

Lemma loadProfile_no_row userId w :
  next_fault w = NoFault ->
  (forall row, row ∈ profiles w -> Profile.user_id row ≠ userId) ->
  loadProfile userId w
  = (Returned (ProfileResult.mk true None None), sent (ProfilesSelectSingle userId) w).
Proof.
  intros Hf Hnone. rewrite loadProfile_run.
  unfold Backend.select_single, request. rewrite Hf.
  unfold Backend.serve_select_single. rewrite visible_sent.
  rewrite filter_none_matching; [done|].
  intros row Hin. apply Hnone. by apply visible_sublist.
Qed.

End LoadProfile.

(** C5. When the backend answers the single-row select with the not-found
    error (code PGRST116), [loadProfile] returns a success with null data;
    a healthy backend gives that answer whenever no row of the table has
    the requested owner. Any other error the backend reports, and any
    error thrown during the request, gives a declined result that carries
    the message. *)
Theorem loadProfile_not_found_is_success (userId : string) (w : World) :
  (forall r e w',
      Backend.select_single userId w = (Returned r, w') ->
      Response.error r = Some e ->
      Error.code e = "PGRST116" ->
      loadProfile userId w = (Returned (ProfileResult.mk true None None), w'))
  /\ (next_fault w = NoFault ->
      (forall row, row ∈ profiles w -> Profile.user_id row ≠ userId) ->
      loadProfile userId w
      = (Returned (ProfileResult.mk true None None), sent (ProfilesSelectSingle userId) w))
  /\ (forall r e w',
      Backend.select_single userId w = (Returned r, w') ->
      Response.error r = Some e ->
      Error.code e ≠ "PGRST116" ->
      loadProfile userId w
      = (Returned (ProfileResult.mk false None
                     (Some ("Failed to load profile: " +:+ Error.message e))), w'))
  /\ (forall e w',
      Backend.select_single userId w = (Thrown e, w') ->
      loadProfile userId w
      = (Returned (ProfileResult.mk false None
                     (Some ("Failed to load profile: " +:+ Error.message e))), w')).
Proof.
  rewrite loadProfile_run. repeat split.
  - intros r e w' -> -> Hc. by rewrite Hc.
  - intros Hf Hnone. rewrite <- loadProfile_run. by apply loadProfile_no_row.
  - intros r e w' -> -> Hc. apply String.eqb_neq in Hc. by rewrite Hc.
  - by intros e w' ->.
Qed.

Lemma loadProfile_not_found_is_success_witness :
  loadProfile "a11ce" fresh_world
  = (Returned (ProfileResult.mk true None None),
     sent (ProfilesSelectSingle "a11ce") fresh_world).
Proof.
  apply (proj1 (proj2 (loadProfile_not_found_is_success "a11ce" fresh_world))).
  - reflexivity.
  - intros row Hin. vm_compute in Hin. inversion Hin.
Defined.

(** ** What the helpers return *)

Section NeverThrow.

Lemma reports_true e : reports true e.
Proof. intros H. discriminate. Qed.

Lemma reports_message m : m ≠ "" -> reports false (Some m).
Proof. intros H _. by exists m. Qed.

Lemma prefixed_not_empty c p m : String c p +:+ m ≠ "".
Proof. discriminate. Qed.

Lemma serve_upload_faults fileName file upsert w :
  faults (snd (Backend.serve_upload fileName file upsert w)) = faults w.
Proof.
  unfold Backend.serve_upload.
  destruct (negb (Backend.may_upload w fileName)); [done|].
  destruct (resumes w !! fileName); [destruct upsert|]; done.
Qed.

Lemma serve_upsert_faults values w :
  faults (snd (Backend.serve_upsert values w)) = faults w.
Proof.
  unfold Backend.serve_upsert.
  destruct (negb (Backend.known_columns values)); [done|].
  destruct (session w) as [u|] eqn:Hs; [|done].
  destruct (values !! "user_id") as [[|owner| |]|]; try done.
  destruct (negb (String.eqb owner (User.id u))); [done|].
  destruct (list_find _ (profiles w)) as [[i old]|].
  - destruct (Backend.write_row values old); [|done].
    by destruct (bool_decide _).
  - destruct (values !! "id"); simpl.
    + destruct (Backend.write_row _ _); [|done].
      by destruct (bool_decide _).
    + destruct (Backend.write_row _ _); [|done].
      by destruct (bool_decide _).
Qed.

Lemma serve_select_single_world userId w :
  snd (Backend.serve_select_single userId w) = w.
Proof.
  unfold Backend.serve_select_single.
  by destruct (List.filter _ (Backend.visible w)) as [|r [|r' l]].
Qed.

Lemma requests_settle_sent c w :
  requests_settle w = true ->
  settles (next_fault w) = true /\ requests_settle (sent c w) = true.
Proof.
  unfold requests_settle, next_fault. simpl.
  destruct (faults w) as [|f fs]; simpl; [done|].
  by intros [? ?]%andb_prop.
Qed.

(** A request that settles returns an answer or throws an [Error], and
    those after it settle as well. *)
Lemma request_settles {A} c (serve : World -> A * World) failed w :
  (forall w0, faults (snd (serve w0)) = faults w0) ->
  requests_settle w = true ->
  exists w', requests_settle w' = true
    /\ ((exists a, request c serve failed w = (Returned a, w'))
        \/ (exists e, request c serve failed w = (Thrown e, w'))).
Proof.
  intros Hserve H. destruct (requests_settle_sent c w H) as [Hn Hs].
  assert (requests_settle (snd (serve (sent c w))) = true) as Hs'.
  { unfold requests_settle in *. by rewrite Hserve. }
  unfold request. destruct (next_fault w) as [|e|e| | |how]; try discriminate.
  - destruct (serve (sent c w)) as [a w']. exists w'. split; [done|]. left. by exists a.
  - exists (sent c w). split; [done|]. left. by eexists.
  - exists (sent c w). split; [done|]. right. by eexists.
  - destruct (serve (sent c w)) as [a w']. exists w'. split; [done|].
    destruct how as [e|e| |]; try discriminate; simpl.
    + left. by eexists.
    + right. by eexists.
Qed.

Lemma getUser_settles w :
  requests_settle w = true ->
  exists w', requests_settle w' = true
    /\ ((exists a, Backend.getUser w = (Returned a, w'))
        \/ (exists e, Backend.getUser w = (Thrown e, w'))).
Proof. by apply request_settles. Qed.

Lemma upload_settles fileName file upsert w :
  requests_settle w = true ->
  exists w', requests_settle w' = true
    /\ ((exists a, Backend.upload fileName file upsert w = (Returned a, w'))
        \/ (exists e, Backend.upload fileName file upsert w = (Thrown e, w'))).
Proof. apply request_settles. intros w0. apply serve_upload_faults. Qed.

Lemma upsert_settles values onConflict w :
  requests_settle w = true ->
  exists w', requests_settle w' = true
    /\ ((exists a, Backend.upsert values onConflict w = (Returned a, w'))
        \/ (exists e, Backend.upsert values onConflict w = (Thrown e, w'))).
Proof. apply request_settles. intros w0. apply serve_upsert_faults. Qed.

Lemma select_single_settles userId w :
  requests_settle w = true ->
  exists w', requests_settle w' = true
    /\ ((exists a, Backend.select_single userId w = (Returned a, w'))
        \/ (exists e, Backend.select_single userId w = (Thrown e, w'))).
Proof. apply request_settles. intros w0. by rewrite serve_select_single_world. Qed.

Ltac returned := eexists _, _; split; [reflexivity|]; split; [done|].

Lemma uploadResume_returns file userId w :
  requests_settle w = true ->
  exists r w', uploadResume file userId w = (Returned r, w')
               /\ requests_settle w' = true
               /\ reports (UploadResult.success r) (UploadResult.error r).
Proof.
  intros H. unfold uploadResume, try_catch.
  destruct (negb (includes allowedTypes (File.type file))).
  { returned. by apply reports_message. }
  destruct (maxSize <? File.size file).
  { returned. by apply reports_message. }
  unfold mbind, M_bind, Date_now, gets.
  match goal with |- context [Backend.upload ?a ?b ?c w] =>
    destruct (upload_settles a b c w H) as (w1 & H1 & [[r ->]|[e ->]]) end.
  - destruct (Response.error r); unfold Backend.getPublicUrl, gets; returned;
      [apply reports_message, prefixed_not_empty|apply reports_true].
  - returned. apply reports_message, prefixed_not_empty.
Qed.

Lemma saveProfile_returns profileData w :
  requests_settle w = true ->
  exists r w', saveProfile profileData w = (Returned r, w')
               /\ requests_settle w' = true
               /\ reports (ProfileResult.success r) (ProfileResult.error r).
Proof.
  intros H. unfold saveProfile, try_catch, mbind, M_bind.
  destruct (getUser_settles w H) as (w1 & H1 & [[r ->]|[e ->]]).
  2: { returned. apply reports_message, prefixed_not_empty. }
  destruct (AuthResponse.error r), (AuthResponse.user r) as [u|];
    try (returned; by apply reports_message).
  unfold Date_now, gets.
  match goal with |- context [Backend.upsert ?a ?b w1] =>
    destruct (upsert_settles a b w1 H1) as (w2 & H2 & [[resp ->]|[e ->]]) end.
  2: { returned. apply reports_message, prefixed_not_empty. }
  destruct (Response.error resp).
  { returned. apply reports_message, prefixed_not_empty. }
  destruct (Response.data resp); unfold throw; returned;
    [apply reports_true|apply reports_message, prefixed_not_empty].
Qed.

Lemma loadProfile_returns userId w :
  requests_settle w = true ->
  exists r w', loadProfile userId w = (Returned r, w')
               /\ requests_settle w' = true
               /\ reports (ProfileResult.success r) (ProfileResult.error r).
Proof.
  intros H. rewrite loadProfile_run.
  destruct (select_single_settles userId w H) as (w1 & H1 & [[r ->]|[e ->]]).
  2: { returned. apply reports_message, prefixed_not_empty. }
  destruct (Response.error r) as [e|].
  2: { returned. apply reports_true. }
  destruct (String.eqb (Error.code e) "PGRST116"); returned;
    [apply reports_true|apply reports_message, prefixed_not_empty].
Qed.

Lemma getCurrentUserWithProfile_returns w :
  requests_settle w = true ->
  exists r w', getCurrentUserWithProfile w = (Returned r, w')
               /\ requests_settle w' = true
               /\ reports (UserProfileResult.success r) (UserProfileResult.error r).
Proof.
  intros H. unfold getCurrentUserWithProfile, try_catch, mbind, M_bind.
  destruct (getUser_settles w H) as (w1 & H1 & [[r ->]|[e ->]]).
  2: { returned. apply reports_message, prefixed_not_empty. }
  destruct (AuthResponse.error r), (AuthResponse.user r) as [u|];
    try (returned; by apply reports_message).
  destruct (loadProfile_returns (User.id u) w1 H1) as (p & w2 & -> & H2 & Hp).
  destruct (ProfileResult.success p) eqn:E; simpl.
  - returned. apply reports_true.
  - returned. intros _. by apply Hp.
Qed.

(** A request that rejects with [null] or [undefined] reaches the [catch]
    of the helper, whose [error.message] throws. *)
Lemma uploadResume_nullish file userId w w' :
  includes allowedTypes (File.type file) = true ->
  File.size file <= maxSize ->
  Backend.upload (fileName userId (client_clock w) file) file false w = (ThrownNullish, w') ->
  uploadResume file userId w = (Thrown TypeError_nullish_message, w').
Proof.
  intros Ht Hs Hu. unfold uploadResume, try_catch. rewrite Ht.
  change (negb true) with false. apply Z.ltb_ge in Hs. rewrite Hs.
  unfold mbind, M_bind, Date_now, gets. unfold fileName in Hu. cbv beta iota.
  by rewrite Hu.
Qed.

Lemma saveProfile_nullish profileData w w' :
  Backend.getUser w = (ThrownNullish, w') ->
  saveProfile profileData w = (Thrown TypeError_nullish_message, w').
Proof. intros Hu. unfold saveProfile, try_catch, mbind, M_bind. by rewrite Hu. Qed.

Lemma loadProfile_nullish userId w w' :
  Backend.select_single userId w = (ThrownNullish, w') ->
  loadProfile userId w = (Thrown TypeError_nullish_message, w').
Proof. intros Hu. rewrite loadProfile_run. by rewrite Hu. Qed.

Lemma getCurrentUserWithProfile_nullish w w' :
  Backend.getUser w = (ThrownNullish, w') ->
  getCurrentUserWithProfile w = (Thrown TypeError_nullish_message, w').
Proof.
  intros Hu. unfold getCurrentUserWithProfile, try_catch, mbind, M_bind. by rewrite Hu.
Qed.

End NeverThrow.





(** ** Saving a profile *)

(** Closes the cases in which a helper did not return a success. *)
Ltac no_success := simpl; try (intros [= <- <-]); try discriminate; try done.

Section Upsert.

Lemma getUser_run w :
  Backend.getUser w =
    match next_fault w with
    | NoFault =>
        (Returned (match session w with
                   | Some u => AuthResponse.mk (Some u) None
                   | None => AuthResponse.mk None (Some Backend.AuthSessionMissingError)
                   end), sent AuthGetUser w)
    | Fails e => (Returned (AuthResponse.mk None (Some e)), sent AuthGetUser w)
    | Throws e => (Thrown e, sent AuthGetUser w)
    | ThrowsNullish => (ThrownNullish, sent AuthGetUser w)
    | Hangs => (Pending, sent AuthGetUser w)
    | Served how =>
        (settle (fun e => AuthResponse.mk None (Some e)) how, sent AuthGetUser w)
    end.
Proof. unfold Backend.getUser, request. by destruct (next_fault w). Qed.

Lemma profileToSave_user_id u pd now :
  profileToSave u pd now !! "user_id"
  = match pd !! "user_id" with
    | Some v => Some v
    | None => Some (VStr (User.id u))
    end.
Proof.
  unfold profileToSave. rewrite lookup_insert_ne by done.
  rewrite lookup_union, lookup_singleton_eq.
  by destruct (pd !! "user_id").
Qed.

Lemma profileToSave_updated_at u pd now :
  profileToSave u pd now !! "updated_at" = Some (VTime now).
Proof. unfold profileToSave. by rewrite lookup_insert_eq. Qed.

Lemma profileToSave_other u pd now k :
  k ≠ "updated_at" -> k ≠ "user_id" ->
  profileToSave u pd now !! k = pd !! k.
Proof.
  intros H1 H2. unfold profileToSave. rewrite lookup_insert_ne by done.
  rewrite lookup_union, lookup_singleton_ne by done.
  by destruct (pd !! k).
Qed.

(** A successful save went through an authenticated identity and an
    upsert the backend served. *)
Lemma saveProfile_success pd w r w' :
  saveProfile pd w = (Returned r, w') ->
  ProfileResult.success r = true ->
  exists u rows,
    session w = Some u
    /\ Backend.serve_upsert (profileToSave u pd (client_clock w))
         (sent (ProfilesUpsert (profileToSave u pd (client_clock w)) "user_id")
               (sent AuthGetUser w))
       = (Response.mk (Some rows) None, w')
    /\ r = ProfileResult.mk true (head rows) None.
Proof.
  unfold saveProfile, try_catch, mbind, M_bind. rewrite getUser_run.
  destruct (next_fault w) as [| | | | |how]; [|try destruct how; no_success..].
  destruct (session w) as [u|]; simpl.
  2: { intros [= <- <-]. discriminate. }
  unfold Date_now, gets, Backend.upsert, request.
  change (client_clock (sent AuthGetUser w)) with (client_clock w).
  destruct (next_fault (sent AuthGetUser w)) as [| | | | |how].
  2-5: no_success.
  2: { destruct (Backend.serve_upsert _ _) as [? ?]. destruct how; no_success. }
  destruct (Backend.serve_upsert _ _) as [[d e] w2] eqn:Hs. simpl.
  destruct e as [e|]; [intros [= <- <-]; discriminate|].
  destruct d as [rows|]; [|intros [= <- <-]; discriminate].
  intros [= <- <-] _. by exists u, rows.
Qed.

Lemma write_row_user_id values base new owner :
  values !! "user_id" = Some (VStr owner) ->
  Backend.write_row values base = Some new ->
  Profile.user_id new = owner.
Proof.
  unfold Backend.write_row. intros Hu H. rewrite Hu in H.
  simplify_option_eq. reflexivity.
Qed.

Lemma write_row_updated_at values base new t :
  values !! "updated_at" = Some (VTime t) ->
  Backend.write_row values base = Some new ->
  Profile.updated_at new = Some t.
Proof.
  unfold Backend.write_row. intros Hu H. rewrite Hu in H.
  simplify_option_eq. reflexivity.
Qed.

End Upsert.

Section Table.

Lemma serve_upsert_frame values w :
  session (snd (Backend.serve_upsert values w)) = session w
  /\ resumes (snd (Backend.serve_upsert values w)) = resumes w
  /\ client_clock (snd (Backend.serve_upsert values w)) = client_clock w
  /\ server_clock (snd (Backend.serve_upsert values w)) = server_clock w
  /\ faults (snd (Backend.serve_upsert values w)) = faults w
  /\ calls (snd (Backend.serve_upsert values w)) = calls w
  /\ file_input (snd (Backend.serve_upsert values w)) = file_input w
  /\ publicUrl (snd (Backend.serve_upsert values w)) = publicUrl w.
Proof.
  unfold Backend.serve_upsert.
  destruct (negb (Backend.known_columns values)); [done|].
  destruct (session w) as [u|] eqn:Hs; [|done].
  destruct (values !! "user_id") as [[|owner| |]|]; try done.
  destruct (negb (String.eqb owner (User.id u))); [done|].
  destruct (list_find _ (profiles w)) as [[i old]|].
  - destruct (Backend.write_row values old); [|done].
    by destruct (bool_decide _).
  - destruct (values !! "id"); simpl.
    + destruct (Backend.write_row _ _); [|done].
      by destruct (bool_decide _).
    + destruct (Backend.write_row _ _); [|done].
      by destruct (bool_decide _).
Qed.

(** What a served upsert did to the table. *)
Lemma serve_upsert_ok values w rows w' :
  Backend.serve_upsert values w = (Response.mk (Some rows) None, w') ->
  exists u new,
    session w = Some u
    /\ values !! "user_id" = Some (VStr (User.id u))
    /\ rows = [new]
    /\ Profile.user_id new = User.id u
    /\ match list_find (fun r => Profile.user_id r = User.id u) (profiles w) with
       | Some (i, old) =>
           profiles w' = <[i := new]> (profiles w)
           /\ Profile.updated_at new = Some (server_clock w)
       | None =>
           profiles w' = (profiles w ++ [new])%list
           /\ exists fresh,
               Backend.write_row values (Backend.default_row fresh (User.id u) (server_clock w))
               = Some new
       end.
Proof.
  unfold Backend.serve_upsert.
  destruct (negb (Backend.known_columns values)); [discriminate|].
  destruct (session w) as [u|] eqn:Hs; [|discriminate].
  destruct (values !! "user_id") as [[|owner| |]|] eqn:Hv; try discriminate.
  destruct (String.eqb owner (User.id u)) eqn:Ho; simpl; [|discriminate].
  apply String.eqb_eq in Ho. subst owner.
  destruct (list_find _ (profiles w)) as [[i old]|] eqn:Hf.
  - destruct (Backend.write_row values old) as [new0|] eqn:Hw; [|discriminate].
    destruct (bool_decide _); [discriminate|].
    intros [= <- <-]. eexists u, _. rewrite Hf.
    repeat split; try reflexivity.
    simpl. by apply (write_row_user_id _ _ _ _ Hv Hw).
  - destruct (values !! "id"); simpl.
    + destruct (Backend.write_row _ _) as [new|] eqn:Hw; [|discriminate].
      destruct (bool_decide _); [discriminate|].
      intros [= <- <-]. exists u, new. rewrite Hf.
      repeat split; try reflexivity.
      * by apply (write_row_user_id _ _ _ _ Hv Hw).
      * by eexists.
    + destruct (Backend.write_row _ _) as [new|] eqn:Hw; [|discriminate].
      destruct (bool_decide _); [discriminate|].
      intros [= <- <-]. exists u, new. rewrite Hf.
      repeat split; try reflexivity.
      * by apply (write_row_user_id _ _ _ _ Hv Hw).
      * by eexists.
Qed.

Lemma serve_upsert_profiles_failed values w d e w' :
  Backend.serve_upsert values w = (Response.mk d (Some e), w') ->
  profiles w' = profiles w.
Proof.
  unfold Backend.serve_upsert.
  destruct (negb (Backend.known_columns values)); [by intros [= <- <- <-]|].
  destruct (session w) as [u|]; [|by intros [= <- <- <-]].
  destruct (values !! "user_id") as [[|owner| |]|]; try by intros [= <- <- <-].
  destruct (negb (String.eqb owner (User.id u))); [by intros [= <- <- <-]|].
  destruct (list_find _ (profiles w)) as [[i old]|].
  - destruct (Backend.write_row values old); [|by intros [= <- <- <-]].
    destruct (bool_decide _); [by intros [= <- <- <-]|discriminate].
  - destruct (values !! "id"); simpl.
    + destruct (Backend.write_row _ _); [|by intros [= <- <- <-]].
      destruct (bool_decide _); [by intros [= <- <- <-]|discriminate].
    + destruct (Backend.write_row _ _); [|by intros [= <- <- <-]].
      destruct (bool_decide _); [by intros [= <- <- <-]|discriminate].
Qed.

Lemma owner_unique_insert_same t i old new :
  owner_unique t -> t !! i = Some old ->
  Profile.user_id new = Profile.user_id old ->
  owner_unique (<[i := new]> t).
Proof.
  unfold owner_unique. intros Hn Hi He.
  rewrite list_fmap_insert, list_insert_id; [done|].
  by rewrite list_lookup_fmap, Hi, He.
Qed.

Lemma owner_unique_snoc t new :
  owner_unique t ->
  list_find (fun r => Profile.user_id r = Profile.user_id new) t = None ->
  owner_unique (t ++ [new]).
Proof.
  unfold owner_unique. intros Hn Hf. rewrite fmap_app. apply NoDup_app.
  split; [done|]. split; [|apply NoDup_singleton].
  intros x Hx Hx'. apply list_elem_of_singleton in Hx'. subst x.
  apply list_elem_of_fmap in Hx as [r [Hr Hin]].
  apply list_find_None in Hf. rewrite Forall_forall in Hf.
  by apply (Hf r).
Qed.

Lemma rows_owned_by_none uid t :
  uid ∉ Profile.user_id <$> t -> rows_owned_by uid t = [].
Proof.
  intros H. apply filter_none_matching. intros row Hin Heq.
  apply H. apply list_elem_of_fmap. by exists row.
Qed.

Lemma owned_at_most_one uid t :
  owner_unique t -> (length (rows_owned_by uid t) <= 1)%nat.
Proof.
  unfold owner_unique. induction t as [|r t IH]; simpl; [lia|].
  intros Hn. apply NoDup_cons in Hn as [Hr Hn].
  destruct (String.eqb (Profile.user_id r) uid) eqn:E; [|by apply IH].
  apply String.eqb_eq in E. subst uid.
  fold (rows_owned_by (Profile.user_id r) t).
  rewrite rows_owned_by_none by done. simpl. lia.
Qed.

Lemma owned_exactly_one row t :
  owner_unique t -> row ∈ t ->
  length (rows_owned_by (Profile.user_id row) t) = 1%nat.
Proof.
  intros Hn Hin. pose proof (owned_at_most_one (Profile.user_id row) t Hn) as Hle.
  assert (row ∈ rows_owned_by (Profile.user_id row) t) as Hr.
  { apply list_elem_of_In, filter_In. split; [by apply list_elem_of_In|].
    apply String.eqb_refl. }
  destruct (rows_owned_by (Profile.user_id row) t) as [|a [|b l]]; simpl in *;
    [by inversion Hr|done|lia].
Qed.

End Table.

Section OneRowPerIdentity.

Lemma update_updated_at_column_user_id now r :
  Profile.user_id (Backend.update_updated_at_column now r) = Profile.user_id r.
Proof. reflexivity. Qed.

Lemma serve_upsert_owner_unique values w :
  owner_unique (profiles w) ->
  owner_unique (profiles (snd (Backend.serve_upsert values w))).
Proof.
  intros Hn.
  destruct (Backend.serve_upsert values w) as [[d [e|]] w'] eqn:Hs.
  { simpl. by rewrite (serve_upsert_profiles_failed _ _ _ _ _ Hs). }
  destruct d as [rows|].
  - apply serve_upsert_ok in Hs as (u & new & _ & _ & _ & Hu & Hcase). simpl.
    destruct (list_find _ (profiles w)) as [[i old]|] eqn:Hf.
    + destruct Hcase as [-> _].
      apply list_find_Some in Hf as (Hi & Ho & _).
      apply (owner_unique_insert_same _ _ old); [done..|congruence].
    + destruct Hcase as [-> _]. apply owner_unique_snoc; [done|].
      by rewrite Hu.
  - exfalso. revert Hs. unfold Backend.serve_upsert.
    repeat match goal with
           | |- context [match ?x with _ => _ end] => destruct x
           | |- context [if ?x then _ else _] => destruct x
           end; simpl; discriminate.
Qed.

(** A save leaves the table alone or has the backend serve one upsert. *)
Lemma saveProfile_profiles pd w :
  profiles (snd (saveProfile pd w)) = profiles w
  \/ exists values w0,
      profiles w0 = profiles w
      /\ profiles (snd (saveProfile pd w))
         = profiles (snd (Backend.serve_upsert values w0)).
Proof.
  unfold saveProfile, try_catch, mbind, M_bind. rewrite getUser_run.
  destruct (next_fault w) as [| | | | |how]; [|try destruct how; by left..].
  destruct (session w) as [u|]; simpl; [|by left].
  unfold Date_now, gets, Backend.upsert, request.
  destruct (next_fault (sent AuthGetUser w)) as [| | | | |how]; [|by left..|].
  all: right;
    exists (profileToSave u pd (client_clock w)),
           (sent (ProfilesUpsert (profileToSave u pd (client_clock w)) "user_id")
                 (sent AuthGetUser w));
    (split; [reflexivity|]);
    change (client_clock (sent AuthGetUser w)) with (client_clock w);
    destruct (Backend.serve_upsert _ _) as [[d e] w2]; simpl.
  - destruct e; [reflexivity|]. destruct d; reflexivity.
  - by destruct how.
Qed.

Lemma saveProfile_owner_unique pd w :
  owner_unique (profiles w) -> owner_unique (profiles (snd (saveProfile pd w))).
Proof.
  intros Hn. destruct (saveProfile_profiles pd w) as [->|(values & w0 & H0 & ->)]; [done|].
  apply serve_upsert_owner_unique. by rewrite H0.
Qed.

Lemma saveProfile_session pd w : session (snd (saveProfile pd w)) = session w.
Proof.
  unfold saveProfile, try_catch, mbind, M_bind. rewrite getUser_run.
  destruct (next_fault w) as [| | | | |how]; [|try destruct how; done..].
  destruct (session w) as [u|] eqn:Hs; simpl; [|done].
  unfold Date_now, gets, Backend.upsert, request.
  destruct (next_fault (sent AuthGetUser w)) as [| | | | |how]; [|done..|].
  all: match goal with |- context [Backend.serve_upsert ?v ?x] =>
    pose proof (serve_upsert_frame v x) as [Hf _];
    destruct (Backend.serve_upsert v x) as [[d e] w2] end.
  - simpl in *. destruct e; [|destruct d]; simpl; congruence.
  - simpl in *. destruct how; simpl; congruence.
Qed.

(** Where a successful save left its row. *)
Lemma saveProfile_success_row pd w r w' u :
  session w = Some u ->
  saveProfile pd w = (Returned r, w') ->
  ProfileResult.success r = true ->
  exists new,
    ProfileResult.data r = Some new
    /\ Profile.user_id new = User.id u
    /\ match list_find (fun r => Profile.user_id r = User.id u) (profiles w) with
       | Some (i, old) => profiles w' = <[i := new]> (profiles w)
       | None => profiles w' = (profiles w ++ [new])%list
       end.
Proof.
  intros Hu Hs Hok.
  apply saveProfile_success in Hs as (u' & rows & Hu' & Hs & ->); [|done].
  assert (u' = u) as -> by congruence.
  apply serve_upsert_ok in Hs as (u' & new & Hu'' & _ & -> & Hid & Hcase).
  assert (u' = u) as -> by (simpl in Hu''; congruence).
  exists new. split; [done|]. split; [done|].
  change (profiles (sent (ProfilesUpsert (profileToSave u pd (client_clock w)) "user_id")
                         (sent AuthGetUser w))) with (profiles w) in Hcase.
  destruct (list_find _ (profiles w)) as [[i old]|]; by destruct Hcase.
Qed.

(** The requests of a save: who is signed in, then at most one upsert on
    [user_id]. *)
Lemma saveProfile_calls pd w :
  calls (snd (saveProfile pd w)) = (calls w ++ [AuthGetUser])%list
  \/ exists values,
      calls (snd (saveProfile pd w))
      = (calls w ++ [AuthGetUser; ProfilesUpsert values "user_id"])%list.
Proof.
  unfold saveProfile, try_catch, mbind, M_bind. rewrite getUser_run.
  destruct (next_fault w) as [| | | | |how]; [|try destruct how; by left..].
  destruct (session w) as [u|]; simpl; [|by left].
  unfold Date_now, gets, Backend.upsert, request.
  right. exists (profileToSave u pd (client_clock w)).
  change (client_clock (sent AuthGetUser w)) with (client_clock w).
  destruct (next_fault (sent AuthGetUser w)) as [| | | | |how]; simpl;
    try by rewrite <- app_assoc.
  all: match goal with |- context [Backend.serve_upsert ?v ?x] =>
    pose proof (serve_upsert_frame v x) as (_ & _ & _ & _ & _ & Hc & _);
    destruct (Backend.serve_upsert v x) as [[d e] w2] end.
  - simpl in Hc. destruct e; [|destruct d]; simpl; rewrite Hc; by rewrite <- app_assoc.
  - simpl in Hc. destruct how; simpl; rewrite Hc; by rewrite <- app_assoc.
Qed.

Lemma serve_upload_profiles fileName file upsert w :
  profiles (snd (Backend.serve_upload fileName file upsert w)) = profiles w.
Proof.
  unfold Backend.serve_upload.
  destruct (negb (Backend.may_upload w fileName)); [done|].
  destruct (resumes w !! fileName); [destruct upsert|]; done.
Qed.

Lemma uploadResume_profiles file userId w :
  profiles (snd (uploadResume file userId w)) = profiles w.
Proof.
  unfold uploadResume, try_catch.
  destruct (negb (includes allowedTypes (File.type file))); [done|].
  destruct (maxSize <? File.size file); [done|].
  unfold mbind, M_bind, Date_now, gets, Backend.upload, request. simpl.
  destruct (next_fault w) as [| | | | |how]; simpl; [|done..|].
  all: match goal with |- context [Backend.serve_upload ?a ?b ?c ?d] =>
    pose proof (serve_upload_profiles a b c d) as Hp;
    destruct (Backend.serve_upload a b c d) as [r w'] end.
  - simpl in Hp. by destruct (Response.error r).
  - simpl in Hp. by destruct how.
Qed.

Lemma loadProfile_profiles userId w :
  profiles (snd (loadProfile userId w)) = profiles w.
Proof.
  rewrite loadProfile_run. unfold Backend.select_single, request.
  destruct (next_fault w) as [|e|e| | |how]; simpl;
    [|by destruct (String.eqb (Error.code e) "PGRST116")|done..|].
  all: unfold Backend.serve_select_single;
    destruct (List.filter _ (Backend.visible (sent (ProfilesSelectSingle userId) w)))
      as [|r [|r' l]]; try done.
  all: destruct how as [e| | |]; simpl; try done.
  all: by destruct (String.eqb (Error.code e) "PGRST116").
Qed.

Lemma getCurrentUserWithProfile_profiles w :
  profiles (snd (getCurrentUserWithProfile w)) = profiles w.
Proof.
  unfold getCurrentUserWithProfile, try_catch, mbind, M_bind. rewrite getUser_run.
  destruct (next_fault w) as [| | | | |how]; [|try destruct how; done..].
  destruct (session w) as [u|]; simpl; [|done].
  pose proof (loadProfile_profiles (User.id u) (sent AuthGetUser w)) as Hp.
  destruct (loadProfile (User.id u) (sent AuthGetUser w)) as [[r|e| |] w1]; [|done..].
  simpl in Hp. by destruct (ProfileResult.success r).
Qed.

End OneRowPerIdentity.

(** C1. In a table that satisfies the UNIQUE constraint on [user_id],
    every identity has at most one row; every save, successful or not,
    keeps it so, its only request to the table being an upsert on
    [user_id], and the other helpers do not write to the table. Two
    successful saves in succession by the same identity leave exactly one
    row of that identity after each, and the second replaces, in place,
    the row the first returned: no row is added. *)
Theorem saveProfile_keeps_one_row_per_identity (w : World) :
  owner_unique (profiles w) ->
  (forall uid, (length (rows_owned_by uid (profiles w)) <= 1)%nat)
  /\ (forall pd,
        owner_unique (profiles (snd (saveProfile pd w)))
        /\ (calls (snd (saveProfile pd w)) = (calls w ++ [AuthGetUser])%list
            \/ exists values,
                calls (snd (saveProfile pd w))
                = (calls w ++ [AuthGetUser; ProfilesUpsert values "user_id"])%list))
  /\ ((forall file userId, profiles (snd (uploadResume file userId w)) = profiles w)
      /\ (forall userId, profiles (snd (loadProfile userId w)) = profiles w)
      /\ profiles (snd (getCurrentUserWithProfile w)) = profiles w)
  /\ (forall pd1 pd2 r1 w1 r2 w2 u,
        session w = Some u ->
        saveProfile pd1 w = (Returned r1, w1) ->
        ProfileResult.success r1 = true ->
        saveProfile pd2 w1 = (Returned r2, w2) ->
        ProfileResult.success r2 = true ->
        length (rows_owned_by (User.id u) (profiles w1)) = 1%nat
        /\ length (rows_owned_by (User.id u) (profiles w2)) = 1%nat
        /\ exists i row1 row2,
            ProfileResult.data r1 = Some row1
            /\ Profile.user_id row1 = User.id u
            /\ profiles w1 !! i = Some row1
            /\ ProfileResult.data r2 = Some row2
            /\ Profile.user_id row2 = User.id u
            /\ profiles w2 = <[i := row2]> (profiles w1)).
Proof.
  intros Hn. split; [intros uid; by apply owned_at_most_one|].
  split; [intros pd; split; [by apply saveProfile_owner_unique|apply saveProfile_calls]|].
  split.
  { split; [intros; apply uploadResume_profiles|].
    split; [intros; apply loadProfile_profiles|apply getCurrentUserWithProfile_profiles]. }
  intros pd1 pd2 r1 w1 r2 w2 u Hu H1 Hok1 H2 Hok2.
  assert (owner_unique (profiles w1)) as Hn1.
  { pose proof (saveProfile_owner_unique pd1 w Hn) as H. by rewrite H1 in H. }
  assert (owner_unique (profiles w2)) as Hn2.
  { pose proof (saveProfile_owner_unique pd2 w1 Hn1) as H. by rewrite H2 in H. }
  assert (session w1 = Some u) as Hu1.
  { pose proof (saveProfile_session pd1 w) as H. rewrite H1 in H. simpl in H. congruence. }
  destruct (saveProfile_success_row _ _ _ _ _ Hu H1 Hok1) as (row1 & Hd1 & Hid1 & Hcase1).
  destruct (saveProfile_success_row _ _ _ _ _ Hu1 H2 Hok2) as (row2 & Hd2 & Hid2 & Hcase2).
  assert (exists i, profiles w1 !! i = Some row1) as [i Hi].
  { destruct (list_find _ (profiles w)) as [[i old]|] eqn:Hf.
    - exists i. rewrite Hcase1. apply list_lookup_insert_eq.
      apply list_find_Some in Hf as (Hi & _). by apply lookup_lt_Some in Hi.
    - exists (length (profiles w)). rewrite Hcase1.
      by rewrite lookup_app_r, Nat.sub_diag by lia. }
  destruct (list_find _ (profiles w1)) as [[j old]|] eqn:Hf.
  2: { apply list_find_None in Hf. rewrite Forall_forall in Hf.
       exfalso. apply (Hf row1); [|done]. by apply list_elem_of_lookup_2 in Hi. }
  apply list_find_Some in Hf as (Hj & Hold & _).
  assert (j = i) as ->.
  { apply (NoDup_lookup _ j i (User.id u) Hn1); rewrite list_lookup_fmap.
    - by rewrite Hj; simpl; f_equal.
    - by rewrite Hi; simpl; f_equal. }
  assert (row1 ∈ profiles w1) as Hin1 by (by apply list_elem_of_lookup_2 in Hi).
  assert (row2 ∈ profiles w2) as Hin2.
  { rewrite Hcase2. apply list_elem_of_lookup. exists i.
    apply list_lookup_insert_eq. by apply lookup_lt_Some in Hi. }
  split; [rewrite <- Hid1; by apply owned_exactly_one|].
  split; [rewrite <- Hid2; by apply owned_exactly_one|].
  by exists i, row1, row2.
Qed.

Lemma saveProfile_keeps_one_row_per_identity_witness :
  length (rows_owned_by (User.id alice) (profiles after_first_save)) = 1%nat
  /\ length (rows_owned_by (User.id alice) (profiles after_second_save)) = 1%nat
  /\ exists i row1 row2,
      ProfileResult.data (ProfileResult.mk true (Some first_row) None) = Some row1
      /\ Profile.user_id row1 = User.id alice
      /\ profiles after_first_save !! i = Some row1
      /\ ProfileResult.data (ProfileResult.mk true (Some second_row) None) = Some row2
      /\ Profile.user_id row2 = User.id alice
      /\ profiles after_second_save = <[i := row2]> (profiles after_first_save).
Proof.
  apply (proj2 (proj2 (proj2
           (saveProfile_keeps_one_row_per_identity fresh_world (NoDup_nil_2))))
           {["bio" := VStr "hi"]} {["bio" := VStr "ho"]}
           (ProfileResult.mk true (Some first_row) None) after_first_save
           (ProfileResult.mk true (Some second_row) None) after_second_save alice).
  - reflexivity.
  - vm_compute. reflexivity.
  - reflexivity.
  - vm_compute. reflexivity.
  - reflexivity.
Defined.

Section UpdatedAt.

Lemma list_find_rows_owned_by uid t :
  list_find (fun r => Profile.user_id r = uid) t = None <-> rows_owned_by uid t = [].
Proof.
  rewrite list_find_None. unfold rows_owned_by. induction t as [|r t IH]; simpl.
  - split; [done|constructor].
  - destruct (String.eqb (Profile.user_id r) uid) eqn:E.
    + apply String.eqb_eq in E. split; [|done]. intros H. by inversion H.
    + apply String.eqb_neq in E. rewrite Forall_cons. tauto.
Qed.

(** The row a successful save stored, and where its [updated_at] came
    from. *)
Lemma saveProfile_success_updated_at pd w r w' u :
  session w = Some u ->
  saveProfile pd w = (Returned r, w') ->
  ProfileResult.success r = true ->
  exists new,
    ProfileResult.data r = Some new
    /\ new ∈ profiles w'
    /\ calls w' = (calls w ++ [AuthGetUser;
                               ProfilesUpsert (profileToSave u pd (client_clock w)) "user_id"])%list
    /\ Profile.updated_at new
       = Some (match rows_owned_by (User.id u) (profiles w) with
               | [] => client_clock w
               | _ :: _ => server_clock w
               end).
Proof.
  intros Hu Hs Hok.
  apply saveProfile_success in Hs as (u' & rows & Hu' & Hs & ->); [|done].
  assert (u' = u) as -> by congruence.
  pose proof (serve_upsert_frame (profileToSave u pd (client_clock w))
                (sent (ProfilesUpsert (profileToSave u pd (client_clock w)) "user_id")
                      (sent AuthGetUser w))) as (_ & _ & _ & _ & _ & Hcalls & _).
  rewrite Hs in Hcalls. simpl in Hcalls.
  apply serve_upsert_ok in Hs as (u' & new & Hu'' & _ & -> & Hid & Hcase).
  assert (u' = u) as -> by (simpl in Hu''; congruence).
  change (profiles (sent (ProfilesUpsert (profileToSave u pd (client_clock w)) "user_id")
                         (sent AuthGetUser w))) with (profiles w) in Hcase.
  change (server_clock (sent (ProfilesUpsert (profileToSave u pd (client_clock w)) "user_id")
                         (sent AuthGetUser w))) with (server_clock w) in Hcase.
  exists new. split; [done|].
  destruct (list_find _ (profiles w)) as [[i old]|] eqn:Hf.
  - destruct Hcase as [Hp Ht]. split; [|split].
    + rewrite Hp. apply list_elem_of_lookup. exists i. apply list_lookup_insert_eq.
      apply list_find_Some in Hf as (Hi & _). by apply lookup_lt_Some in Hi.
    + rewrite Hcalls. by rewrite <- app_assoc.
    + rewrite Ht. destruct (rows_owned_by (User.id u) (profiles w)) eqn:Hr; [|done].
      apply list_find_rows_owned_by in Hr. congruence.
  - destruct Hcase as [Hp [fresh Hw]]. split; [|split].
    + rewrite Hp. apply elem_of_app. right. by apply list_elem_of_singleton.
    + rewrite Hcalls. by rewrite <- app_assoc.
    + apply list_find_rows_owned_by in Hf. rewrite Hf.
      apply (write_row_updated_at _ _ _ _ (profileToSave_updated_at u pd (client_clock w)) Hw).
Qed.

End UpdatedAt.

(** C4. Where the stored [updated_at] comes from. Every save sends an
    [updated_at] of the client's own clock, whatever the caller's fields
    say. When the save updates the identity's existing row, the BEFORE
    UPDATE trigger replaces it and the stored [updated_at] is the server's
    [NOW()]; when the save inserts the identity's first row, no trigger
    runs and the stored [updated_at] is the timestamp the client sent: it
    is server-assigned on update only. *)
Theorem saveProfile_updated_at_source (pd : gmap string JsVal) (w : World)
    (r : ProfileResult.t) (w' : World) (u : User.t) :
  session w = Some u ->
  saveProfile pd w = (Returned r, w') ->
  ProfileResult.success r = true ->
  exists row,
    ProfileResult.data r = Some row
    /\ row ∈ profiles w'
    /\ calls w' = (calls w ++ [AuthGetUser;
                               ProfilesUpsert (profileToSave u pd (client_clock w)) "user_id"])%list
    /\ profileToSave u pd (client_clock w) !! "updated_at" = Some (VTime (client_clock w))
    /\ Profile.updated_at row
       = Some (match rows_owned_by (User.id u) (profiles w) with
               | [] => client_clock w
               | _ :: _ => server_clock w
               end).
Proof.
  intros Hu Hs Hok.
  destruct (saveProfile_success_updated_at _ _ _ _ _ Hu Hs Hok) as (row & H1 & H2 & H3 & H4).
  exists row. repeat split; try done. apply profileToSave_updated_at.
Qed.

Lemma saveProfile_updated_at_source_witness :
  exists row,
    ProfileResult.data (ProfileResult.mk true (Some first_row) None) = Some row
    /\ row ∈ profiles after_first_save
    /\ calls after_first_save
       = (calls fresh_world ++
          [AuthGetUser;
           ProfilesUpsert (profileToSave alice {["bio" := VStr "hi"]} (client_clock fresh_world))
                          "user_id"])%list
    /\ profileToSave alice {["bio" := VStr "hi"]} (client_clock fresh_world) !! "updated_at"
       = Some (VTime (client_clock fresh_world))
    /\ Profile.updated_at row
       = Some (match rows_owned_by (User.id alice) (profiles fresh_world) with
               | [] => client_clock fresh_world
               | _ :: _ => server_clock fresh_world
               end).
Proof.
  apply (saveProfile_updated_at_source {["bio" := VStr "hi"]} fresh_world
           (ProfileResult.mk true (Some first_row) None) after_first_save alice).
  - reflexivity.
  - vm_compute. reflexivity.
  - reflexivity.
Defined.

(** The first save of [alice] in [fresh_world] stores the client's
    1700000000123, not the server's 1700000000456. *)
Lemma updated_at_client_supplied_on_insert :
  ~ (forall pd w r w' row,
        saveProfile pd w = (Returned r, w') ->
        ProfileResult.data r = Some row ->
        Profile.updated_at row = Some (server_clock w)).
Proof.
  intros H.
  specialize (H {["bio" := VStr "hi"]} fresh_world
                (ProfileResult.mk true (Some first_row) None) after_first_save first_row).
  assert (Profile.updated_at first_row = Some (server_clock fresh_world)) as Hc.
  { apply H; [vm_compute; reflexivity|reflexivity]. }
  vm_compute in Hc. discriminate.
Qed.

(** C2. The owner key of the payload is the current identity's id only
    when the caller supplies none: a caller's [user_id] field replaces it,
    because the spread comes after [user_id: user.id]. Signed in as
    [alice], saving [{ user_id: 'mallory' }] sends an upsert whose
    [user_id] is ['mallory'], which the insert policy of the table then
    refuses. *)
Theorem saveProfile_submits_caller_user_id :
  profileToSave alice {["user_id" := VStr "mallory"]} (client_clock fresh_world) !! "user_id"
  = Some (VStr "mallory")
  /\ calls (snd (saveProfile {["user_id" := VStr "mallory"]} fresh_world))
     = [AuthGetUser;
        ProfilesUpsert
          (profileToSave alice {["user_id" := VStr "mallory"]} (client_clock fresh_world))
          "user_id"]
  /\ fst (saveProfile {["user_id" := VStr "mallory"]} fresh_world)
     = Returned (ProfileResult.mk false None
                   (Some "Failed to save profile: new row violates row-level security policy")).
Proof. repeat split; vm_compute; reflexivity. Qed.

(** ** Submitting the form *)

Section Submit.

Import ProfileForm.

Lemma uploadResume_calls file userId w :
  calls (snd (uploadResume file userId w)) = calls w
  \/ exists fileName,
      calls (snd (uploadResume file userId w))
      = (calls w ++ [StorageUpload "resumes" fileName file false])%list.
Proof.
  destruct (includes allowedTypes (File.type file)) eqn:E.
  - destruct (Z.lt_ge_cases maxSize (File.size file)).
    + left. by rewrite uploadResume_rejects_size.
    + right. eexists. by apply uploadResume_sends_upload.
  - left. by rewrite uploadResume_rejects_type.
Qed.

Lemma uploadResume_no_save file userId w :
  List.filter is_save (calls (snd (uploadResume file userId w)))
  = List.filter is_save (calls w).
Proof.
  destruct (uploadResume_calls file userId w) as [->|[k ->]]; [done|].
  rewrite List.filter_app. simpl. by rewrite app_nil_r.
Qed.

Lemma uploadResume_success_calls file userId w r w1 :
  uploadResume file userId w = (Returned r, w1) ->
  UploadResult.success r = true ->
  calls w1
  = (calls w ++
     [StorageUpload "resumes"
        (userId +:+ "/" +:+ pretty (client_clock w) +:+ "."
         +:+ interpolate (pop (split "." (File.name file))))
        file false])%list.
Proof.
  intros Hup Hok.
  destruct (includes allowedTypes (File.type file)) eqn:E.
  2: { rewrite uploadResume_rejects_type in Hup by done.
       injection Hup as <- <-. discriminate. }
  destruct (Z.lt_ge_cases maxSize (File.size file)) as [Hlt|Hge].
  { rewrite uploadResume_rejects_size in Hup by done.
    injection Hup as <- <-. discriminate. }
  pose proof (uploadResume_sends_upload file userId w E Hge) as Hc.
  by rewrite Hup in Hc.
Qed.

Lemma saveProfile_no_upload pd w :
  List.filter is_upload (calls (snd (saveProfile pd w)))
  = List.filter is_upload (calls w).
Proof.
  destruct (saveProfile_calls pd w) as [->|[v ->]];
    rewrite List.filter_app; simpl; by rewrite app_nil_r.
Qed.

(** [handleSubmit] once the resume URL is known: one save, then the
    notices. *)
Lemma submitProfile_run render resumeUrl s0 w1 :
  submitProfile render resumeUrl (s0, w1)
  = match saveProfile (profileData resumeUrl (toArray (FormData.skills (formData render)))
                         (toArray (FormData.interests (formData render))) (formData render)) w1
    with
    | (Returned saveResult, w2) =>
        (Returned tt,
         if ProfileResult.success saveResult
         then (setResumeFile None
                 (setSuccess "Profile saved successfully!"
                    (setProfile (ProfileResult.data saveResult) s0)),
               clear_file_input w2)
         else (setError (or_empty (ProfileResult.error saveResult)) s0, w2))
    | (Thrown e, w2) => (Thrown e, (s0, w2))
    | (ThrownNullish, w2) => (ThrownNullish, (s0, w2))
    | (Pending, w2) => (Pending, (s0, w2))
    end.
Proof.
  unfold submitProfile, mbind, M_bind, await, set, modify. cbn [fst snd].
  destruct (saveProfile _ w1) as [[sr|e| |] w2]; [|done..].
  by destruct (ProfileResult.success sr).
Qed.

End Submit.

(** X25. For a signed-in user: with a file staged, the upload is awaited
    first; if it declines, the submission stops there: the world is the
    one the upload left (no save request was sent), the error notice is
    the upload's message, and the form is no longer saving, its staged
    file still in place. If the upload succeeds, the save runs in the world
    the upload left, with the uploaded URL, and once it has returned the
    log shows the upload request before the requests of the save. With no
    file staged, the save runs at once with the [existingResumeUrl] of the
    state as [resume_url], and no upload request is sent. *)
Theorem handleSubmit_upload_then_save (s : ProfileForm.State) (w : World) (u : User.t) :
  ProfileForm.user s = Some u ->
  (forall file r w1,
      ProfileForm.resumeFile s = Some file ->
      uploadResume file (User.id u) w = (Returned r, w1) ->
      UploadResult.success r = false ->
      ProfileForm.run (ProfileForm.handleSubmit s) s w
      = (Returned tt,
         (ProfileForm.mkState (ProfileForm.loading s) false (ProfileForm.user s)
            (ProfileForm.profile s) (ProfileForm.or_empty (UploadResult.error r)) ""
            (ProfileForm.resumeFile s) (ProfileForm.existingResumeUrl s)
            (ProfileForm.formData s),
          w1))
      /\ List.filter is_save (calls w1) = List.filter is_save (calls w))
  /\ (forall file r w1 saveResult w2,
      ProfileForm.resumeFile s = Some file ->
      uploadResume file (User.id u) w = (Returned r, w1) ->
      UploadResult.success r = true ->
      saveProfile
        (ProfileForm.profileData (UploadResult.url r)
           (toArray (FormData.skills (ProfileForm.formData s)))
           (toArray (FormData.interests (ProfileForm.formData s)))
           (ProfileForm.formData s)) w1
      = (Returned saveResult, w2) ->
      (exists more,
          calls w2
          = (calls w ++
             StorageUpload "resumes"
               (User.id u +:+ "/" +:+ pretty (client_clock w) +:+ "."
                +:+ interpolate (pop (split "." (File.name file))))
               file false
             :: AuthGetUser :: more)%list)
      /\ ProfileForm.run (ProfileForm.handleSubmit s) s w
         = (Returned tt,
            if ProfileResult.success saveResult
            then (ProfileForm.mkState (ProfileForm.loading s) false (ProfileForm.user s)
                    (ProfileResult.data saveResult) "" "Profile saved successfully!"
                    None (ProfileForm.existingResumeUrl s) (ProfileForm.formData s),
                  clear_file_input w2)
            else (ProfileForm.mkState (ProfileForm.loading s) false (ProfileForm.user s)
                    (ProfileForm.profile s)
                    (ProfileForm.or_empty (ProfileResult.error saveResult)) ""
                    (ProfileForm.resumeFile s) (ProfileForm.existingResumeUrl s)
                    (ProfileForm.formData s),
                  w2)))
  /\ (forall saveResult w2,
      ProfileForm.resumeFile s = None ->
      saveProfile
        (ProfileForm.profileData (Some (ProfileForm.existingResumeUrl s))
           (toArray (FormData.skills (ProfileForm.formData s)))
           (toArray (FormData.interests (ProfileForm.formData s)))
           (ProfileForm.formData s)) w
      = (Returned saveResult, w2) ->
      ProfileForm.profileData (Some (ProfileForm.existingResumeUrl s))
        (toArray (FormData.skills (ProfileForm.formData s)))
        (toArray (FormData.interests (ProfileForm.formData s)))
        (ProfileForm.formData s) !! "resume_url"
      = Some (VStr (ProfileForm.existingResumeUrl s))
      /\ List.filter is_upload (calls w2) = List.filter is_upload (calls w)
      /\ ProfileForm.run (ProfileForm.handleSubmit s) s w
         = (Returned tt,
            if ProfileResult.success saveResult
            then (ProfileForm.mkState (ProfileForm.loading s) false (ProfileForm.user s)
                    (ProfileResult.data saveResult) "" "Profile saved successfully!"
                    None (ProfileForm.existingResumeUrl s) (ProfileForm.formData s),
                  clear_file_input w2)
            else (ProfileForm.mkState (ProfileForm.loading s) false (ProfileForm.user s)
                    (ProfileForm.profile s)
                    (ProfileForm.or_empty (ProfileResult.error saveResult)) ""
                    (ProfileForm.resumeFile s) (ProfileForm.existingResumeUrl s)
                    (ProfileForm.formData s),
                  w2))).
Proof.
  intros Hu.
  split; [|split].
  - intros file r w1 Hf Hup Hdecl.
    split.
    2: { pose proof (uploadResume_no_save file (User.id u) w) as H. by rewrite Hup in H. }
    unfold ProfileForm.run, ProfileForm.handleSubmit. rewrite Hu, Hf.
    unfold try_finally, try_catch, mbind, M_bind, ProfileForm.await, ProfileForm.set, modify.
    cbn [fst snd]. rewrite Hup, Hdecl. by rewrite <- Hu, <- Hf.
  - intros file r w1 sr w2 Hf Hup Hok Hs.
    split.
    { pose proof (uploadResume_success_calls _ _ _ _ _ Hup Hok) as Hc1.
      match type of Hs with saveProfile ?pd w1 = _ =>
        destruct (saveProfile_calls pd w1) as [Hc2|[v Hc2]] end;
        rewrite Hs in Hc2; simpl in Hc2; rewrite Hc2, Hc1, <- app_assoc;
        eexists; reflexivity. }
    unfold ProfileForm.run, ProfileForm.handleSubmit. rewrite Hu, Hf.
    unfold try_finally, try_catch, mbind, M_bind, ProfileForm.await.
    unfold ProfileForm.set at 1 2 3. unfold modify.
    cbn [fst snd]. rewrite Hup, Hok. cbn [negb]. rewrite submitProfile_run, Hs.
    rewrite <- Hu, <- Hf. by destruct (ProfileResult.success sr).
  - intros sr w2 Hf Hs.
    split; [reflexivity|]. split.
    + pose proof (saveProfile_no_upload
                    (ProfileForm.profileData (Some (ProfileForm.existingResumeUrl s))
                       (toArray (FormData.skills (ProfileForm.formData s)))
                       (toArray (FormData.interests (ProfileForm.formData s)))
                       (ProfileForm.formData s)) w) as H.
      by rewrite Hs in H.
    + unfold ProfileForm.run, ProfileForm.handleSubmit. rewrite Hu, Hf.
      unfold try_finally, try_catch, mbind, M_bind.
      unfold ProfileForm.set at 1 2 3. unfold modify.
      cbn [fst snd]. rewrite submitProfile_run, Hs.
      rewrite <- Hu, <- Hf. by destruct (ProfileResult.success sr).
Qed.

Lemma handleSubmit_upload_then_save_witness :
  (ProfileForm.run (ProfileForm.handleSubmit cv_staged) cv_staged stored_unanswered
   = (Returned tt,
      (ProfileForm.mkState false false (Some alice) None "Upload failed: Gateway Timeout" ""
         (Some cv) "" FormData.empty,
       set_resumes {["a11ce/1700000000123.pdf" := cv]}
         (sent (StorageUpload "resumes" "a11ce/1700000000123.pdf" cv false)
               stored_unanswered)))
   /\ List.filter is_save
        (calls (set_resumes {["a11ce/1700000000123.pdf" := cv]}
                  (sent (StorageUpload "resumes" "a11ce/1700000000123.pdf" cv false)
                        stored_unanswered)))
      = List.filter is_save (calls stored_unanswered))
  /\ ((exists more,
          calls cv_saved
          = (calls fresh_world ++
             StorageUpload "resumes"
               (User.id alice +:+ "/" +:+ pretty (client_clock fresh_world) +:+ "."
                +:+ interpolate (pop (split "." (File.name cv))))
               cv false
             :: AuthGetUser :: more)%list)
      /\ ProfileForm.run (ProfileForm.handleSubmit cv_staged) cv_staged fresh_world
         = (Returned tt,
            (ProfileForm.mkState false false (Some alice) (Some cv_row) ""
               "Profile saved successfully!" None "" FormData.empty,
             clear_file_input cv_saved))).
Proof.
  split.
  - apply (proj1 (handleSubmit_upload_then_save cv_staged stored_unanswered alice eq_refl)
             cv (UploadResult.mk false None (Some "Upload failed: Gateway Timeout"))).
    + reflexivity.
    + vm_compute. reflexivity.
    + reflexivity.
  - apply (proj1 (proj2 (handleSubmit_upload_then_save cv_staged fresh_world alice eq_refl))
             cv (UploadResult.mk true (Some (sample_publicUrl "a11ce/1700000000123.pdf")) None)
             cv_uploaded (ProfileResult.mk true (Some cv_row) None) cv_saved).
    + reflexivity.
    + vm_compute. reflexivity.
    + reflexivity.
    + vm_compute. reflexivity.
Defined.

(** ** The first submission of a new identity *)

Section FirstSubmission.

Import ProfileForm.

Lemma rows_owned_by_nil_ne uid t row :
  rows_owned_by uid t = [] -> row ∈ t -> Profile.user_id row ≠ uid.
Proof.
  intros H Hin. apply list_find_rows_owned_by in H.
  apply list_find_None in H. rewrite Forall_forall in H. by apply H.
Qed.

(** Activation for an identity without a row: the form stays empty. *)
Lemma loadUserData_new_identity w u :
  session w = Some u -> faults w = [] ->
  rows_owned_by (User.id u) (profiles w) = [] ->
  run loadUserData initial w
  = (Returned tt,
     (mkState false false (Some u) None "" "" None "" FormData.empty,
      sent (ProfilesSelectSingle (User.id u)) (sent AuthGetUser w))).
Proof.
  intros Hu Hf Hnone.
  unfold run, loadUserData, try_finally, try_catch, mbind, M_bind, await.
  unfold set at 1 2. unfold modify. cbn [fst snd].
  unfold getCurrentUserWithProfile, try_catch, mbind, M_bind.
  rewrite getUser_run, (next_fault_healthy w Hf), Hu.
  cbn [AuthResponse.error AuthResponse.user].
  rewrite loadProfile_no_row.
  - reflexivity.
  - apply next_fault_healthy. by apply faults_sent.
  - intros row Hin. by apply (rows_owned_by_nil_ne _ (profiles w)).
Qed.

(** The first save of an identity on a healthy backend inserts the row
    made of the payload over the column defaults. *)
Lemma saveProfile_insert pd w u new :
  session w = Some u -> faults w = [] ->
  rows_owned_by (User.id u) (profiles w) = [] ->
  pd !! "user_id" = None -> pd !! "id" = None ->
  Backend.known_columns (profileToSave u pd (client_clock w)) = true ->
  Backend.write_row (profileToSave u pd (client_clock w))
    (Backend.default_row (default Backend.nil_uuid (head (uuids w)))
       (User.id u) (server_clock w)) = Some new ->
  Profile.id new ∉ Profile.id <$> profiles w ->
  saveProfile pd w
  = (Returned (ProfileResult.mk true (Some new) None),
     set_profiles (profiles w ++ [new])
       (set_uuids (tail (uuids w))
          (sent (ProfilesUpsert (profileToSave u pd (client_clock w)) "user_id")
                (sent AuthGetUser w)))).
Proof.
  intros Hu Hf Hnone Hpu Hpi Hk Hw Hfresh.
  unfold saveProfile, try_catch, mbind, M_bind.
  rewrite getUser_run, (next_fault_healthy w Hf), Hu.
  cbn [AuthResponse.error AuthResponse.user].
  unfold Date_now, gets, Backend.upsert, request.
  rewrite (next_fault_healthy _ (faults_sent AuthGetUser w Hf)).
  change (client_clock (sent AuthGetUser w)) with (client_clock w).
  set (values := profileToSave u pd (client_clock w)) in *.
  set (w0 := sent (ProfilesUpsert values "user_id") (sent AuthGetUser w)).
  assert (Backend.serve_upsert values w0
          = (Response.ok [new],
             set_profiles (profiles w ++ [new]) (set_uuids (tail (uuids w)) w0))) as ->.
  { unfold Backend.serve_upsert. rewrite Hk. cbn [negb].
    change (session w0) with (session w). rewrite Hu.
    assert (values !! "user_id" = Some (VStr (User.id u))) as ->.
    { unfold values. by rewrite profileToSave_user_id, Hpu. }
    rewrite String.eqb_refl. cbn [negb].
    change (profiles w0) with (profiles w).
    apply list_find_rows_owned_by in Hnone. rewrite Hnone.
    assert (values !! "id" = None) as ->.
    { unfold values. by rewrite profileToSave_other. }
    unfold Backend.gen_random_uuid.
    change (uuids w0) with (uuids w). change (server_clock w0) with (server_clock w).
    rewrite Hw. by rewrite bool_decide_eq_false_2. }
  reflexivity.
Qed.

End FirstSubmission.

(** C8. A signed-in identity without a row, on a healthy
    backend whose next uuid is not taken, activates the form (which stays
    empty), enters the skills ["Go, Rust"] and the level ["mid"], stages no
    file and submits: the profile the form then holds is the identity's
    one row of the table, with [skills = ["Go";"Rust"]],
    [experience_level = "mid"], and [resume_url] the empty string (not
    NULL), which is what the form sends when no resume is known. *)
Theorem first_submission_profile (w : World) (u : User.t) :
  session w = Some u ->
  faults w = [] ->
  rows_owned_by (User.id u) (profiles w) = [] ->
  default Backend.nil_uuid (head (uuids w)) ∉ Profile.id <$> profiles w ->
  ProfileForm.formData (fst (snd (ProfileForm.run ProfileForm.loadUserData ProfileForm.initial w)))
  = FormData.empty
  /\ exists row,
      ProfileForm.profile (fst (first_submission w)) = Some row
      /\ rows_owned_by (User.id u) (profiles (snd (first_submission w))) = [row]
      /\ Profile.skills row = Some ["Go"; "Rust"]
      /\ Profile.experience_level row = Some "mid"
      /\ Profile.resume_url row = Some "".
Proof.
  intros Hu Hf Hnone Hfresh.
  unfold first_submission.
  rewrite (loadUserData_new_identity w u) by done. cbn [fst snd].
  split; [reflexivity|].
  set (w1 := sent (ProfilesSelectSingle (User.id u)) (sent AuthGetUser w)).
  set (new := Profile.mk (default Backend.nil_uuid (head (uuids w))) (User.id u)
                (Some "") (Some ["Go"; "Rust"]) (Some []) (Some "mid")
                (Some "") (Some "") (Some "") (Some "") (Some "")
                (Some (client_clock w))).
  exists new.
  match goal with |- context [ProfileForm.run (ProfileForm.handleSubmit ?s) ?s w1] =>
    assert (exists st w4,
               ProfileForm.run (ProfileForm.handleSubmit s) s w1 = (Returned tt, (st, w4))
               /\ ProfileForm.profile st = Some new
               /\ profiles w4 = (profiles w ++ [new])%list) as (st & w4 & -> & Hst & Hw4)
  end.
  { unfold ProfileForm.run, ProfileForm.handleSubmit, ProfileForm.handleInputChange.
    cbn [ProfileForm.user ProfileForm.setFormData ProfileForm.resumeFile].
    unfold try_finally, try_catch, mbind, M_bind.
    unfold ProfileForm.set at 1 2 3. unfold modify. cbn [fst snd].
    unfold ProfileForm.submitProfile, mbind, M_bind, ProfileForm.await. cbn [fst snd].
    erewrite (saveProfile_insert _ w1 u new).
    - eexists _, _. split; [reflexivity|]. split; reflexivity.
    - exact Hu.
    - unfold w1. by do 2 apply faults_sent.
    - exact Hnone.
    - vm_compute. reflexivity.
    - vm_compute. reflexivity.
    - vm_compute. reflexivity.
    - vm_compute. reflexivity.
    - exact Hfresh. }
  cbn [fst snd]. rewrite Hst, Hw4. repeat split; try reflexivity.
  unfold rows_owned_by. rewrite List.filter_app.
  fold (rows_owned_by (User.id u) (profiles w)). rewrite Hnone.
  cbn. by rewrite String.eqb_refl.
Qed.

Lemma first_submission_profile_witness :
  ProfileForm.formData
    (fst (snd (ProfileForm.run ProfileForm.loadUserData ProfileForm.initial fresh_world)))
  = FormData.empty
  /\ exists row,
      ProfileForm.profile (fst (first_submission fresh_world)) = Some row
      /\ rows_owned_by (User.id alice) (profiles (snd (first_submission fresh_world))) = [row]
      /\ Profile.skills row = Some ["Go"; "Rust"]
      /\ Profile.experience_level row = Some "mid"
      /\ Profile.resume_url row = Some "".
Proof.
  apply (first_submission_profile fresh_world alice).
  - reflexivity.
  - reflexivity.
  - reflexivity.
  - vm_compute. inversion 1.
Defined.

(** In [fresh_world] the saved profile does not have a NULL [resume_url]. *)
Lemma first_submission_resume_url_not_null :
  ~ (exists row,
        ProfileForm.profile (fst (first_submission fresh_world)) = Some row
        /\ Profile.skills row = Some ["Go"; "Rust"]
        /\ Profile.experience_level row = Some "mid"
        /\ Profile.resume_url row = None).
Proof.
  intros (row & Hrow & _ & _ & Hnull).
  vm_compute in Hrow. injection Hrow as <-. discriminate.
Qed.

(** ** The form component *)

(** C10. A change event of the file input that carries no file leaves the
    whole state as it is, the staged file and the known resume URL
    included; an event that carries a file stages the first file and
    clears the known resume URL, and changes nothing else. *)
Theorem handleFileChange_frame :
  (forall s, ProfileForm.handleFileChange [] s = s)
  /\ (forall file rest s,
        ProfileForm.handleFileChange (file :: rest) s
        = ProfileForm.mkState
            (ProfileForm.loading s) (ProfileForm.saving s) (ProfileForm.user s)
            (ProfileForm.profile s) (ProfileForm.error s) (ProfileForm.success s)
            (Some file) "" (ProfileForm.formData s)).
Proof. split; reflexivity. Qed.

(** * Further properties *)

(** ** More on splitting and trimming *)

Section MoreStrings.

Lemma split_app_sep sep a b :
  split sep (a +:+ String sep b) = (split sep a ++ split sep b)%list.
Proof.
  induction a as [|c a IH]; simpl.
  - by rewrite Ascii.eqb_refl.
  - destruct (Ascii.eqb c sep); simpl; [by rewrite IH|].
    rewrite IH.
    destruct (split sep a) as [|seg rest] eqn:E; [by apply split_not_nil in E|].
    reflexivity.
Qed.

Lemma all_ws_app a b : all_ws (a +:+ b) = all_ws a && all_ws b.
Proof.
  induction a as [|c a IH]; simpl; [done|].
  rewrite IH. by rewrite andb_assoc.
Qed.

Lemma trim_empty_iff s : is_empty (trim s) = all_ws s.
Proof.
  destruct (all_ws s) eqn:E.
  - unfold trim. by rewrite trimStart_all_ws.
  - destruct (is_empty (trim s)) eqn:Et; [|done].
    apply is_empty_true in Et.
    destruct (trim_decompose s) as (pre & post & Hpre & Hpost & Hs).
    rewrite Et in Hs. rewrite Hs in E.
    rewrite !all_ws_app, Hpre, Hpost in E. discriminate.
Qed.

Lemma append_assoc a b c : (a +:+ b) +:+ c = a +:+ (b +:+ c).
Proof.
  induction a as [|x a IH]; [done|]. rewrite !append_cons. by rewrite IH.
Qed.

Lemma last_cons_ne {A} (x : A) l : l ≠ [] -> last (x :: l) = last l.
Proof. by destruct l. Qed.

(** The last element of a non-empty array and the join of the array. *)
Lemma join_last sep l :
  l ≠ [] ->
  exists ext, last l = Some ext
    /\ (l = [ext]
        \/ exists stem, join sep l = stem +:+ sep +:+ ext).
Proof.
  unfold join. induction l as [|a l IH]; [done|]. intros _.
  destruct l as [|b l].
  - exists a. split; [done|]. by left.
  - destruct IH as (ext & Hlast & Hcase); [done|].
    exists ext. split; [by rewrite last_cons_ne|]. right.
    rewrite concat_cons_cons.
    destruct Hcase as [Hone|[stem Hstem]].
    + injection Hone as -> ->. by exists a.
    + rewrite Hstem. exists (a +:+ sep +:+ stem).
      by rewrite !append_assoc.
Qed.

End MoreStrings.

(** X1. A comma between two texts keeps their arrays apart: the array of
    [a,b] is the array of [a] followed by the array of [b]. *)
Theorem toArray_app (a b : string) :
  toArray (a +:+ "," +:+ b) = (toArray a ++ toArray b)%list.
Proof.
  unfold toArray.
  change (a +:+ "," +:+ b) with (a +:+ String "," b).
  by rewrite split_app_sep, map_app, List.filter_app.
Qed.

(** X2. The display text of a stored array converts back to the array:
    what [loadUserData] joins with [", "], [handleSubmit] splits into the
    same elements, so the array of any text is stable under further
    load and submit cycles. *)
Theorem toArray_joined_stable (text : string) :
  toArray (ProfileForm.joined (Some (toArray text))) = toArray text.
Proof. unfold ProfileForm.joined. apply toArray_join, toArray_clean. Qed.

(** X3. A text without a comma gives at most one element: none when the
    text is only white space (the empty text included), else the trimmed
    text. *)
Theorem toArray_one_segment (text : string) :
  has_char "," text = false ->
  toArray text = if all_ws text then [] else [trim text].
Proof.
  intros H. unfold toArray. rewrite split_sep_free by done. simpl.
  rewrite trim_empty_iff. by destruct (all_ws text).
Qed.

Lemma toArray_one_segment_witness :
  toArray "  Rust " = if all_ws "  Rust " then [] else [trim "  Rust "].
Proof. apply (toArray_one_segment "  Rust "). reflexivity. Defined.

(** X4. The extension [uploadResume] takes from a file name is what
    follows the last dot: it holds no dot, and the name is a stem, a dot
    and the extension. A name without a dot is its own extension. *)
Theorem file_extension (name : string) :
  exists ext,
    pop (split "." name) = Some ext
    /\ has_char "." ext = false
    /\ (if has_char "." name
        then exists stem, name = stem +:+ "." +:+ ext
        else ext = name).
Proof.
  destruct (join_last "." (split "." name) (split_not_nil _ _)) as (ext & Hlast & Hcase).
  exists ext. split; [exact Hlast|].
  assert (has_char "." ext = false) as Hext.
  { pose proof (split_no_sep "." name) as Hall. rewrite Forall_forall in Hall.
    apply Hall. apply last_Some in Hlast as [l' ->]. apply elem_of_app. right.
    by apply list_elem_of_singleton. }
  split; [exact Hext|].
  pose proof (join_split "." name) as Hjoin.
  destruct Hcase as [Hone|[stem Hstem]].
  - rewrite Hone in Hjoin. unfold join in Hjoin. simpl in Hjoin. subst ext.
    by rewrite Hext.
  - change (String "." "") with "." in Hjoin. rewrite Hstem in Hjoin.
    destruct (has_char "." name) eqn:Hn; [by exists stem|].
    rewrite split_sep_free in Hlast by done. by injection Hlast.
Qed.

(** ** More on uploading *)

Section MoreUpload.

Lemma removelast_cons_ne {A} (x : A) l : l ≠ [] -> removelast (x :: l) = x :: removelast l.
Proof. by destruct l. Qed.

Lemma foldername_own userId rest :
  has_char "/" userId = false ->
  head (Backend.foldername (userId +:+ "/" +:+ rest)) = Some userId.
Proof.
  intros H. unfold Backend.foldername.
  change (userId +:+ "/" +:+ rest) with (userId +:+ String "/" rest).
  rewrite split_app by done.
  by rewrite removelast_cons_ne by apply split_not_nil.
Qed.

Lemma may_upload_fileName w userId now file :
  has_char "/" userId = false ->
  Backend.may_upload w (fileName userId now file)
  = match session w with
    | Some u => String.eqb (User.id u) userId
    | None => false
    end.
Proof.
  intros H. unfold Backend.may_upload, fileName.
  rewrite foldername_own by done. by destruct (session w).
Qed.

(** [uploadResume] on a file that passes both checks. *)
Lemma uploadResume_valid_run file userId w :
  File.type file ∈ allowedTypes ->
  File.size file <= maxSize ->
  uploadResume file userId w
  = match Backend.upload (fileName userId (client_clock w) file) file false w with
    | (Returned r, w') =>
        match Response.error r with
        | Some e =>
            (Returned (UploadResult.mk false None
                         (Some ("Upload failed: " +:+ Error.message e))), w')
        | None =>
            (Returned (UploadResult.mk true
                         (Some (publicUrl w' (fileName userId (client_clock w) file))) None),
             w')
        end
    | (Thrown e, w') =>
        (Returned (UploadResult.mk false None
                     (Some ("Upload failed: " +:+ Error.message e))), w')
    | (ThrownNullish, w') => (Thrown TypeError_nullish_message, w')
    | (Pending, w') => (Pending, w')
    end.
Proof.
  intros Ht Hs. apply includes_elem_of in Ht. apply Z.ltb_ge in Hs.
  unfold uploadResume, try_catch. rewrite Ht, Hs. cbn [negb].
  unfold mbind, M_bind, Date_now, gets. fold (fileName userId (client_clock w) file).
  destruct (Backend.upload _ file false w) as [[r|e| |] w']; [|done..].
  by destruct (Response.error r).
Qed.

Lemma upload_healthy key file w :
  next_fault w = NoFault ->
  Backend.upload key file false w
  = (Returned (fst (Backend.serve_upload key file false
                      (sent (StorageUpload "resumes" key file false) w))),
     snd (Backend.serve_upload key file false
            (sent (StorageUpload "resumes" key file false) w))).
Proof.
  intros Hf. unfold Backend.upload, request. rewrite Hf.
  by destruct (Backend.serve_upload _ _ _ _).
Qed.

Lemma serve_upload_keeps key file upsert w k f :
  upsert = false ->
  resumes w !! k = Some f ->
  resumes (snd (Backend.serve_upload key file upsert w)) !! k = Some f.
Proof.
  intros -> Hk. unfold Backend.serve_upload.
  destruct (negb (Backend.may_upload w key)); [done|].
  destruct (resumes w !! key) eqn:E; [done|]. simpl.
  rewrite lookup_insert_ne; [done|]. intros <-. congruence.
Qed.

End MoreUpload.

(** X5. The name [uploadResume] gives to the object lies in the folder
    named by [userId] (when that id holds no slash), so the insert policy
    of the bucket admits it exactly when the caller is signed in with that
    id. *)
Theorem fileName_passes_own_policy (w : World) (userId : string) (now : Z) (file : File.t) :
  has_char "/" userId = false ->
  head (Backend.foldername (fileName userId now file)) = Some userId
  /\ Backend.may_upload w (fileName userId now file)
     = match session w with
       | Some u => String.eqb (User.id u) userId
       | None => false
       end.
Proof.
  intros H. split; [by apply foldername_own|by apply may_upload_fileName].
Qed.

Lemma fileName_passes_own_policy_witness :
  head (Backend.foldername (fileName "a11ce" 1700000000123 cv)) = Some "a11ce"
  /\ Backend.may_upload fresh_world (fileName "a11ce" 1700000000123 cv)
     = match session fresh_world with
       | Some u => String.eqb (User.id u) "a11ce"
       | None => false
       end.
Proof. apply (fileName_passes_own_policy fresh_world "a11ce"). reflexivity. Defined.

(** X7. [uploadResume] never replaces or removes an object of the bucket:
    whatever the file, the id and the backend's answer, every object
    stored before is stored unchanged after. *)
Theorem uploadResume_never_overwrites (file : File.t) (userId : string) (w : World)
    (k : string) (f : File.t) :
  resumes w !! k = Some f ->
  resumes (snd (uploadResume file userId w)) !! k = Some f.
Proof.
  intros Hk.
  destruct (includes allowedTypes (File.type file)) eqn:Ht.
  2: { by rewrite uploadResume_rejects_type. }
  destruct (Z.lt_ge_cases maxSize (File.size file)) as [Hlt|Hge].
  { by rewrite uploadResume_rejects_size. }
  rewrite uploadResume_valid_run by (try done; by apply includes_elem_of).
  unfold Backend.upload, request.
  destruct (next_fault w) as [| | | | |how]; [|done..|].
  all: match goal with |- context [Backend.serve_upload ?a ?b ?c ?d] =>
    pose proof (serve_upload_keeps a b c d k f eq_refl Hk) as Hkeep;
    destruct (Backend.serve_upload a b c d) as [r w'] end.
  - simpl in Hkeep. by destruct (Response.error r).
  - simpl in Hkeep. by destruct how.
Qed.

Lemma uploadResume_never_overwrites_witness :
  resumes (snd (uploadResume cv "a11ce"
                  (set_resumes {["a11ce/1700000000123.pdf" := photo]} fresh_world)))
    !! "a11ce/1700000000123.pdf" = Some photo.
Proof.
  apply (uploadResume_never_overwrites cv "a11ce"
           (set_resumes {["a11ce/1700000000123.pdf" := photo]} fresh_world)).
  vm_compute. reflexivity.
Defined.

(** X8. An upload under an id that is not the caller's own (or without a
    session) is sent and refused by the bucket's insert policy: the helper
    declines with the policy's message and stores nothing. *)
Theorem uploadResume_foreign_folder_refused (file : File.t) (userId : string) (w : World) :
  next_fault w = NoFault ->
  has_char "/" userId = false ->
  (forall u, session w = Some u -> User.id u ≠ userId) ->
  File.type file ∈ allowedTypes ->
  File.size file <= maxSize ->
  uploadResume file userId w
  = (Returned (UploadResult.mk false None
                 (Some "Upload failed: new row violates row-level security policy")),
     sent (StorageUpload "resumes" (fileName userId (client_clock w) file) file false) w).
Proof.
  intros Hf Hslash Hother Ht Hs.
  rewrite uploadResume_valid_run by done. rewrite upload_healthy by done.
  unfold Backend.serve_upload. rewrite may_upload_fileName by done.
  cbn [session sent set_faults log_call].
  destruct (session w) as [u|] eqn:Hu; [|done].
  destruct (String.eqb (User.id u) userId) eqn:E; [|done].
  apply String.eqb_eq in E. by destruct (Hother u eq_refl).
Qed.

Lemma uploadResume_foreign_folder_refused_witness :
  uploadResume cv "b0b" fresh_world
  = (Returned (UploadResult.mk false None
                 (Some "Upload failed: new row violates row-level security policy")),
     sent (StorageUpload "resumes" (fileName "b0b" (client_clock fresh_world) cv) cv false)
          fresh_world).
Proof.
  apply (uploadResume_foreign_folder_refused cv "b0b" fresh_world).
  - reflexivity.
  - reflexivity.
  - intros u [= <-]. discriminate.
  - apply (bool_decide_unpack _). vm_compute. exact I.
  - vm_compute. discriminate.
Defined.

(** X9. The upload does not overwrite ([upsert: false]): when the name is
    already taken (same id, same millisecond, same extension) the helper
    declines with the store's message and the bucket is as before. *)
Theorem uploadResume_name_taken (file : File.t) (w : World) (u : User.t) (old : File.t) :
  session w = Some u ->
  next_fault w = NoFault ->
  has_char "/" (User.id u) = false ->
  File.type file ∈ allowedTypes ->
  File.size file <= maxSize ->
  resumes w !! fileName (User.id u) (client_clock w) file = Some old ->
  uploadResume file (User.id u) w
  = (Returned (UploadResult.mk false None
                 (Some "Upload failed: The resource already exists")),
     sent (StorageUpload "resumes" (fileName (User.id u) (client_clock w) file) file false) w).
Proof.
  intros Hu Hf Hslash Ht Hs Htaken.
  rewrite uploadResume_valid_run by done. rewrite upload_healthy by done.
  unfold Backend.serve_upload. rewrite may_upload_fileName by done.
  cbn [session sent set_faults log_call resumes]. rewrite Hu, String.eqb_refl, Htaken.
  reflexivity.
Qed.

Lemma uploadResume_name_taken_witness :
  uploadResume cv (User.id alice)
    (set_resumes {["a11ce/1700000000123.pdf" := photo]} fresh_world)
  = (Returned (UploadResult.mk false None
                 (Some "Upload failed: The resource already exists")),
     sent (StorageUpload "resumes"
             (fileName (User.id alice)
                (client_clock (set_resumes {["a11ce/1700000000123.pdf" := photo]} fresh_world))
                cv) cv false)
          (set_resumes {["a11ce/1700000000123.pdf" := photo]} fresh_world)).
Proof.
  apply (uploadResume_name_taken cv
           (set_resumes {["a11ce/1700000000123.pdf" := photo]} fresh_world) alice photo).
  - reflexivity.
  - reflexivity.
  - reflexivity.
  - apply (bool_decide_unpack _). vm_compute. exact I.
  - vm_compute. discriminate.
  - vm_compute. reflexivity.
Defined.

(** X10. A failure of the store is passed on once: when the upload request
    of a valid file resolves with an error [e], or rejects with the
    [Error] [e], the helper declines with [Upload failed: ] and the
    message of [e], in the world the request left: it sends nothing after
    that request. Whether the store has kept the object is not the
    helper's to say. *)
Theorem uploadResume_backend_failure (file : File.t) (userId : string) (w w' : World)
    (e : Error.t) :
  File.type file ∈ allowedTypes ->
  File.size file <= maxSize ->
  (exists r,
      Backend.upload (fileName userId (client_clock w) file) file false w = (Returned r, w')
      /\ Response.error r = Some e)
  \/ Backend.upload (fileName userId (client_clock w) file) file false w = (Thrown e, w') ->
  uploadResume file userId w
  = (Returned (UploadResult.mk false None
                 (Some ("Upload failed: " +:+ Error.message e))), w')
  /\ calls w'
     = (calls w ++
        [StorageUpload "resumes" (fileName userId (client_clock w) file) file false])%list.
Proof.
  intros Ht Hs Hup.
  assert (uploadResume file userId w
          = (Returned (UploadResult.mk false None
                         (Some ("Upload failed: " +:+ Error.message e))), w')) as Hrun.
  { rewrite uploadResume_valid_run by done.
    destruct Hup as [(r & -> & ->)| ->]; reflexivity. }
  split; [exact Hrun|].
  pose proof (uploadResume_sends_upload file userId w) as Hc.
  rewrite Hrun in Hc. apply Hc; [by apply includes_elem_of|done].
Qed.

Lemma uploadResume_backend_failure_witness :
  uploadResume cv "a11ce" stored_unanswered
  = (Returned (UploadResult.mk false None
                 (Some ("Upload failed: " +:+ Error.message (Error.mk "Gateway Timeout" "504")))),
     set_resumes {["a11ce/1700000000123.pdf" := cv]}
       (sent (StorageUpload "resumes" "a11ce/1700000000123.pdf" cv false) stored_unanswered))
  /\ calls (set_resumes {["a11ce/1700000000123.pdf" := cv]}
              (sent (StorageUpload "resumes" "a11ce/1700000000123.pdf" cv false)
                    stored_unanswered))
     = (calls stored_unanswered ++
        [StorageUpload "resumes" (fileName "a11ce" (client_clock stored_unanswered) cv)
           cv false])%list.
Proof.
  apply (uploadResume_backend_failure cv "a11ce" stored_unanswered).
  - apply (bool_decide_unpack _). vm_compute. exact I.
  - vm_compute. discriminate.
  - left. eexists. split; reflexivity.
Defined.

(** ** More on saving and loading *)

Section MoreSaveLoad.

Lemma elem_of_insert_other {A} (l : list A) i old new x :
  l !! i = Some old -> x ≠ old -> x ≠ new ->
  x ∈ <[i := new]> l <-> x ∈ l.
Proof.
  intros Hi Ho Hn. rewrite !list_elem_of_lookup. split; intros [j Hj]; exists j.
  - destruct (decide (i = j)) as [->|Hij].
    + rewrite list_lookup_insert_eq in Hj by (by apply lookup_lt_Some in Hi). congruence.
    + by rewrite list_lookup_insert_ne in Hj.
  - destruct (decide (i = j)) as [->|Hij]; [congruence|].
    by rewrite list_lookup_insert_ne.
Qed.

Lemma serve_upsert_answers values w d w' :
  Backend.serve_upsert values w = (Response.mk d None, w') -> is_Some d.
Proof.
  unfold Backend.serve_upsert.
  repeat match goal with
         | |- context [match ?x with _ => _ end] => destruct x
         | |- context [if ?x then _ else _] => destruct x
         end; simpl; intros [= <- <-]; eauto.
Qed.

Lemma serve_upsert_other_rows values w row :
  (forall u, session w = Some u -> Profile.user_id row ≠ User.id u) ->
  row ∈ profiles (snd (Backend.serve_upsert values w)) <-> row ∈ profiles w.
Proof.
  intros Hother.
  destruct (Backend.serve_upsert values w) as [[d [e|]] w'] eqn:Hs.
  { simpl. by rewrite (serve_upsert_profiles_failed _ _ _ _ _ Hs). }
  destruct (serve_upsert_answers _ _ _ _ Hs) as [rows ->].
  apply serve_upsert_ok in Hs as (u & new & Hu & _ & _ & Hid & Hcase). simpl.
  specialize (Hother u Hu).
  destruct (list_find _ (profiles w)) as [[i old]|] eqn:Hf.
  - destruct Hcase as [-> _]. apply list_find_Some in Hf as (Hi & Ho & _).
    apply (elem_of_insert_other _ _ old); [done|congruence..].
  - destruct Hcase as [-> _]. rewrite elem_of_app, list_elem_of_singleton.
    split; [intros [H|H]; [done|congruence]|by left].
Qed.

(** A save leaves the table alone or has the backend serve one upsert, for
    the same session. *)
Lemma saveProfile_table pd w :
  profiles (snd (saveProfile pd w)) = profiles w
  \/ exists values w0,
      profiles w0 = profiles w /\ session w0 = session w
      /\ profiles (snd (saveProfile pd w))
         = profiles (snd (Backend.serve_upsert values w0)).
Proof.
  unfold saveProfile, try_catch, mbind, M_bind. rewrite getUser_run.
  destruct (next_fault w) as [| | | | |how]; [|try destruct how; by left..].
  destruct (session w) as [u|] eqn:Hu; simpl; [|by left].
  unfold Date_now, gets, Backend.upsert, request.
  destruct (next_fault (sent AuthGetUser w)) as [| | | | |how]; [|by left..|].
  all: right;
    exists (profileToSave u pd (client_clock w)),
           (sent (ProfilesUpsert (profileToSave u pd (client_clock w)) "user_id")
                 (sent AuthGetUser w));
    (split; [reflexivity|]); (split; [done|]);
    change (client_clock (sent AuthGetUser w)) with (client_clock w);
    destruct (Backend.serve_upsert _ _) as [[d e] w2]; simpl.
  - destruct e; [reflexivity|]. destruct d; reflexivity.
  - by destruct how.
Qed.

Lemma rows_owned_by_idem uid t :
  rows_owned_by uid (rows_owned_by uid t) = rows_owned_by uid t.
Proof.
  unfold rows_owned_by. induction t as [|r t IH]; simpl; [done|].
  destruct (String.eqb (Profile.user_id r) uid) eqn:E; simpl; [|done].
  by rewrite E, IH.
Qed.

Lemma rows_owned_by_single row t :
  owner_unique t -> row ∈ t -> rows_owned_by (Profile.user_id row) t = [row].
Proof.
  intros Hn Hin. pose proof (owned_exactly_one row t Hn Hin) as Hlen.
  assert (row ∈ rows_owned_by (Profile.user_id row) t) as Hr.
  { apply list_elem_of_In, filter_In. split; [by apply list_elem_of_In|].
    apply String.eqb_refl. }
  destruct (rows_owned_by (Profile.user_id row) t) as [|a [|b l]]; try done.
  apply list_elem_of_singleton in Hr. by subst.
Qed.

Lemma rows_owned_by_other uid uid' t :
  uid ≠ uid' -> rows_owned_by uid' (rows_owned_by uid t) = [].
Proof.
  intros Hne. apply filter_none_matching. intros row Hin Heq.
  apply list_elem_of_In, filter_In in Hin as [_ Hin].
  apply String.eqb_eq in Hin. congruence.
Qed.

Lemma visible_rows w :
  Backend.visible w
  = match session w with
    | Some u => rows_owned_by (User.id u) (profiles w)
    | None => []
    end.
Proof. reflexivity. Qed.

Lemma select_single_healthy userId w :
  next_fault w = NoFault ->
  Backend.select_single userId w
  = (Returned (match rows_owned_by userId (Backend.visible w) with
               | [r] => Response.ok r
               | _ => Response.failed Backend.not_single
               end), sent (ProfilesSelectSingle userId) w).
Proof.
  intros Hf. unfold Backend.select_single, request. rewrite Hf.
  unfold Backend.serve_select_single. rewrite visible_sent.
  fold (rows_owned_by userId (Backend.visible w)).
  by destruct (rows_owned_by userId (Backend.visible w)) as [|r [|r' l]].
Qed.

Lemma loadProfile_own_row w u row :
  next_fault w = NoFault ->
  session w = Some u ->
  owner_unique (profiles w) ->
  row ∈ profiles w ->
  Profile.user_id row = User.id u ->
  loadProfile (User.id u) w
  = (Returned (ProfileResult.mk true (Some row) None),
     sent (ProfilesSelectSingle (User.id u)) w).
Proof.
  intros Hf Hu Hn Hin Hid. rewrite loadProfile_run, select_single_healthy by done.
  rewrite visible_rows, Hu, rows_owned_by_idem, <- Hid.
  by rewrite rows_owned_by_single.
Qed.

Lemma loadProfile_hidden w userId :
  next_fault w = NoFault ->
  (forall u, session w = Some u -> User.id u ≠ userId) ->
  loadProfile userId w
  = (Returned (ProfileResult.mk true None None), sent (ProfilesSelectSingle userId) w).
Proof.
  intros Hf Hother. rewrite loadProfile_run, select_single_healthy by done.
  rewrite visible_rows. destruct (session w) as [u|]; [|done].
  by rewrite rows_owned_by_other by (by apply Hother).
Qed.

Lemma getCurrentUserWithProfile_run w u :
  next_fault w = NoFault ->
  session w = Some u ->
  getCurrentUserWithProfile w
  = match loadProfile (User.id u) (sent AuthGetUser w) with
    | (Returned p, w2) =>
        (Returned (if ProfileResult.success p
                   then UserProfileResult.mk true (Some u) (ProfileResult.data p) None
                   else UserProfileResult.mk false None None (ProfileResult.error p)), w2)
    | (Thrown e, w2) =>
        (Returned (UserProfileResult.mk false None None
                     (Some ("Failed to get user data: " +:+ Error.message e))), w2)
    | (ThrownNullish, w2) => (Thrown TypeError_nullish_message, w2)
    | (Pending, w2) => (Pending, w2)
    end.
Proof.
  intros Hf Hu. unfold getCurrentUserWithProfile, try_catch, mbind, M_bind.
  rewrite getUser_run, Hf, Hu. cbn [AuthResponse.error AuthResponse.user].
  destruct (loadProfile (User.id u) (sent AuthGetUser w)) as [[p|e| |] w2]; [|done..].
  by destruct (ProfileResult.success p).
Qed.

Lemma upsert_calls values onConflict w :
  calls (snd (Backend.upsert values onConflict w))
  = (calls w ++ [ProfilesUpsert values onConflict])%list.
Proof.
  unfold Backend.upsert, request.
  destruct (next_fault w) as [| | | | |how]; try done.
  all: match goal with |- context [Backend.serve_upsert ?v ?x] =>
    pose proof (serve_upsert_frame v x) as (_ & _ & _ & _ & _ & Hc & _);
    destruct (Backend.serve_upsert v x) as [r w2] end.
  all: simpl in *; by rewrite Hc.
Qed.

End MoreSaveLoad.

(** X11. Without a resolved identity (no session, or an error from the
    identity service) [saveProfile] and [getCurrentUserWithProfile] both
    decline with [User not authenticated] after the identity request
    alone: no upsert and no profile load is sent. *)
Theorem unauthenticated_declines_early (w : World) :
  (next_fault w = NoFault /\ session w = None) \/ (exists e, next_fault w = Fails e) ->
  (forall pd,
      saveProfile pd w
      = (Returned (ProfileResult.mk false None (Some "User not authenticated")),
         sent AuthGetUser w))
  /\ getCurrentUserWithProfile w
     = (Returned (UserProfileResult.mk false None None (Some "User not authenticated")),
        sent AuthGetUser w).
Proof.
  intros H. split; [intros pd|].
  - unfold saveProfile, try_catch, mbind, M_bind. rewrite getUser_run.
    by destruct H as [[-> ->]|[e ->]].
  - unfold getCurrentUserWithProfile, try_catch, mbind, M_bind. rewrite getUser_run.
    by destruct H as [[-> ->]|[e ->]].
Qed.

Lemma unauthenticated_declines_early_witness :
  (forall pd,
      saveProfile pd signed_out
      = (Returned (ProfileResult.mk false None (Some "User not authenticated")),
         sent AuthGetUser signed_out))
  /\ getCurrentUserWithProfile signed_out
     = (Returned (UserProfileResult.mk false None None (Some "User not authenticated")),
        sent AuthGetUser signed_out).
Proof.
  apply (unauthenticated_declines_early signed_out). left. split; reflexivity.
Defined.

(** X12. Save, then load: after a successful save, a load for the same
    identity on a healthy backend succeeds with exactly the row the save
    returned. *)
Theorem save_then_load (pd : gmap string JsVal) (w : World) (u : User.t)
    (r : ProfileResult.t) (w' : World) :
  session w = Some u ->
  owner_unique (profiles w) ->
  saveProfile pd w = (Returned r, w') ->
  ProfileResult.success r = true ->
  next_fault w' = NoFault ->
  is_Some (ProfileResult.data r)
  /\ loadProfile (User.id u) w'
     = (Returned (ProfileResult.mk true (ProfileResult.data r) None),
        sent (ProfilesSelectSingle (User.id u)) w').
Proof.
  intros Hu Hn Hs Hok Hf.
  destruct (saveProfile_success_updated_at _ _ _ _ _ Hu Hs Hok) as (new & Hd & Hin & _).
  destruct (saveProfile_success_row _ _ _ _ _ Hu Hs Hok) as (new' & Hd' & Hid & _).
  assert (new' = new) as -> by congruence.
  rewrite Hd. split; [by eexists|].
  apply loadProfile_own_row; try done.
  - pose proof (saveProfile_session pd w) as H. rewrite Hs in H. simpl in H. congruence.
  - pose proof (saveProfile_owner_unique pd w Hn) as H. by rewrite Hs in H.
Qed.

Lemma save_then_load_witness :
  is_Some (ProfileResult.data (ProfileResult.mk true (Some first_row) None))
  /\ loadProfile (User.id alice) after_first_save
     = (Returned (ProfileResult.mk true
                    (ProfileResult.data (ProfileResult.mk true (Some first_row) None)) None),
        sent (ProfilesSelectSingle (User.id alice)) after_first_save).
Proof.
  apply (save_then_load {["bio" := VStr "hi"]} fresh_world alice).
  - reflexivity.
  - apply NoDup_nil_2.
  - vm_compute. reflexivity.
  - reflexivity.
  - reflexivity.
Defined.

(** X13. When the upsert of an authenticated save resolves with an error
    [e], or rejects with the [Error] [e], [saveProfile] declines with
    [Failed to save profile: ] and the message of [e], in the world the
    upsert left: the identity request and that upsert are all it has
    sent. Whether the table has taken the row is not the helper's to
    say. *)
Theorem saveProfile_backend_failure (pd : gmap string JsVal) (w w' : World) (u : User.t)
    (e : Error.t) :
  session w = Some u ->
  next_fault w = NoFault ->
  (exists r,
      Backend.upsert (profileToSave u pd (client_clock w)) "user_id" (sent AuthGetUser w)
      = (Returned r, w')
      /\ Response.error r = Some e)
  \/ Backend.upsert (profileToSave u pd (client_clock w)) "user_id" (sent AuthGetUser w)
     = (Thrown e, w') ->
  saveProfile pd w
  = (Returned (ProfileResult.mk false None
                 (Some ("Failed to save profile: " +:+ Error.message e))), w')
  /\ calls w'
     = (calls w ++
        [AuthGetUser; ProfilesUpsert (profileToSave u pd (client_clock w)) "user_id"])%list.
Proof.
  intros Hu Hf He. split.
  - unfold saveProfile, try_catch, mbind, M_bind.
    rewrite getUser_run, Hf, Hu. cbn [AuthResponse.error AuthResponse.user].
    unfold Date_now, gets.
    change (client_clock (sent AuthGetUser w)) with (client_clock w).
    destruct He as [(r & -> & ->)| ->]; reflexivity.
  - pose proof (upsert_calls (profileToSave u pd (client_clock w)) "user_id"
                  (sent AuthGetUser w)) as Hc.
    destruct He as [(r & He & _)|He]; rewrite He in Hc; simpl in Hc;
      by rewrite Hc, <- app_assoc.
Qed.

Lemma saveProfile_backend_failure_witness :
  saveProfile {["bio" := VStr "hi"]} committed_unanswered
  = (Returned (ProfileResult.mk false None
                 (Some ("Failed to save profile: "
                        +:+ Error.message (Error.mk "Failed to fetch" "")))),
     after_first_save)
  /\ calls after_first_save
     = (calls committed_unanswered ++
        [AuthGetUser;
         ProfilesUpsert
           (profileToSave alice {["bio" := VStr "hi"]} (client_clock committed_unanswered))
           "user_id"])%list.
Proof.
  apply (saveProfile_backend_failure {["bio" := VStr "hi"]} committed_unanswered
           after_first_save alice).
  - reflexivity.
  - reflexivity.
  - right. vm_compute. reflexivity.
Defined.

(** X14. A save never touches another identity's row: whatever the fields
    (a foreign [user_id] or [id] included) and whatever the outcome, the
    rows that do not belong to the caller are the same before and after. *)
Theorem saveProfile_other_rows_untouched (pd : gmap string JsVal) (w : World)
    (row : Profile.row) :
  (forall u, session w = Some u -> Profile.user_id row ≠ User.id u) ->
  row ∈ profiles (snd (saveProfile pd w)) <-> row ∈ profiles w.
Proof.
  intros Hother.
  destruct (saveProfile_table pd w) as [->|(values & w0 & Hp & Hs & ->)]; [done|].
  rewrite <- Hp. apply serve_upsert_other_rows. by rewrite Hs.
Qed.

Lemma saveProfile_other_rows_untouched_witness :
  first_row ∈ profiles (snd (saveProfile {["user_id" := VStr "a11ce"]} as_bob))
  <-> first_row ∈ profiles as_bob.
Proof.
  apply (saveProfile_other_rows_untouched {["user_id" := VStr "a11ce"]} as_bob first_row).
  intros u [= <-]. discriminate.
Defined.

(** X15. What a load can see: on a healthy backend, a load of the caller's
    own id returns the caller's row when the table has one; a load of any
    other id (or without a session) succeeds with null data whatever the
    table holds, since the select policy hides the rows of others. *)
Theorem loadProfile_sees_own_row_only (w : World) :
  next_fault w = NoFault ->
  (forall u row,
      session w = Some u ->
      owner_unique (profiles w) ->
      row ∈ profiles w ->
      Profile.user_id row = User.id u ->
      loadProfile (User.id u) w
      = (Returned (ProfileResult.mk true (Some row) None),
         sent (ProfilesSelectSingle (User.id u)) w))
  /\ (forall userId,
      (forall u, session w = Some u -> User.id u ≠ userId) ->
      loadProfile userId w
      = (Returned (ProfileResult.mk true None None),
         sent (ProfilesSelectSingle userId) w)).
Proof.
  intros Hf. split.
  - intros u row Hu Hn Hin Hid. by apply loadProfile_own_row.
  - intros userId Hother. by apply loadProfile_hidden.
Qed.

Lemma loadProfile_sees_own_row_only_witness :
  loadProfile (User.id alice) after_first_save
  = (Returned (ProfileResult.mk true (Some first_row) None),
     sent (ProfilesSelectSingle (User.id alice)) after_first_save)
  /\ loadProfile "a11ce" as_bob
     = (Returned (ProfileResult.mk true None None),
        sent (ProfilesSelectSingle "a11ce") as_bob).
Proof.
  split.
  - apply (proj1 (loadProfile_sees_own_row_only after_first_save eq_refl) alice first_row).
    + reflexivity.
    + apply NoDup_singleton.
    + apply list_elem_of_singleton. reflexivity.
    + reflexivity.
  - apply (proj2 (loadProfile_sees_own_row_only as_bob eq_refl) "a11ce").
    intros u [= <-]. discriminate.
Defined.

(** X16. With a resolved identity, [getCurrentUserWithProfile] forwards the
    outcome of the profile load: the identity and the loaded profile on
    success, and on failure the load's own message, unchanged and not
    prefixed again. *)
Theorem getCurrentUserWithProfile_forwards (w : World) (u : User.t)
    (p : ProfileResult.t) (w2 : World) :
  next_fault w = NoFault ->
  session w = Some u ->
  loadProfile (User.id u) (sent AuthGetUser w) = (Returned p, w2) ->
  getCurrentUserWithProfile w
  = (Returned (if ProfileResult.success p
               then UserProfileResult.mk true (Some u) (ProfileResult.data p) None
               else UserProfileResult.mk false None None (ProfileResult.error p)), w2).
Proof.
  intros Hf Hu Hl. rewrite (getCurrentUserWithProfile_run w u) by done. by rewrite Hl.
Qed.

Lemma getCurrentUserWithProfile_forwards_witness :
  getCurrentUserWithProfile
    (set_faults [NoFault; Fails (Error.mk "permission denied" "42501")] after_first_save)
  = (Returned
       (if ProfileResult.success
             (ProfileResult.mk false None (Some "Failed to load profile: permission denied"))
        then UserProfileResult.mk true (Some alice)
               (ProfileResult.data
                  (ProfileResult.mk false None
                     (Some "Failed to load profile: permission denied"))) None
        else UserProfileResult.mk false None None
               (ProfileResult.error
                  (ProfileResult.mk false None
                     (Some "Failed to load profile: permission denied")))),
     sent (ProfilesSelectSingle "a11ce")
       (sent AuthGetUser
          (set_faults [NoFault; Fails (Error.mk "permission denied" "42501")]
             after_first_save))).
Proof.
  apply (getCurrentUserWithProfile_forwards
           (set_faults [NoFault; Fails (Error.mk "permission denied" "42501")] after_first_save)
           alice).
  - reflexivity.
  - reflexivity.
  - vm_compute. reflexivity.
Defined.

(** ** More on the form *)

Section MoreForm.

Import ProfileForm.

(** [loadUserData] in terms of what [getCurrentUserWithProfile] returned. *)
Lemma loadUserData_run s w r w1 :
  getCurrentUserWithProfile w = (Returned r, w1) ->
  run loadUserData s w
  = (Returned tt,
     (setLoading false
        (if UserProfileResult.success r then
           match UserProfileResult.profile r with
           | Some p =>
               setFormData
                 (FormData.mk (joined (Profile.skills p)) (joined (Profile.interests p))
                    (or_empty (Profile.experience_level p))
                    (or_empty (Profile.preferred_location p))
                    (or_empty (Profile.bio p)) (or_empty (Profile.github_url p))
                    (or_empty (Profile.linkedin_url p)) (or_empty (Profile.portfolio_url p)))
                 (setExistingResumeUrl (or_empty (Profile.resume_url p))
                    (setProfile (Some p)
                       (setUser (UserProfileResult.user r)
                          (setError "" (setLoading true s)))))
           | None => setUser (UserProfileResult.user r) (setError "" (setLoading true s))
           end
         else setError (or_empty (UserProfileResult.error r))
                (setError "" (setLoading true s))),
      w1)).
Proof.
  intros Hr. unfold run, loadUserData, try_finally, try_catch, mbind, M_bind, await.
  unfold set at 1 2. unfold modify. cbn [fst snd]. rewrite Hr.
  destruct (UserProfileResult.success r); cbn [negb]; [|reflexivity].
  unfold set at 1. unfold modify. cbn [fst snd].
  by destruct (UserProfileResult.profile r).
Qed.

(** [loadUserData] whatever [getCurrentUserWithProfile] does: what the
    helper throws is caught, and while the helper waits the handler is
    still in its [try] block. *)
Lemma loadUserData_outcome s w :
  match getCurrentUserWithProfile w with
  | (Returned r, w1) => True
  | (Thrown _, w1) | (ThrownNullish, w1) =>
      run loadUserData s w
      = (Returned tt,
         (setLoading false
            (setError "Failed to load user data" (setError "" (setLoading true s))), w1))
  | (Pending, w1) => run loadUserData s w = (Pending, (setError "" (setLoading true s), w1))
  end.
Proof.
  destruct (getCurrentUserWithProfile w) as [[r|e| |] w1] eqn:Hr; [done|..].
  all: unfold run, loadUserData, try_finally, try_catch, mbind, M_bind, await.
  all: unfold set at 1 2; unfold modify; cbn [fst snd]; by rewrite Hr.
Qed.

(** [handleSubmit] for a signed-in user, whatever happens: nothing is
    thrown, and the state it leaves differs from the render's only in
    [saving], [error], [success], [profile] and [resumeFile]; [saving] is
    off once the handler has returned and on while it waits. *)
Lemma handleSubmit_settles s w u :
  user s = Some u ->
  exists o s' w',
    run (handleSubmit s) s w = (o, (s', w'))
    /\ loading s' = loading s /\ user s' = user s
    /\ existingResumeUrl s' = existingResumeUrl s /\ formData s' = formData s
    /\ ((o = Returned tt /\ saving s' = false) \/ (o = Pending /\ saving s' = true)).
Proof.
  intros Hu. unfold run, handleSubmit. rewrite Hu.
  unfold try_finally, try_catch, mbind, M_bind.
  unfold set at 1 2 3. unfold modify. cbn [fst snd].
  destruct (resumeFile s) as [file|].
  - unfold await at 1. cbn [fst snd].
    destruct (uploadResume file (User.id u) w) as [[r|e| |] w1].
    2-4: eexists _, _, _; (split; [reflexivity|]); repeat split; try done; (by left) || (by right).
    destruct (UploadResult.success r); cbn [negb].
    + rewrite submitProfile_run.
      destruct (saveProfile _ w1) as [[sr|e| |] w2]; [destruct (ProfileResult.success sr)|..];
        eexists _, _, _; (split; [reflexivity|]); repeat split; try done; (by left) || (by right).
    + eexists _, _, _. split; [reflexivity|]. repeat split; try done. by left.
  - rewrite submitProfile_run.
    destruct (saveProfile _ w) as [[sr|e| |] w2]; [destruct (ProfileResult.success sr)|..];
      eexists _, _, _; (split; [reflexivity|]); repeat split; try done; (by left) || (by right).
Qed.

(** When every request settles, [handleSubmit] returns. *)
Lemma handleSubmit_finishes s w :
  requests_settle w = true -> fst (run (handleSubmit s) s w) = Returned tt.
Proof.
  intros H. unfold run, handleSubmit. destruct (user s) as [u|]; [|done].
  unfold try_finally, try_catch, mbind, M_bind.
  unfold set at 1 2 3. unfold modify. cbn [fst snd].
  destruct (resumeFile s) as [file|].
  - unfold await at 1. cbn [fst snd].
    destruct (uploadResume_returns file (User.id u) w H) as (r & w1 & -> & H1 & _).
    destruct (UploadResult.success r); cbn [negb]; [|done].
    rewrite submitProfile_run.
    match goal with |- context [saveProfile ?pd w1] =>
      destruct (saveProfile_returns pd w1 H1) as (sr & w2 & -> & _) end.
    by destruct (ProfileResult.success sr).
  - rewrite submitProfile_run.
    match goal with |- context [saveProfile ?pd w] =>
      destruct (saveProfile_returns pd w H) as (sr & w2 & -> & _) end.
    by destruct (ProfileResult.success sr).
Qed.

(** Staging a file and submitting: the known resume URL stays empty. *)
Lemma staged_submit_keeps_url_empty s0 file rest w :
  exists o s2 w2,
    run (handleSubmit (handleFileChange (file :: rest) s0))
        (handleFileChange (file :: rest) s0) w
    = (o, (s2, w2))
    /\ (o = Returned tt \/ o = Pending)
    /\ (requests_settle w = true -> o = Returned tt)
    /\ existingResumeUrl s2 = "".
Proof.
  destruct (user (handleFileChange (file :: rest) s0)) as [u|] eqn:Hu.
  - destruct (handleSubmit_settles _ w u Hu) as (o & s2 & w2 & Hrun & _ & _ & Hurl & _ & Ho).
    exists o, s2, w2. split; [exact Hrun|]. split; [|split; [|by rewrite Hurl]].
    + destruct Ho as [[-> _]|[-> _]]; [by left|by right].
    + intros H.
      pose proof (handleSubmit_finishes (handleFileChange (file :: rest) s0) w H) as Hfin.
      by rewrite Hrun in Hfin.
  - eexists _, _, _. unfold run, handleSubmit. rewrite Hu.
    split; [reflexivity|]. split; [by left|done].
Qed.

End MoreForm.

(** X17. Activation for an identity that has a row, on a healthy backend:
    the form ends loaded with that identity and row, the known resume URL
    is the row's (empty when NULL), the array columns are shown joined by
    [", "] and a NULL column as the empty text. *)
Theorem loadUserData_prefills (w : World) (u : User.t) (row : Profile.row) :
  session w = Some u ->
  faults w = [] ->
  owner_unique (profiles w) ->
  row ∈ profiles w ->
  Profile.user_id row = User.id u ->
  ProfileForm.run ProfileForm.loadUserData ProfileForm.initial w
  = (Returned tt,
     (ProfileForm.mkState false false (Some u) (Some row) "" "" None
        (default "" (Profile.resume_url row))
        (FormData.mk
           (match Profile.skills row with Some a => join ", " a | None => "" end)
           (match Profile.interests row with Some a => join ", " a | None => "" end)
           (default "" (Profile.experience_level row))
           (default "" (Profile.preferred_location row))
           (default "" (Profile.bio row))
           (default "" (Profile.github_url row))
           (default "" (Profile.linkedin_url row))
           (default "" (Profile.portfolio_url row))),
      sent (ProfilesSelectSingle (User.id u)) (sent AuthGetUser w))).
Proof.
  intros Hu Hf Hn Hin Hid.
  assert (getCurrentUserWithProfile w
          = (Returned (UserProfileResult.mk true (Some u) (Some row) None),
             sent (ProfilesSelectSingle (User.id u)) (sent AuthGetUser w))) as Hr.
  { rewrite (getCurrentUserWithProfile_run w u) by (try done; by apply next_fault_healthy).
    rewrite (loadProfile_own_row _ u row); try done.
    apply next_fault_healthy. by apply faults_sent. }
  by rewrite (loadUserData_run _ _ _ _ Hr).
Qed.

Lemma loadUserData_prefills_witness :
  ProfileForm.run ProfileForm.loadUserData ProfileForm.initial with_full_row
  = (Returned tt,
     (ProfileForm.mkState false false (Some alice) (Some full_row) "" "" None
        (default "" (Profile.resume_url full_row))
        (FormData.mk
           (match Profile.skills full_row with Some a => join ", " a | None => "" end)
           (match Profile.interests full_row with Some a => join ", " a | None => "" end)
           (default "" (Profile.experience_level full_row))
           (default "" (Profile.preferred_location full_row))
           (default "" (Profile.bio full_row))
           (default "" (Profile.github_url full_row))
           (default "" (Profile.linkedin_url full_row))
           (default "" (Profile.portfolio_url full_row))),
      sent (ProfilesSelectSingle (User.id alice)) (sent AuthGetUser with_full_row))).
Proof.
  apply (loadUserData_prefills with_full_row alice full_row).
  - reflexivity.
  - reflexivity.
  - apply NoDup_singleton.
  - apply list_elem_of_singleton. reflexivity.
  - reflexivity.
Defined.

(** X18. When the activation load declines, for whatever reason (no
    session, or a backend failure while signed in), the identity is never
    set: the form is left with the message in [error] and renders the
    sign-in prompt, on which the message does not appear. *)
Theorem loadUserData_failure_shows_sign_in (w : World) (r : UserProfileResult.t)
    (w1 : World) :
  getCurrentUserWithProfile w = (Returned r, w1) ->
  UserProfileResult.success r = false ->
  ProfileForm.run ProfileForm.loadUserData ProfileForm.initial w
  = (Returned tt,
     (ProfileForm.mkState false false None None
        (default "" (UserProfileResult.error r)) "" None "" FormData.empty, w1))
  /\ ProfileView.render
       (fst (snd (ProfileForm.run ProfileForm.loadUserData ProfileForm.initial w)))
     = ProfileView.AuthenticationRequired.
Proof.
  intros Hr Hdecl. rewrite (loadUserData_run _ _ _ _ Hr), Hdecl. by split.
Qed.

Lemma loadUserData_failure_shows_sign_in_witness :
  ProfileForm.run ProfileForm.loadUserData ProfileForm.initial
    (set_faults [NoFault; Fails (Error.mk "permission denied" "42501")] after_first_save)
  = (Returned tt,
     (ProfileForm.mkState false false None None
        (default ""
           (UserProfileResult.error
              (UserProfileResult.mk false None None
                 (Some "Failed to load profile: permission denied"))))
        "" None "" FormData.empty,
      sent (ProfilesSelectSingle "a11ce")
        (sent AuthGetUser
           (set_faults [NoFault; Fails (Error.mk "permission denied" "42501")]
              after_first_save))))
  /\ ProfileView.render
       (fst (snd (ProfileForm.run ProfileForm.loadUserData ProfileForm.initial
                    (set_faults [NoFault; Fails (Error.mk "permission denied" "42501")]
                       after_first_save))))
     = ProfileView.AuthenticationRequired.
Proof.
  apply (loadUserData_failure_shows_sign_in
           (set_faults [NoFault; Fails (Error.mk "permission denied" "42501")] after_first_save)).
  - vm_compute. reflexivity.
  - reflexivity.
Defined.

(** X19. [loadUserData] throws nothing and keeps to its part of the
    state: it ends in one of two ways. Either it has returned, with
    [loading] false, so the spinner is gone; or it still waits for
    [getCurrentUserWithProfile], with [loading] true and the spinner on
    screen, which is the case exactly when that helper waits for a request
    that has not settled; when every request settles it returns. Either
    way [saving], [success] and the staged file are as they were. *)
Theorem loadUserData_settles (s : ProfileForm.State) (w : World) :
  exists o s' w',
    ProfileForm.run ProfileForm.loadUserData s w = (o, (s', w'))
    /\ ((o = Returned tt
         /\ ProfileForm.loading s' = false
         /\ ProfileView.render s' ≠ ProfileView.LoadingProfile)
        \/ (o = Pending
            /\ ProfileForm.loading s' = true
            /\ ProfileView.render s' = ProfileView.LoadingProfile))
    /\ (o = Pending <-> fst (getCurrentUserWithProfile w) = Pending)
    /\ (requests_settle w = true -> o = Returned tt)
    /\ ProfileForm.saving s' = ProfileForm.saving s
    /\ ProfileForm.success s' = ProfileForm.success s
    /\ ProfileForm.resumeFile s' = ProfileForm.resumeFile s.
Proof.
  pose proof (getCurrentUserWithProfile_returns w) as Hret.
  destruct (getCurrentUserWithProfile w) as [[r|e| |] w1] eqn:Hr.
  - rewrite (loadUserData_run _ _ _ _ Hr).
    eexists _, _, _. split; [reflexivity|]. split; [left; split; [done|]|].
    + destruct (UserProfileResult.success r); [destruct (UserProfileResult.profile r)|];
        (split; [reflexivity|]); unfold ProfileView.render; cbn.
      all: try by destruct (UserProfileResult.user r).
      by destruct (ProfileForm.user s).
    + split; [by split|]. split; [done|].
      destruct (UserProfileResult.success r); [destruct (UserProfileResult.profile r)|];
        by repeat split.
  - pose proof (loadUserData_outcome s w) as Ho. rewrite Hr in Ho. rewrite Ho.
    eexists _, _, _. split; [reflexivity|]. split; [left|by repeat split].
    split; [done|]. split; [done|]. unfold ProfileView.render. cbn.
    by destruct (ProfileForm.user s).
  - pose proof (loadUserData_outcome s w) as Ho. rewrite Hr in Ho. rewrite Ho.
    eexists _, _, _. split; [reflexivity|]. split; [left|by repeat split].
    split; [done|]. split; [done|]. unfold ProfileView.render. cbn.
    by destruct (ProfileForm.user s).
  - pose proof (loadUserData_outcome s w) as Ho. rewrite Hr in Ho. rewrite Ho.
    eexists _, _, _. split; [reflexivity|]. split; [right; by repeat split|].
    split; [by split|]. split; [|by repeat split].
    intros H. by destruct (Hret H) as (r & w' & [=] & _).
Qed.

(** X20. [handleSubmit] throws nothing and keeps to its own part of the
    state: it never changes [loading], [user], the known resume URL or the
    text fields. Without a user it returns at once: it only sets the error
    and sends nothing. With a user it ends in one of two ways: it has
    returned, with [saving] false, so the submit button is enabled again;
    or it still waits for a helper whose request has not settled, with
    [saving] true and the button disabled. When every request settles it
    returns. *)
Theorem handleSubmit_settles_and_frames (s : ProfileForm.State) (w : World) :
  exists o s' w',
    ProfileForm.run (ProfileForm.handleSubmit s) s w = (o, (s', w'))
    /\ ProfileForm.loading s' = ProfileForm.loading s
    /\ ProfileForm.user s' = ProfileForm.user s
    /\ ProfileForm.existingResumeUrl s' = ProfileForm.existingResumeUrl s
    /\ ProfileForm.formData s' = ProfileForm.formData s
    /\ match ProfileForm.user s with
       | None =>
           o = Returned tt /\ s' = ProfileForm.setError "User not authenticated" s /\ w' = w
       | Some _ =>
           (o = Returned tt /\ ProfileForm.saving s' = false)
           \/ (o = Pending /\ ProfileForm.saving s' = true)
       end
    /\ (requests_settle w = true -> o = Returned tt).
Proof.
  destruct (ProfileForm.user s) as [u|] eqn:Hu.
  - destruct (handleSubmit_settles s w u Hu) as (o & s' & w' & Hrun & H1 & H2 & H3 & H4 & H5).
    exists o, s', w'. rewrite <- Hu. repeat split; try done.
    intros H. pose proof (handleSubmit_finishes s w H) as Hfin. by rewrite Hrun in Hfin.
  - exists (Returned tt), (ProfileForm.setError "User not authenticated" s), w.
    unfold ProfileForm.run, ProfileForm.handleSubmit. rewrite Hu.
    by repeat split.
Qed.

(** X21. Once a file is staged, the form forgets the resume it knew and
    does not learn the new one: staging clears the known resume URL, the
    submission that uploads the file does not set it, so the link to the
    current resume is on screen neither before that submission nor after
    it (or while it waits for a request; it returns when every request
    settles), and the payload that [handleSubmit] builds from the
    resulting state when no further file is staged has [resume_url] set
    to the empty text. *)
Theorem staged_file_forgets_resume_url (s0 : ProfileForm.State) (file : File.t)
    (rest : list File.t) (w : World) :
  exists o s2 w2,
    ProfileForm.run
      (ProfileForm.handleSubmit (ProfileForm.handleFileChange (file :: rest) s0))
      (ProfileForm.handleFileChange (file :: rest) s0) w
    = (o, (s2, w2))
    /\ (o = Returned tt \/ o = Pending)
    /\ (requests_settle w = true -> o = Returned tt)
    /\ ProfileForm.existingResumeUrl s2 = ""
    /\ ProfileView.resumeLink
         (ProfileView.render (ProfileForm.handleFileChange (file :: rest) s0)) = None
    /\ ProfileView.resumeLink (ProfileView.render s2) = None
    /\ forall skillsArray interestsArray,
        ProfileForm.profileData (Some (ProfileForm.existingResumeUrl s2))
          skillsArray interestsArray (ProfileForm.formData s2) !! "resume_url"
        = Some (VStr "").
Proof.
  destruct (staged_submit_keeps_url_empty s0 file rest w)
    as (o & s2 & w2 & Hrun & Ho & Hfin & Hurl).
  exists o, s2, w2. split; [exact Hrun|]. split; [exact Ho|]. split; [exact Hfin|].
  split; [exact Hurl|]. split; [|split].
  - unfold ProfileView.render. cbn.
    destruct (ProfileForm.loading s0); [done|]. by destruct (ProfileForm.user s0).
  - unfold ProfileView.render, ProfileView.resumeLink.
    destruct (ProfileForm.loading s2); [done|]. destruct (ProfileForm.user s2); [|done].
    cbn. rewrite Hurl. by destruct (ProfileForm.resumeFile s2).
  - intros sk it. by rewrite Hurl.
Qed.

(** X22. What the form sends fits the table: with the owner and the
    timestamp [saveProfile] adds, the payload of a submission names only
    columns of [profiles], each with a value of the column's type, so the
    backend can write it over any row; it sets all eight form columns
    (an empty field is written as the empty text or array, never NULL)
    and [resume_url] when the URL is defined. *)
Theorem form_payload_fits_table (resumeUrl : option string)
    (skillsArray interestsArray : list string) (f : FormData.t) (u : User.t) (now : Z)
    (base : Profile.row) :
  Backend.known_columns
    (profileToSave u (ProfileForm.profileData resumeUrl skillsArray interestsArray f) now)
  = true
  /\ Backend.write_row
       (profileToSave u (ProfileForm.profileData resumeUrl skillsArray interestsArray f) now)
       base
     = Some (Profile.mk (Profile.id base) (User.id u)
               (match resumeUrl with
                | Some url => Some url
                | None => Profile.resume_url base
                end)
               (Some skillsArray) (Some interestsArray)
               (Some (FormData.experience_level f))
               (Some (FormData.preferred_location f))
               (Some (FormData.bio f))
               (Some (FormData.github_url f))
               (Some (FormData.linkedin_url f))
               (Some (FormData.portfolio_url f))
               (Some now)).
Proof.
  destruct resumeUrl; split; vm_compute; reflexivity.
Qed.

(** X23. [handleSignOut] never throws and never touches the table or the
    bucket. Unless the sign-out request throws, the page goes to
    [/auth/login]: also when the request reported an error and the session
    is still in place. When the request throws, an [Error] or a nullish
    value, the page stays where it is; while the request has not settled
    the handler waits and the page stays as well. A request that the
    backend served has ended the session, whatever became of its
    answer. *)
Theorem handleSignOut_navigates (w : World) (href : string) :
  exists o w' href',
    SignOut.handleSignOut (w, href) = (o, (w', href'))
    /\ profiles w' = profiles w
    /\ resumes w' = resumes w
    /\ match next_fault w with
       | NoFault => o = Returned tt /\ session w' = None /\ href' = "/auth/login"
       | Fails _ => o = Returned tt /\ session w' = session w /\ href' = "/auth/login"
       | Throws _ => o = Returned tt /\ session w' = session w /\ href' = href
       | ThrowsNullish => o = Returned tt /\ session w' = session w /\ href' = href
       | Hangs => o = Pending /\ session w' = session w /\ href' = href
       | Served (Reported _) => o = Returned tt /\ session w' = None /\ href' = "/auth/login"
       | Served (Rejected _) => o = Returned tt /\ session w' = None /\ href' = href
       | Served RejectedNullish => o = Returned tt /\ session w' = None /\ href' = href
       | Served Unsettled => o = Pending /\ session w' = None /\ href' = href
       end.
Proof.
  unfold SignOut.handleSignOut, try_catch, mbind, M_bind, SignOut.signOut, modify.
  cbn [fst snd].
  destruct (next_fault w) as [| | | | |how]; [..|destruct how];
    eexists _, _, _; (split; [reflexivity|]); by repeat split.
Qed.

(** C6. With no file staged the resume URL the form sends is the
    [existingResumeUrl] of its state, and that is not always the resume
    the profile has. [alice], whose row holds a resume, opens the form,
    which loads that resume's URL; she stages [cv] and submits: the upload
    and the save succeed, and the row holds the URL of the uploaded file,
    while the state is left with no staged file and an empty
    [existingResumeUrl]. She submits again without touching the form: no
    upload is sent, the save carries the empty text as [resume_url], and
    the row has lost its resume. *)
Theorem resume_url_lost_on_second_submit :
  let ui1 := snd (ProfileForm.run ProfileForm.loadUserData ProfileForm.initial with_full_row) in
  let s1 := ProfileForm.handleFileChange [cv] (fst ui1) in
  let ui2 := snd (ProfileForm.run (ProfileForm.handleSubmit s1) s1 (snd ui1)) in
  let ui3 := snd (ProfileForm.run (ProfileForm.handleSubmit (fst ui2)) (fst ui2) (snd ui2)) in
  (Profile.resume_url <$> profiles with_full_row = [Some "https://example.supabase.co/cv.pdf"]
   /\ ProfileForm.existingResumeUrl (fst ui1) = "https://example.supabase.co/cv.pdf")
  /\ (ProfileForm.resumeFile s1 = Some cv
      /\ ProfileForm.existingResumeUrl s1 = "")
  /\ (ProfileForm.success (fst ui2) = "Profile saved successfully!"
      /\ ProfileForm.resumeFile (fst ui2) = None
      /\ ProfileForm.existingResumeUrl (fst ui2) = ""
      /\ Profile.resume_url <$> profiles (snd ui2)
         = [Some (publicUrl with_full_row "a11ce/1700000000123.pdf")])
  /\ (ProfileForm.success (fst ui3) = "Profile saved successfully!"
      /\ List.filter is_upload (calls (snd ui3)) = List.filter is_upload (calls (snd ui2))
      /\ match last (calls (snd ui3)) with
         | Some (ProfilesUpsert values _) => values !! "resume_url" = Some (VStr "")
         | _ => False
         end
      /\ Profile.resume_url <$> profiles (snd ui3) = [Some ""]).
Proof. vm_compute. repeat split; reflexivity. Qed.

(** ** Partial saves *)

Section PartialSave.

(** The update branch of a served upsert. *)
Lemma serve_upsert_ok_update values w rows w' u i old :
  Backend.serve_upsert values w = (Response.mk (Some rows) None, w') ->
  session w = Some u ->
  list_find (fun r => Profile.user_id r = User.id u) (profiles w) = Some (i, old) ->
  exists new0,
    Backend.write_row values old = Some new0
    /\ rows = [Backend.update_updated_at_column (server_clock w) new0].
Proof.
  unfold Backend.serve_upsert. intros Hs Hu Hf. revert Hs.
  destruct (negb (Backend.known_columns values)); [discriminate|].
  rewrite Hu.
  destruct (values !! "user_id") as [[|owner| |]|] eqn:Hv; try discriminate.
  destruct (String.eqb owner (User.id u)) eqn:Ho; simpl; [|discriminate].
  apply String.eqb_eq in Ho. subst owner. rewrite Hf.
  destruct (Backend.write_row values old) as [new0|]; [|discriminate].
  destruct (bool_decide _); [discriminate|].
  intros [= <- <-]. by exists new0.
Qed.

Lemma list_find_owner t old :
  owner_unique t -> old ∈ t ->
  exists i, list_find (fun r => Profile.user_id r = Profile.user_id old) t = Some (i, old).
Proof.
  intros Hn Hin.
  destruct (list_find (fun r => Profile.user_id r = Profile.user_id old) t)
    as [[i old']|] eqn:Hf.
  - exists i. apply list_find_Some in Hf as (Hi & Ho & _).
    apply list_elem_of_lookup in Hin as [j Hj].
    assert (i = j) as ->.
    { apply (NoDup_lookup _ i j (Profile.user_id old) Hn); rewrite list_lookup_fmap.
      - by rewrite Hi; simpl; f_equal.
      - by rewrite Hj. }
    congruence.
  - apply list_find_None in Hf. rewrite Forall_forall in Hf. by destruct (Hf old Hin).
Qed.

(** A column the payload does not name keeps its value. *)
Lemma write_row_keeps values base new :
  Backend.write_row values base = Some new ->
  (values !! "id" = None -> Profile.id new = Profile.id base)
  /\ (values !! "resume_url" = None -> Profile.resume_url new = Profile.resume_url base)
  /\ (values !! "skills" = None -> Profile.skills new = Profile.skills base)
  /\ (values !! "interests" = None -> Profile.interests new = Profile.interests base)
  /\ (values !! "experience_level" = None ->
      Profile.experience_level new = Profile.experience_level base)
  /\ (values !! "preferred_location" = None ->
      Profile.preferred_location new = Profile.preferred_location base)
  /\ (values !! "bio" = None -> Profile.bio new = Profile.bio base)
  /\ (values !! "github_url" = None -> Profile.github_url new = Profile.github_url base)
  /\ (values !! "linkedin_url" = None -> Profile.linkedin_url new = Profile.linkedin_url base)
  /\ (values !! "portfolio_url" = None ->
      Profile.portfolio_url new = Profile.portfolio_url base).
Proof.
  unfold Backend.write_row. intros H.
  repeat split; intros Hk; rewrite Hk in H; simplify_option_eq; reflexivity.
Qed.

End PartialSave.

(** X24. A save of some fields over the identity's existing row changes
    only what it names: the row keeps its [id] when the fields name none,
    it keeps its owner, and every column the fields do not name keeps its
    value ([updated_at] apart, which the save always sets). *)
Theorem saveProfile_partial_update (pd : gmap string JsVal) (w : World) (u : User.t)
    (old : Profile.row) (r : ProfileResult.t) (w' : World) :
  session w = Some u ->
  owner_unique (profiles w) ->
  old ∈ profiles w ->
  Profile.user_id old = User.id u ->
  saveProfile pd w = (Returned r, w') ->
  ProfileResult.success r = true ->
  exists new,
    ProfileResult.data r = Some new
    /\ Profile.user_id new = Profile.user_id old
    /\ (pd !! "id" = None -> Profile.id new = Profile.id old)
    /\ (pd !! "resume_url" = None -> Profile.resume_url new = Profile.resume_url old)
    /\ (pd !! "skills" = None -> Profile.skills new = Profile.skills old)
    /\ (pd !! "interests" = None -> Profile.interests new = Profile.interests old)
    /\ (pd !! "experience_level" = None ->
        Profile.experience_level new = Profile.experience_level old)
    /\ (pd !! "preferred_location" = None ->
        Profile.preferred_location new = Profile.preferred_location old)
    /\ (pd !! "bio" = None -> Profile.bio new = Profile.bio old)
    /\ (pd !! "github_url" = None -> Profile.github_url new = Profile.github_url old)
    /\ (pd !! "linkedin_url" = None -> Profile.linkedin_url new = Profile.linkedin_url old)
    /\ (pd !! "portfolio_url" = None ->
        Profile.portfolio_url new = Profile.portfolio_url old).
Proof.
  intros Hu Hn Hin Hid Hs Hok.
  destruct (saveProfile_success_row _ _ _ _ _ Hu Hs Hok) as (new & Hd & Hnew & _).
  apply saveProfile_success in Hs as (u' & rows & Hu' & Hs & ->); [|done].
  assert (u' = u) as -> by congruence.
  destruct (list_find_owner _ _ Hn Hin) as [i Hf]. rewrite Hid in Hf.
  destruct (serve_upsert_ok_update _ _ _ _ u i old Hs Hu Hf) as (new0 & Hw & ->).
  simpl in Hd. injection Hd as <-.
  exists (Backend.update_updated_at_column (server_clock w) new0).
  split; [done|]. split; [by rewrite Hnew, Hid|].
  destruct (write_row_keeps _ _ _ Hw) as (K1 & K2 & K3 & K4 & K5 & K6 & K7 & K8 & K9 & K10).
  repeat split; intros Hk; simpl;
    [apply K1|apply K2|apply K3|apply K4|apply K5|apply K6|apply K7|apply K8|apply K9|apply K10];
    by rewrite profileToSave_other.
Qed.

Lemma saveProfile_partial_update_witness :
  exists new,
    ProfileResult.data (ProfileResult.mk true (Some second_row) None) = Some new
    /\ Profile.user_id new = Profile.user_id first_row
    /\ (bio_ho !! "id" = None ->
        Profile.id new = Profile.id first_row)
    /\ (bio_ho !! "resume_url" = None ->
        Profile.resume_url new = Profile.resume_url first_row)
    /\ (bio_ho !! "skills" = None ->
        Profile.skills new = Profile.skills first_row)
    /\ (bio_ho !! "interests" = None ->
        Profile.interests new = Profile.interests first_row)
    /\ (bio_ho !! "experience_level" = None ->
        Profile.experience_level new = Profile.experience_level first_row)
    /\ (bio_ho !! "preferred_location" = None ->
        Profile.preferred_location new = Profile.preferred_location first_row)
    /\ (bio_ho !! "bio" = None ->
        Profile.bio new = Profile.bio first_row)
    /\ (bio_ho !! "github_url" = None ->
        Profile.github_url new = Profile.github_url first_row)
    /\ (bio_ho !! "linkedin_url" = None ->
        Profile.linkedin_url new = Profile.linkedin_url first_row)
    /\ (bio_ho !! "portfolio_url" = None ->
        Profile.portfolio_url new = Profile.portfolio_url first_row).
Proof.
  apply (saveProfile_partial_update bio_ho after_first_save alice first_row
           (ProfileResult.mk true (Some second_row) None) after_second_save).
  - reflexivity.
  - apply NoDup_singleton.
  - apply list_elem_of_singleton. reflexivity.
  - reflexivity.
  - vm_compute. reflexivity.
  - reflexivity.
Defined.

(** ** Requests that reject with nothing, or never settle *)

(** X26. The [catch] of each helper reads [error.message]. When the
    helper's first request rejects with [null] or [undefined], that read
    throws a [TypeError] (the message text is the engine's), and the
    helper throws it to its caller instead of returning a declined
    result. The same happens in [saveProfile] when the upsert rejects so.
    In [getCurrentUserWithProfile] the error [loadProfile] throws in
    this way is caught, and returned as a declined result with its
    message. *)
Theorem helpers_throw_on_nullish_rejection (w w' : World) :
  (forall file userId,
      File.type file ∈ allowedTypes ->
      File.size file <= maxSize ->
      Backend.upload (fileName userId (client_clock w) file) file false w = (ThrownNullish, w') ->
      uploadResume file userId w = (Thrown TypeError_nullish_message, w'))
  /\ (Backend.getUser w = (ThrownNullish, w') ->
      (forall pd, saveProfile pd w = (Thrown TypeError_nullish_message, w'))
      /\ getCurrentUserWithProfile w = (Thrown TypeError_nullish_message, w'))
  /\ (forall pd u,
      next_fault w = NoFault ->
      session w = Some u ->
      Backend.upsert (profileToSave u pd (client_clock w)) "user_id" (sent AuthGetUser w)
      = (ThrownNullish, w') ->
      saveProfile pd w = (Thrown TypeError_nullish_message, w'))
  /\ (forall userId,
      Backend.select_single userId w = (ThrownNullish, w') ->
      loadProfile userId w = (Thrown TypeError_nullish_message, w'))
  /\ (forall u,
      next_fault w = NoFault ->
      session w = Some u ->
      Backend.select_single (User.id u) (sent AuthGetUser w) = (ThrownNullish, w') ->
      getCurrentUserWithProfile w
      = (Returned (UserProfileResult.mk false None None
                     (Some ("Failed to get user data: "
                            +:+ Error.message TypeError_nullish_message))), w')).
Proof.
  split; [|split; [|split; [|split]]].
  - intros file userId Ht Hs Hup. apply uploadResume_nullish; [by apply includes_elem_of|done..].
  - intros Hu. split; [intros pd; by apply saveProfile_nullish|].
    by apply getCurrentUserWithProfile_nullish.
  - intros pd u Hf Hu Hup. unfold saveProfile, try_catch, mbind, M_bind.
    rewrite getUser_run, Hf, Hu. cbn [AuthResponse.error AuthResponse.user].
    unfold Date_now, gets.
    change (client_clock (sent AuthGetUser w)) with (client_clock w).
    by rewrite Hup.
  - intros userId. apply loadProfile_nullish.
  - intros u Hf Hu Hsel. rewrite (getCurrentUserWithProfile_run w u) by done.
    by rewrite (loadProfile_nullish _ _ _ Hsel).
Qed.

Lemma helpers_throw_on_nullish_rejection_witness :
  uploadResume cv "a11ce" nullish
  = (Thrown TypeError_nullish_message,
     sent (StorageUpload "resumes" "a11ce/1700000000123.pdf" cv false) nullish)
  /\ saveProfile bio_ho nullish = (Thrown TypeError_nullish_message, sent AuthGetUser nullish)
  /\ getCurrentUserWithProfile nullish
     = (Thrown TypeError_nullish_message, sent AuthGetUser nullish)
  /\ loadProfile "a11ce" nullish
     = (Thrown TypeError_nullish_message, sent (ProfilesSelectSingle "a11ce") nullish).
Proof.
  split; [|split; [|split]].
  - apply (proj1 (helpers_throw_on_nullish_rejection nullish
                    (sent (StorageUpload "resumes" "a11ce/1700000000123.pdf" cv false)
                          nullish)) cv "a11ce").
    + apply (bool_decide_unpack _). vm_compute. exact I.
    + vm_compute. discriminate.
    + reflexivity.
  - apply (proj1 (proj2 (helpers_throw_on_nullish_rejection nullish
                           (sent AuthGetUser nullish)))).
    reflexivity.
  - apply (proj1 (proj2 (helpers_throw_on_nullish_rejection nullish
                           (sent AuthGetUser nullish)))).
    reflexivity.
  - apply (proj1 (proj2 (proj2 (proj2 (helpers_throw_on_nullish_rejection nullish
                                         (sent (ProfilesSelectSingle "a11ce") nullish)))))).
    reflexivity.
Defined.

(** X27. A request that never settles leaves the form saving: when, for a
    signed-in user, the upload of the staged file stays pending, or the
    save does (after a successful upload, or with no file staged),
    [handleSubmit] has not returned, nothing has reset [saving], and the
    form on screen shows the submit button disabled, labelled
    [Saving...]. *)
Theorem hung_request_leaves_saving (s : ProfileForm.State) (w w1 : World) (u : User.t) :
  ProfileForm.user s = Some u ->
  ProfileForm.loading s = false ->
  (exists file,
      ProfileForm.resumeFile s = Some file
      /\ (uploadResume file (User.id u) w = (Pending, w1)
          \/ exists r w0,
              uploadResume file (User.id u) w = (Returned r, w0)
              /\ UploadResult.success r = true
              /\ saveProfile
                   (ProfileForm.profileData (UploadResult.url r)
                      (toArray (FormData.skills (ProfileForm.formData s)))
                      (toArray (FormData.interests (ProfileForm.formData s)))
                      (ProfileForm.formData s)) w0
                 = (Pending, w1)))
  \/ (ProfileForm.resumeFile s = None
      /\ saveProfile
           (ProfileForm.profileData (Some (ProfileForm.existingResumeUrl s))
              (toArray (FormData.skills (ProfileForm.formData s)))
              (toArray (FormData.interests (ProfileForm.formData s)))
              (ProfileForm.formData s)) w
         = (Pending, w1)) ->
  ProfileForm.run (ProfileForm.handleSubmit s) s w
  = (Pending,
     (ProfileForm.setSuccess "" (ProfileForm.setError "" (ProfileForm.setSaving true s)), w1))
  /\ exists form,
      ProfileView.render
        (ProfileForm.setSuccess "" (ProfileForm.setError "" (ProfileForm.setSaving true s)))
      = ProfileView.ProfileSettings form
      /\ ProfileView.submitDisabled form = true
      /\ ProfileView.submitLabel form = "Saving...".
Proof.
  intros Hu Hl Hcase. split.
  - unfold ProfileForm.run, ProfileForm.handleSubmit. rewrite Hu.
    unfold try_finally, try_catch, mbind, M_bind.
    unfold ProfileForm.set at 1 2 3. unfold modify. cbn [fst snd].
    destruct Hcase as [(file & -> & [Hup|(r & w0 & Hup & Hok & Hs)])|[-> Hs]].
    + unfold ProfileForm.await. cbn [fst snd]. by rewrite Hup.
    + unfold ProfileForm.await at 1. cbn [fst snd]. rewrite Hup, Hok. cbn [negb].
      by rewrite submitProfile_run, Hs.
    + by rewrite submitProfile_run, Hs.
  - unfold ProfileView.render. cbn. rewrite Hl, Hu. eexists. by repeat split.
Qed.

Lemma hung_request_leaves_saving_witness :
  ProfileForm.run (ProfileForm.handleSubmit cv_staged) cv_staged hung
  = (Pending,
     (ProfileForm.setSuccess ""
        (ProfileForm.setError "" (ProfileForm.setSaving true cv_staged)),
      sent (StorageUpload "resumes" "a11ce/1700000000123.pdf" cv false) hung))
  /\ exists form,
      ProfileView.render
        (ProfileForm.setSuccess ""
           (ProfileForm.setError "" (ProfileForm.setSaving true cv_staged)))
      = ProfileView.ProfileSettings form
      /\ ProfileView.submitDisabled form = true
      /\ ProfileView.submitLabel form = "Saving...".
Proof.
  apply (hung_request_leaves_saving cv_staged hung
           (sent (StorageUpload "resumes" "a11ce/1700000000123.pdf" cv false) hung) alice).
  - reflexivity.
  - reflexivity.
  - left. exists cv. split; [reflexivity|]. left. reflexivity.
Defined.
